(** * scrap_menu.py: the menu-discovery engine, embedded and verified

    The development follows [src/scrap_menu.py].  Python values are
    modelled as the program has them:

    - a [str] is a list of Unicode code points ([N]); literals of the
      source are written with [lit];
    - integers (scores, HTTP status codes, the page budget) are [Z];
    - the insertion-ordered [dict] of candidates is an association list
      whose order is the insertion order; the robots cache and the file
      system are [gmap]s, the set of seen URLs is a [gset];
    - effects (HTTP requests, file writes, the robots cache) are threaded
      through an explicit state, and every request and write is recorded
      in a trace.

    What the program obtains from libraries it does not define (Unicode
    tables, urllib, robotparser, BeautifulSoup, the network, the clock,
    disk faults) is kept abstract in the classes [PyLib] and [Outside];
    the theorems hold for every instance, and the examples run on the
    instance of the module [Demo].

    The runs described are those that return.  The exceptions the
    program catches (a failed request, a failed write, unreadable
    metadata) are modelled as outcomes of the call and followed
    through the handler.  An exception it does not catch ends the run
    without a result: [urlparse] and [urljoin] raise [ValueError] on a
    URL with an unmatched bracket after the scheme, in
    [normalize_url], [fetch_robots],
    [discover_menu_links], [build_guessed_menu_pages] and the loop over
    the candidates, and [os.makedirs] may raise [OSError] in
    [ensure_dir].  The functions of [PyLib] and [ensure_dir] give what
    these calls return when they return; every statement about a run
    is a statement about the result and the state it returns with.
    The trace lists the calls the program makes: one event for each
    call of [client.get] (the client is set to follow redirects, and
    the requests it sends on its own to do so are within that call),
    of [os.makedirs] and of [open] for writing.  The development follows one call of
    [process_restaurant] from its first line to its return; what other
    workers do in between is not interleaved.  Of [load_restaurants],
    [run] and [main] it has what they compute around these calls: the
    restaurants built from the objects of the JSON file, the selection
    by offset and limit, the status of the progress line and the counts
    of the summary. *)

From Stdlib Require Import ZArith NArith List Ascii String Bool Lia.
From stdpp Require Import gmap.
Import ListNotations.
Open Scope Z_scope.

(** ** Python strings *)

Abbreviation str := (list N).

Definition lit (s : string) : str :=
  List.map N_of_ascii (list_ascii_of_string s).

Definition str_eqb (a b : str) : bool := bool_decide (a = b).

(** [a.startswith(b)] *)
Fixpoint startswith (a b : str) : bool :=
  match b, a with
  | [], _ => true
  | _ :: _, [] => false
  | y :: b', x :: a' => N.eqb x y && startswith a' b'
  end.

(** [b in a] for strings: some suffix of [a] starts with [b]. *)
Fixpoint contains (a b : str) : bool :=
  startswith a b ||
  match a with
  | [] => false
  | _ :: a' => contains a' b
  end.

(** [a.endswith(b)] *)
Definition endswith (a b : str) : bool := startswith (rev a) (rev b).

(** [a.lstrip(chars)], [a.rstrip(chars)] and [a.strip(chars)], the set
    of characters given as a predicate. *)
Fixpoint lstrip_by (p : N -> bool) (a : str) : str :=
  match a with
  | [] => []
  | c :: a' => if p c then lstrip_by p a' else a
  end.

Definition rstrip_by (p : N -> bool) (a : str) : str :=
  rev (lstrip_by p (rev a)).

Definition strip_by (p : N -> bool) (a : str) : str :=
  rstrip_by p (lstrip_by p a).

Definition is_chr (s : string) (c : N) : bool :=
  List.existsb (N.eqb c) (lit s).

(** [a.replace(x, y)] for single characters. *)
Definition replace_chr (x y : N) (a : str) : str :=
  List.map (fun c => if N.eqb c x then y else c) a.

(** [a.split(sep)[0]] for a single-character separator. *)
Fixpoint split_head (sep : N) (a : str) : str :=
  match a with
  | [] => []
  | c :: a' => if N.eqb c sep then [] else c :: split_head sep a'
  end.

(** [x or default] on strings: the empty string is falsy. *)
Definition str_or (x default : str) : str :=
  match x with [] => default | _ => x end.

(** [(x or "")] for an optional string. *)
Definition opt_or_empty (x : option str) : str :=
  match x with Some s => s | None => [] end.

(** [os.path.basename] (posixpath): what follows the last slash. *)
Fixpoint basename (p : str) : str :=
  match p with
  | [] => []
  | c :: p' =>
      if List.existsb (N.eqb 47) p' then basename p'
      else if N.eqb c 47 then p' else p
  end.

(** [os.path.splitext(p)[1]] (posixpath) on a path: the extension of
    the last component, from its last dot, unless that dot is preceded
    by dots only. *)
Fixpoint ext_from_last_dot (name : str) : option str :=
  match name with
  | [] => None
  | c :: name' =>
      match ext_from_last_dot name' with
      | Some e => Some e
      | None => if N.eqb c 46 then Some name else None
      end
  end.

Definition splitext_ext (p : str) : str :=
  let name := basename p in
  let body := lstrip_by (N.eqb 46) name in
  match ext_from_last_dot body with
  | Some e => e
  | None => []
  end.

(** [os.path.join(a, b)] (posixpath). *)
Definition path_join (a b : str) : str :=
  if startswith b (lit "/") then b
  else if str_eqb a [] || endswith a (lit "/") then a ++ b
  else a ++ lit "/" ++ b.

(** [re.sub(r"[^a-z0-9]+", "-", a)]: every maximal run of characters
    outside [a-z0-9] becomes one hyphen. *)
Definition is_lower_alnum (c : N) : bool :=
  (N.leb 97 c && N.leb c 122) || (N.leb 48 c && N.leb c 57).

Fixpoint sub_non_alnum (in_run : bool) (a : str) : str :=
  match a with
  | [] => []
  | c :: a' =>
      if is_lower_alnum c then c :: sub_non_alnum false a'
      else if in_run then sub_non_alnum true a'
      else 45%N :: sub_non_alnum true a'
  end.

(** [str(n)] for an integer. *)
Fixpoint digits_of_pos (fuel : nat) (n : N) (acc : str) : str :=
  match fuel with
  | O => acc
  | S fuel' =>
      let acc' := (48 + n mod 10)%N :: acc in
      if N.ltb n 10 then acc' else digits_of_pos fuel' (n / 10)%N acc'
  end.

Definition str_of_Z (z : Z) : str :=
  let n := Z.to_N (Z.abs z) in
  let ds := digits_of_pos (S (N.to_nat (N.log2 n))) n [] in
  if Z.ltb z 0 then 45%N :: ds else ds.

(** [f"{x}"] for optional values: [None] prints as "None". *)
Definition fmt_opt_str (x : option str) : str :=
  match x with Some s => s | None => lit "None" end.

Definition fmt_opt_Z (x : option Z) : str :=
  match x with Some z => str_of_Z z | None => lit "None" end.

(** ** HTML documents

    An HTML text together with what [BeautifulSoup(html, "html.parser")]
    reports about it: the program reads documents only through these
    observations. *)

Record Anchor := {
  a_href : option str;          (* a.get("href") *)
  a_text : str                  (* a.get_text(" ", strip=True) *)
}.

Record Html := {
  html_source : str;                    (* the text itself *)
  soup_text : str;                      (* get_text(" ", strip=True) *)
  soup_anchors : list Anchor;           (* find_all("a") *)
  soup_title : option str;              (* soup.title.string, if any *)
  soup_meta_robots : option (option str)
    (* find("meta", attrs={"name": "robots"}) and its content attribute *)
}.

(** ** What the libraries provide *)

(** [str.lower] on an ASCII character. *)
Definition lower_chr (c : N) : N :=
  if N.leb 65 c && N.leb c 90 then (c + 32)%N else c.

Definition is_ascii (c : N) : Prop := (c < 128)%N.

Class PyLib := {
  (** Unicode tables: [str.lower], which on ASCII text lowers every
      letter and nothing else, and which lowers what precedes and what
      follows a space (U+0020) independently *)
  str_lower : str -> str;
  str_lower_ascii :
    forall s, Forall is_ascii s -> str_lower s = List.map lower_chr s;
  str_lower_blank :
    forall a b, str_lower (a ++ 32%N :: b)
                = str_lower a ++ 32%N :: str_lower b;
  (** the classes of [str.strip] and of [re]'s [\s], [\d] and [\w]:
      a digit is a word character, white space is not, the space is
      white space and the dollar sign is not a word character *)
  is_space : N -> bool;
  is_digit : N -> bool;
  is_word : N -> bool;
  is_digit_word : forall c, is_digit c = true -> is_word c = true;
  is_space_not_word : forall c, is_space c = true -> is_word c = false;
  is_space_blank : is_space 32%N = true;
  dollar_not_word : is_word 36%N = false;
  (** urllib.parse, on the URLs it accepts: what [urljoin] returns and
      the attributes of what [urlparse] returns (on a URL they reject
      they raise [ValueError], which the program does not catch) *)
  urljoin : str -> str -> str;
  url_scheme : str -> str;
  url_netloc : str -> str;
  url_hostname : str -> option str;
  url_path : str -> str;
  (** os.path.relpath, which depends on the working directory *)
  relpath : str -> str;
  (** urllib.robotparser: a parsed robots.txt and [can_fetch] *)
  Robots : Type;
  robots_parse : str -> Robots;
  can_fetch : Robots -> str -> str -> bool
}.

(** ** Data model *)

Record Restaurant := {
  uuid : str;
  slug : str;
  name : str;
  website : option str
}.

Record MenuPage := {
  url : str;
  label : str;
  score : Z;
  content_type : option str;
  status_code : option Z;
  is_menu_like_flag : option bool;
  guessed : bool
}.

Definition mk_page (u l : str) (s : Z) (g : bool) : MenuPage :=
  {| url := u; label := l; score := s; content_type := None;
     status_code := None; is_menu_like_flag := None; guessed := g |}.

Definition USER_AGENT : str :=
  lit "Mozilla/5.0 (X11; Linux x86_64) AppleWebKit/537.36 (KHTML, like Gecko) Chrome/120.0.0.0 Safari/537.36".

Definition CATEGORY_KEYWORDS : list str := List.map lit
  [ "appetizer"; "appetizers"; "starters"; "sides"; "entrees"; "mains";
    "main"; "pasta"; "pizzas"; "pizza"; "desserts"; "brunch"; "lunch";
    "dinner"; "drinks"; "beverages"; "beverage"; "wine"; "cocktails";
    "beer"; "kids"; "salads"; "soup"; "soups" ]%string.

Definition POSITIVE_MENU_HINTS : list str := List.map lit
  [ "menu"; "menus"; "our menu"; "food"; "order"; "order online";
    "lunch"; "dinner"; "brunch"; "drinks"; "beverages"; "happy hour" ]%string.

Definition NEGATIVE_HINTS : list str := List.map lit
  [ "reservations"; "reservation"; "gift"; "careers"; "jobs"; "press";
    "gallery"; "photos"; "contact"; "privacy"; "terms"; "accessibility" ]%string.

Definition EXTERNAL_MENU_HOSTS : list str := List.map lit
  [ "toasttab.com"; "clover.com"; "square.site"; "ubereats.com";
    "doordash.com"; "grubhub.com"; "opentable.com"; "resy.com";
    "tock.com"; "olo.com" ]%string.

Definition COMMON_MENU_PATHS : list str := List.map lit
  [ "/menu"; "/menus"; "/our-menu"; "/our-menus"; "/food-menu";
    "/food-menus"; "/dinner-menu"; "/lunch-menu"; "/brunch-menu";
    "/breakfast-menu"; "/kids-menu"; "/kid-menu"; "/kids";
    "/drinks-menu"; "/drink-menu"; "/beverages-menu"; "/beverage-menu";
    "/wine-menu"; "/dessert-menu"; "/specials"; "/daily-specials";
    "/today-specials"; "/buffet-menu"; "/takeaway-menu";
    "/take-out-menu"; "/delivery-menu"; "/order-online/menu";
    "/order/menu";
    "/menu.html"; "/menus.html"; "/our-menu.html"; "/food-menu.html";
    "/lunch-menu.html"; "/dinner-menu.html";
    "/menu.pdf"; "/menus.pdf"; "/our-menu.pdf"; "/food-menu.pdf";
    "/dinner-menu.pdf"; "/lunch-menu.pdf"; "/brunch-menu.pdf";
    "/breakfast-menu.pdf"; "/kids-menu.pdf"; "/drinks-menu.pdf";
    "/drink-menu.pdf"; "/takeaway-menu.pdf"; "/take-out-menu.pdf";
    "/dessert-menu.pdf"; "/wine-menu.pdf"; "/specials.pdf";
    "/buffet-menu.pdf";
    "/wp-content/uploads/menu.pdf"; "/wp-content/uploads/menus.pdf";
    "/wp-content/uploads/2023/menu.pdf";
    "/wp-content/uploads/2024/menu.pdf";
    "/wp-content/uploads/2022/menu.pdf"; "/files/menu.pdf";
    "/uploads/menu.pdf"; "/download/menu.pdf"; "/documents/menu.pdf";
    "/docs/menu.pdf";
    "/menu/dinner"; "/menu/lunch"; "/menu/brunch"; "/menu/breakfast";
    "/menu/drinks"; "/menu/beverages"; "/menu/kids"; "/menu/dessert";
    "/menu/specials";
    "/restaurant-menu"; "/the-menu"; "/menus-list"; "/full-menu";
    "/complete-menu"; "/menu-card"; "/menu-list"; "/food"; "/eat";
    "/order"; "/order-online" ]%string.

(** ** Regular expressions

    A backtracking matcher for the fragment of [re] the program uses:
    word boundaries, character classes, greedy bounded and unbounded
    repetition of a class, greedy optional groups and concatenation.
    [rmatch r prev s n k] matches [r] at a position whose previous
    character is [prev] and whose remaining input is [s], [n]
    characters into the match, and hands every way of matching to the
    continuation [k] in the order of Python's engine. *)

Inductive regex :=
| Bound                                   (* \b *)
| Class (p : N -> bool)                   (* one character of a class *)
| Rep (lo hi : nat) (p : N -> bool)       (* p{lo,hi} *)
| Star (p : N -> bool)                    (* p* *)
| Opt (r : regex)                         (* (?:r)? *)
| Seq (r1 r2 : regex).

Definition or_else {A} (x : option A) (y : option A) : option A :=
  match x with Some _ => x | None => y end.

Section Regex.
Context `{PyLib}.

Definition word_at (c : option N) : bool :=
  match c with Some c => is_word c | None => false end.

Fixpoint rep (p : N -> bool) (lo hi : nat) (prev : option N) (s : str)
    (n : nat) (k : option N -> str -> nat -> option nat) : option nat :=
  let stop := if Nat.eqb lo 0 then k prev s n else None in
  match hi with
  | O => stop
  | S hi' =>
      match s with
      | c :: s' =>
          if p c
          then or_else (rep p (Nat.pred lo) hi' (Some c) s' (S n) k) stop
          else stop
      | [] => stop
      end
  end.

Fixpoint star (p : N -> bool) (prev : option N) (s : str)
    (n : nat) (k : option N -> str -> nat -> option nat) : option nat :=
  match s with
  | c :: s' =>
      if p c
      then or_else (star p (Some c) s' (S n) k) (k prev s n)
      else k prev s n
  | [] => k prev s n
  end.

Fixpoint rmatch (r : regex) (prev : option N) (s : str) (n : nat)
    (k : option N -> str -> nat -> option nat) : option nat :=
  match r with
  | Bound =>
      if xorb (word_at prev) (word_at (List.head s)) then k prev s n
      else None
  | Class p =>
      match s with
      | c :: s' => if p c then k (Some c) s' (S n) else None
      | [] => None
      end
  | Rep lo hi p => rep p lo hi prev s n k
  | Star p => star p prev s n k
  | Opt r1 => or_else (rmatch r1 prev s n k) (k prev s n)
  | Seq r1 r2 =>
      rmatch r1 prev s n (fun prev' s' n' => rmatch r2 prev' s' n' k)
  end.

(** The length of the match of [r] at this position, if any. *)
Definition match_here (r : regex) (prev : option N) (s : str)
    : option nat :=
  rmatch r prev s 0%nat (fun _ _ n => Some n).

(** [len(r.findall(s))]: matches are searched from left to right and
    do not overlap; [skip] characters of the last match remain to be
    passed over. *)
Fixpoint findall_from (r : regex) (prev : option N) (s : str)
    (skip : nat) : nat :=
  match s with
  | [] =>
      match skip, match_here r prev [] with
      | O, Some _ => 1%nat
      | _, _ => 0%nat
      end
  | c :: s' =>
      match skip with
      | S skip' => findall_from r (Some c) s' skip'
      | O =>
          match match_here r prev s with
          | Some n => S (findall_from r (Some c) s' (Nat.pred n))
          | None => findall_from r (Some c) s' 0%nat
          end
      end
  end.

Definition findall_count (r : regex) (s : str) : nat :=
  findall_from r None s 0%nat.

(** PRICE_RE, written here with spaces between its parts:
    \b (?: \$ \s* )? \d{1,3} (?: [\.,] \d{2} )? \b *)
Definition PRICE_RE : regex :=
  Seq Bound
    (Seq (Opt (Seq (Class (is_chr "$")) (Star is_space)))
      (Seq (Rep 1 3 is_digit)
        (Seq (Opt (Seq (Class (is_chr ".,")) (Rep 2 2 is_digit)))
          Bound))).

(** [CURRENCY_RE = [$£€]]: U+0024, U+00A3, U+20AC *)
Definition is_currency (c : N) : bool :=
  N.eqb c 36 || N.eqb c 163 || N.eqb c 8364.

Definition CURRENCY_RE : regex := Class is_currency.

End Regex.

(** ** Insertion-ordered dictionaries

    [candidates: Dict[str, MenuPage]] is iterated by [values()], so the
    order of first insertion is part of its meaning. *)

Fixpoint odict_get {V} (k : str) (d : list (str * V)) : option V :=
  match d with
  | [] => None
  | (k', v) :: d' => if str_eqb k' k then Some v else odict_get k d'
  end.

(** [d[k] = v]: an existing key keeps its place, a new one goes last. *)
Fixpoint odict_set {V} (k : str) (v : V) (d : list (str * V))
    : list (str * V) :=
  match d with
  | [] => [(k, v)]
  | (k', v') :: d' =>
      if str_eqb k' k then (k', v) :: d' else (k', v') :: odict_set k v d'
  end.

Definition odict_values {V} (d : list (str * V)) : list V :=
  List.map snd d.

(** [sorted(l, key=lambda m: m.score, reverse=True)]: a stable sort,
    highest score first; equal scores keep their order. *)
Fixpoint insert_by_score (x : MenuPage) (l : list MenuPage)
    : list MenuPage :=
  match l with
  | [] => [x]
  | y :: l' =>
      if Z.leb (score y) (score x) then x :: l
      else y :: insert_by_score x l'
  end.

Definition sorted_by_score_desc (l : list MenuPage) : list MenuPage :=
  List.fold_right insert_by_score [] l.

(** ** The pure functions of the engine *)

Section Pure.
Context `{PyLib}.

Definition strip (a : str) : str := strip_by is_space a.

Definition normalize_url (u : str) : str :=
  match u with
  | [] => u
  | _ => match url_scheme u with
         | [] => lit "https://" ++ u
         | _ => u
         end
  end.

Definition host_matches_external (host : str) : bool :=
  let host := str_lower host in
  List.existsb
    (fun dom => str_eqb host dom || endswith host (lit "." ++ dom))
    EXTERNAL_MENU_HOSTS.

(** [same_host] is not used by the engine and is left out. *)

Definition score_link (text href : str) : Z :=
  let t := str_lower (strip text) in
  let h := str_lower (strip href) in
  let score :=
    List.fold_left
      (fun score kw =>
         if contains t kw || contains h kw
         then score + (if contains kw (lit "menu") then 3 else 2)
         else score)
      POSITIVE_MENU_HINTS 0 in
  let score :=
    List.fold_left
      (fun score bad =>
         if contains t bad || contains h bad then score - 3 else score)
      NEGATIVE_HINTS score in
  let score :=
    if List.existsb (contains h)
         (List.map lit
            ["/menu"; "/menus"; "food-menu"; "our-menu"; "menu.html"]%string)
    then score + 3 else score in
  if endswith h (lit ".pdf") then score + 4 else score.

(** The three counts [is_menu_like] takes over the visible text. *)
Definition price_hits (text : str) : nat :=
  findall_count PRICE_RE text.

Definition currency_hits (text : str) : nat :=
  findall_count CURRENCY_RE text.

Definition cat_hits (text : str) : nat :=
  let text_lower := str_lower text in
  List.length
    (List.filter (fun kw => contains text_lower kw) CATEGORY_KEYWORDS).

Definition is_menu_like (html : Html) : bool :=
  let text := soup_text html in
  if Nat.leb 3 (price_hits text) then true
  else if Nat.leb 2 (currency_hits text) then true
  else if Nat.leb 1 (price_hits text) && Nat.leb 3 (cat_hits text)
  then true
  else false.

Definition looks_like_error_page (html : Html) (status : option Z)
    : bool :=
  match status with
  | Some c => Z.leb 400 c
  | None => false
  end
  ||
  let title :=
    match soup_title html with
    | Some ((_ :: _) as s) => str_lower (strip s)
    | _ => []
    end in
  List.existsb (contains title)
    (List.map lit ["404"; "page not found"; "not found"; "error"]%string)
  ||
  let robots_content :=
    match soup_meta_robots html with
    | Some c => str_lower (opt_or_empty c)
    | None => []
    end in
  let text := str_lower (soup_text html) in
  contains robots_content (lit "noindex") &&
  List.existsb (contains text)
    (List.map lit
       ["page does not exist"; "page not found";
        "this page does not exist"; "oops"]%string).

Definition sanitize_label (l : str) : str :=
  let l := str_or (strip (str_lower l)) (lit "menu") in
  let l := strip_by (is_chr "-") (sub_non_alnum false l) in
  let l := str_or l (lit "menu") in
  List.firstn 60 l.

Definition restaurant_output_dir (out_root : str) (r : Restaurant)
    : str * str :=
  let slug_unique :=
    match uuid r with
    | [] => slug r
    | _ => slug r ++ lit "--" ++ List.firstn 8 (uuid r)
    end in
  (path_join out_root slug_unique, slug_unique).

(** The score [s] an anchor gets in [discover_menu_links]: that of
    [score_link], raised by 6 on an external menu host. *)
Definition anchor_score (base_url href text : str) : Z :=
  let abs_url := urljoin base_url href in
  let s := score_link text href in
  let host := opt_or_empty (url_hostname abs_url) in
  if host_matches_external host then s + 6 else s.

(** One turn of the loop over the anchors of the homepage. *)
Definition add_anchor (base_url : str)
    (candidates : list (str * MenuPage)) (a : Anchor)
    : list (str * MenuPage) :=
  match a_href a with
  | None | Some [] => candidates
  | Some href =>
      let abs_url := urljoin base_url href in
      let text := List.firstn 200 (a_text a) in
      let s := anchor_score base_url href text in
      if Z.leb s 0 then candidates
      else
        let mp :=
          mk_page abs_url
            (List.firstn 60 (str_lower (str_or text (lit "menu"))))
            s false in
        match odict_get abs_url candidates with
        | None => odict_set abs_url mp candidates
        | Some old =>
            if Z.ltb (score old) s then odict_set abs_url mp candidates
            else candidates
        end
  end.

(** The dictionary of candidates as it stands before ranking. *)
Definition candidate_dict (base_url : str) (html : Html)
    : list (str * MenuPage) :=
  let candidates := List.fold_left (add_anchor base_url)
                      (soup_anchors html) [] in
  if is_menu_like html
  then odict_set base_url (mk_page base_url (lit "menu") 5 false)
         candidates
  else candidates.

Definition discover_menu_links (base_url : str) (html : Html)
    : list MenuPage :=
  List.firstn 12
    (sorted_by_score_desc (odict_values (candidate_dict base_url html))).

Definition build_guessed_menu_pages (base_url : str) : list MenuPage :=
  let root := url_scheme base_url ++ lit "://" ++ url_netloc base_url in
  List.map
    (fun path =>
       let u := urljoin (root ++ lit "/") (lstrip_by (is_chr "/") path) in
       let l := str_or (replace_chr 45 32 (strip_by (is_chr "/") path))
                  (lit "menu") in
       mk_page u (List.firstn 60 l) 8 true)
    COMMON_MENU_PATHS.

End Pure.

(** ** Results, metadata and the file system *)

(** An entry of [saved_files]. *)
Record SavedFile := {
  sf_url : option str;
  sf_file : str;
  sf_status : option Z;
  sf_content_type : option str;
  sf_is_menu_like : bool
}.

(** The result dictionary of [process_restaurant]; [r_skipped] is [None]
    when the dictionary has no ["skipped"] key. *)
Record Result := {
  r_uuid : str;
  r_slug : str;
  r_name : str;
  r_website : option str;
  r_found : bool;
  r_saved_files : list SavedFile;
  r_errors : list str;
  r_skipped : option bool
}.

(** The value of the ["errors"] key of a metadata object: absent, a
    list, or something [append] cannot be called on. *)
Inductive MetaErrors :=
| ErrorsAbsent
| ErrorsList (l : list str)
| ErrorsOther.

(** A JSON object of the shape of [metadata.json]; an absent key is
    [None] (for ["saved_files"], also a value that is falsy). *)
Record Meta := {
  m_uuid : option str;
  m_name : option str;
  m_website : option (option str);
  m_timestamp : option str;
  m_found : option bool;
  m_saved_files : option (list SavedFile);
  m_errors : MetaErrors
}.

(** What a file holds.  [json.dump] and [json.load] are not modelled
    character by character: a file holding the serialisation of a
    metadata object is [FMeta]; [json.load] raises on every other
    content. *)
Inductive FileContent :=
| FText (s : str)           (* a saved page *)
| FBytes (b : list N)       (* a saved PDF *)
| FMeta (m : Meta)          (* metadata.json *)
| FPartial.                 (* a file left behind by a failed write *)

Inductive Node :=
| NFile (c : FileContent)
| NDir.

Definition json_load (c : FileContent) : option Meta :=
  match c with
  | FMeta m => Some m
  | _ => None
  end.

(** ** The outside world *)

Record HttpResponse := {
  resp_status : Z;
  resp_content_type : option str;    (* the Content-Type header *)
  resp_text : Html;
  resp_content : list N
}.

Inductive HttpOutcome :=
| HttpOk (r : HttpResponse)
| HttpRaise (e : str).

(** [open] followed by a write: both succeed, [open] raises, or the
    write raises after [open] has created or truncated the file. *)
Inductive WriteOutcome :=
| WriteOk
| OpenFails (e : str)
| WriteFails (e : str).

(** The servers, the clock and the disk faults are a state machine of
    their own, about which nothing is assumed. *)
Class Outside := {
  Env : Type;
  http_get : Env -> str -> HttpOutcome * Env;
  now_iso : Env -> str;
  disk_write : Env -> str -> WriteOutcome * Env
}.

Inductive Event :=
| EvGet (u : str)
| EvMkdir (path : str)
| EvWrite (path : str) (c : FileContent) (o : WriteOutcome).

Definition is_get (e : Event) : bool :=
  match e with EvGet _ => true | _ => false end.

Section Engine.
Context `{PyLib} `{Outside}.

(** The state the program runs in; the trace has the most recent
    event first. *)
Record State := {
  st_env : Env;
  st_fs : gmap str (gmap str Node);
  st_cache : gmap str Robots;
  st_trace : list Event
}.

Definition M (A : Type) : Type := State -> A * State.

Definition ret {A} (x : A) : M A := fun st => (x, st).

Definition bind {A B} (m : M A) (k : A -> M B) : M B :=
  fun st => let (x, st') := m st in k x st'.

End Engine.

Notation "'let*' x ':=' m 'in' k" := (bind m (fun x => k))
  (at level 10, x name, m at level 100, k at level 200, only parsing).
Notation "'let*' ' pat ':=' m 'in' k" :=
  (bind m (fun x => match x with pat => k end))
  (at level 10, pat pattern, m at level 100, k at level 200,
   only parsing).

(** ** The effectful functions *)

Section Process.
Context `{PyLib} `{Outside}.

Definition log (e : Event) : M unit :=
  fun st =>
    (tt, {| st_env := st_env st; st_fs := st_fs st;
            st_cache := st_cache st; st_trace := e :: st_trace st |}).

(** [await client.get(url, timeout=...)]: one event for the call,
    whatever the client does to answer it (it follows redirects). *)
Definition client_get (u : str) : M HttpOutcome :=
  fun st =>
    let (o, env') := http_get (st_env st) u in
    (o, {| st_env := env'; st_fs := st_fs st;
           st_cache := st_cache st;
           st_trace := EvGet u :: st_trace st |}).

Definition set_fs (fs : gmap str (gmap str Node)) (st : State) : State :=
  {| st_env := st_env st; st_fs := fs;
     st_cache := st_cache st; st_trace := st_trace st |}.

(** [os.makedirs(path, exist_ok=True)] when it returns: the directory
    is there afterwards, with what it held.  The file system is
    modelled as far as the program reads it back, directory by
    directory: the parents the call creates on the way, and the entry
    of the directory in its parent, are not part of it. *)
Definition ensure_dir (path : str) : M unit :=
  fun st =>
    let fs' := match st_fs st !! path with
               | Some _ => st_fs st
               | None => <[path := ∅]> (st_fs st)
               end in
    log (EvMkdir path) (set_fs fs' st).

(** [with open(os.path.join(dir, name), mode) as f: ...write...]; the
    result is the message of the exception raised, if any.  [open]
    raises when the directory is missing or the name is that of a
    directory; otherwise the disk decides.  What is written is
    computed once the file is open ([content] reads the clock of the
    environment for the timestamp of the metadata). *)
Definition write_file (dir name : str) (content : Env -> FileContent)
    : M (option str) :=
  fun st =>
    let path := path_join dir name in
    let (o, env') := disk_write (st_env st) path in
    let c := content env' in
    let o :=
      match st_fs st !! dir with
      | None => OpenFails (lit "No such file or directory")
      | Some d =>
          match d !! name with
          | Some NDir => OpenFails (lit "Is a directory")
          | _ => o
          end
      end in
    let put (x : FileContent) :=
      match st_fs st !! dir with
      | Some d => <[dir := <[name := NFile x]> d]> (st_fs st)
      | None => st_fs st
      end in
    let fs' := match o with
               | WriteOk => put c
               | OpenFails _ => st_fs st
               | WriteFails _ => put FPartial
               end in
    (match o with
     | WriteOk => None
     | OpenFails e | WriteFails e => Some e
     end,
     {| st_env := env'; st_fs := fs';
        st_cache := st_cache st;
        st_trace := EvWrite path c o :: st_trace st |}).

Definition cache_set (host : str) (rp : Robots) : M unit :=
  fun st =>
    (tt, {| st_env := st_env st; st_fs := st_fs st;
            st_cache := <[host := rp]> (st_cache st);
            st_trace := st_trace st |}).

Definition fetch_robots (base_url : str) : M Robots :=
  fun st =>
    let host := opt_or_empty (url_hostname base_url) in
    match st_cache st !! host with
    | Some rp => (rp, st)
    | None =>
        let robots_url :=
          url_scheme base_url ++ lit "://" ++ host ++ lit "/robots.txt" in
        (let* r := client_get robots_url in
         let rp :=
           match r with
           | HttpOk r =>
               if Z.eqb (resp_status r) 200
               then robots_parse (html_source (resp_text r))
               else robots_parse []
           | HttpRaise _ => robots_parse []
           end in
         let* _ := cache_set host rp in
         ret rp) st
    end.

Definition fetch_text (u : str)
    : M (option Html * option str * option Z) :=
  let* r := client_get u in
  match r with
  | HttpOk r =>
      let ctype :=
        str_lower
          (strip (split_head 59 (opt_or_empty (resp_content_type r)))) in
      if contains ctype (lit "text/html")
         || str_eqb ctype (lit "application/xhtml+xml")
         || str_eqb ctype []
      then ret (Some (resp_text r),
                Some (str_or ctype (lit "text/html")),
                Some (resp_status r))
      else ret (None, Some ctype, Some (resp_status r))
  | HttpRaise _ => ret (None, None, None)
  end.

(** The entries [existing_menu_info] builds from a directory listing. *)
Definition scan_entry (out_dir : str) (e : str * Node)
    : option SavedFile :=
  let (fn, node) := e in
  if str_eqb fn (lit "metadata.json") then None
  else
    match node with
    | NDir => None
    | NFile _ =>
        let ext := str_lower (splitext_ext fn) in
        if List.existsb (str_eqb ext)
             (List.map lit [".html"; ".htm"; ".pdf"]%string)
        then Some {| sf_url := None;
                     sf_file := relpath (path_join out_dir fn);
                     sf_status := None;
                     sf_content_type := None;
                     sf_is_menu_like := true |}
        else None
    end.

(** The first part of [existing_menu_info]: the result built from
    [metadata.json]; [None] when the function goes on to the scan. *)
Definition result_from_meta (slug_unique : str) (r : Restaurant)
    (d : gmap str Node) : option Result :=
  match d !! lit "metadata.json" with
  | Some (NFile c) =>
      match json_load c with
      | Some meta =>
          match m_saved_files meta with
          | Some ((_ :: _) as saved_files) =>
              let errors :=
                match m_errors meta with
                | ErrorsAbsent => Some []
                | ErrorsList l => Some l
                | ErrorsOther => None
                end in
              match errors with
              | Some errors =>
                  Some {| r_uuid := default (uuid r) (m_uuid meta);
                          r_slug := slug_unique;
                          r_name := default (name r) (m_name meta);
                          r_website :=
                            default (website r) (m_website meta);
                          r_found := true;
                          r_saved_files := saved_files;
                          r_errors :=
                            errors ++ [lit "skipped_existing_menu"];
                          r_skipped := Some true |}
              | None => None
              end
          | _ => None
          end
      | None => None
      end
  | _ => None
  end.

Definition existing_menu_info (fs : gmap str (gmap str Node))
    (out_root : str) (r : Restaurant) : option Result :=
  let (out_dir, slug_unique) := restaurant_output_dir out_root r in
  match fs !! out_dir with
  | None => None
  | Some d =>
      match result_from_meta slug_unique r d with
      | Some res => Some res
      | None =>
          let saved_files :=
            omap (scan_entry out_dir) (map_to_list d) in
          match saved_files with
          | [] => None
          | _ =>
              Some {| r_uuid := uuid r;
                      r_slug := slug_unique;
                      r_name := name r;
                      r_website := website r;
                      r_found := true;
                      r_saved_files := saved_files;
                      r_errors := [lit "skipped_existing_menu_no_meta"];
                      r_skipped := Some true |}
          end
      end
  end.

End Process.

(** ** The site processor *)

Section SiteProcessor.
Context `{PyLib} `{Outside}.

Definition add_error (e : str) (res : Result) : Result :=
  {| r_uuid := r_uuid res; r_slug := r_slug res; r_name := r_name res;
     r_website := r_website res; r_found := r_found res;
     r_saved_files := r_saved_files res;
     r_errors := r_errors res ++ [e];
     r_skipped := r_skipped res |}.

Definition add_saved (f : SavedFile) (res : Result) : Result :=
  {| r_uuid := r_uuid res; r_slug := r_slug res; r_name := r_name res;
     r_website := r_website res; r_found := r_found res;
     r_saved_files := r_saved_files res ++ [f];
     r_errors := r_errors res;
     r_skipped := r_skipped res |}.

Definition set_found (b : bool) (res : Result) : Result :=
  {| r_uuid := r_uuid res; r_slug := r_slug res; r_name := r_name res;
     r_website := r_website res; r_found := b;
     r_saved_files := r_saved_files res;
     r_errors := r_errors res;
     r_skipped := r_skipped res |}.

(** The metadata object the program dumps. *)
Definition metadata (r : Restaurant) (base_url : str) (found : bool)
    (saved_files : list SavedFile) (errors : list str) (env : Env)
    : FileContent :=
  FMeta {| m_uuid := Some (uuid r);
           m_name := Some (name r);
           m_website := Some (Some base_url);
           m_timestamp := Some (now_iso env);
           m_found := Some found;
           m_saved_files := Some saved_files;
           m_errors := ErrorsList errors |}.

(** The file name stem of a saved page: the sanitized label, or the
    sanitized last path segment when the label says only "menu". *)
Definition save_label (mp : MenuPage) : str :=
  let l := sanitize_label (str_or (label mp) (lit "menu")) in
  if str_eqb l (lit "menu") then
    let path := url_path (url mp) in
    let tail := sanitize_label (str_or (basename path) (lit "menu")) in
    match tail with
    | [] => l
    | _ => if str_eqb tail (lit "menu") then l else tail
    end
  else l.

(** [ctype2 == "application/pdf" or (ctype2 and "pdf" in ctype2)] *)
Definition is_pdf (ctype : option str) : bool :=
  match ctype with
  | Some c =>
      str_eqb c (lit "application/pdf")
      || (negb (str_eqb c []) && contains c (lit "pdf"))
  | None => false
  end.

(** The URL path alone implies a menu. *)
Definition path_implies_menu (u : str) : bool :=
  let path := str_lower (url_path u) in
  let base_name := basename path in
  let ends_menu :=
    endswith path (lit "/menu") || endswith path (lit "/menus") in
  let base_is_menu :=
    str_eqb base_name (lit "menu") || str_eqb base_name (lit "menus")
    || startswith base_name (lit "menu-")
    || startswith base_name (lit "menus-") in
  ends_menu || base_is_menu.

(** The body of the loop over the candidates, from the robots check
    of the candidate on. *)
Definition visit (out_dir : str) (mp : MenuPage)
    (result : Result) (saved : Z) : M (Result * Z) :=
  let* rp_target := fetch_robots (url mp) in
  if negb (can_fetch rp_target USER_AGENT (url mp)) then
    ret (add_error (lit "blocked_by_robots:" ++ url mp) result, saved)
  else
    let* '(body, ctype2, status2) := fetch_text (url mp) in
    if is_pdf ctype2 then
      let filename := save_label mp ++ lit ".pdf" in
      let save_path := path_join out_dir filename in
      let failed e :=
        ret (add_error
               (lit "write_failed_pdf:" ++ url mp ++ lit ":" ++ e)
               result, saved) in
      let* pdf_resp := client_get (url mp) in
      match pdf_resp with
      | HttpRaise e => failed e
      | HttpOk pdf_resp =>
          let* w := write_file out_dir filename
                      (fun _ => FBytes (resp_content pdf_resp)) in
          match w with
          | Some e => failed e
          | None =>
              ret (add_saved
                     {| sf_url := Some (url mp);
                        sf_file := relpath save_path;
                        sf_status := status2;
                        sf_content_type := ctype2;
                        sf_is_menu_like := true |}
                     result, saved + 1)
          end
      end
    else
      match body with
      | None =>
          ret (add_error
                 (lit "fetch_failed:" ++ url mp ++ lit ":"
                  ++ fmt_opt_Z status2 ++ lit ":" ++ fmt_opt_str ctype2)
                 result, saved)
      | Some body =>
          if looks_like_error_page body status2 then
            ret (add_error
                   (lit "error_page:" ++ url mp ++ lit ":"
                    ++ fmt_opt_Z status2)
                   result, saved)
          else
            let host := opt_or_empty (url_hostname (url mp)) in
            let is_external_menu_host := host_matches_external host in
            let menu_like := is_menu_like body in
            let save (flag : bool) :=
              let filename := save_label mp ++ lit ".html" in
              let save_path := path_join out_dir filename in
              let* w := write_file out_dir filename
                          (fun _ => FText (html_source body)) in
              match w with
              | Some e =>
                  ret (add_error
                         (lit "write_failed:" ++ url mp ++ lit ":" ++ e)
                         result, saved)
              | None =>
                  ret (add_saved
                         {| sf_url := Some (url mp);
                            sf_file := relpath save_path;
                            sf_status := status2;
                            sf_content_type := ctype2;
                            sf_is_menu_like := flag |}
                         result, saved + 1)
              end in
            if negb menu_like && negb is_external_menu_host then
              if guessed mp then ret (result, saved)
              else if negb (path_implies_menu (url mp))
              then ret (result, saved)
              else save menu_like
            else if is_external_menu_host then save true
            else save menu_like
      end.

(** [for mp in candidates: ...] with its [break] on the budget and
    its [continue] on a URL already seen. *)
Fixpoint crawl (out_dir : str) (max_pages_per_site : Z)
    (candidates : list MenuPage) (seen_urls : gset str)
    (result : Result) (saved : Z) : M (Result * Z) :=
  match candidates with
  | [] => ret (result, saved)
  | mp :: rest =>
      if Z.leb max_pages_per_site saved then ret (result, saved)
      else if bool_decide (url mp ∈ seen_urls)
      then crawl out_dir max_pages_per_site rest seen_urls result saved
      else
        let seen_urls := seen_urls ∪ {[url mp]} in
        let* '(result, saved) := visit out_dir mp result saved in
        crawl out_dir max_pages_per_site rest seen_urls result saved
  end.

(** The candidates of a site: those of the homepage, then the guessed
    ones whose URL the homepage did not give. *)
Definition all_candidates (base_url : str) (html : Html)
    : list MenuPage :=
  let candidates := discover_menu_links base_url html in
  let guessed_candidates := build_guessed_menu_pages base_url in
  let existing_urls : gset str := list_to_set (List.map url candidates) in
  candidates ++
  List.filter (fun mp => negb (bool_decide (url mp ∈ existing_urls)))
    guessed_candidates.

Definition process_restaurant (out_root : str) (r : Restaurant)
    (max_pages_per_site : Z) : M Result :=
  fun st =>
  match existing_menu_info (st_fs st) out_root r with
  | Some existing => (existing, st)
  | None =>
      let result :=
        {| r_uuid := uuid r; r_slug := slug r; r_name := name r;
           r_website := website r; r_found := false;
           r_saved_files := []; r_errors := [];
           r_skipped := None |} in
      match website r with
      | None | Some [] => (add_error (lit "no_website") result, st)
      | Some w =>
          let base_url := normalize_url w in
          let out_dir := fst (restaurant_output_dir out_root r) in
          (let* _ := ensure_dir out_dir in
           let* rp := fetch_robots base_url in
           if negb (can_fetch rp USER_AGENT base_url) then
             let result :=
               add_error (lit "blocked_by_robots_home") result in
             let* _ := write_file out_dir (lit "metadata.json")
                         (metadata r base_url false []
                            (r_errors result)) in
             ret result
           else
             let* '(html, ctype, status) := fetch_text base_url in
             match html with
             | None =>
                 let result :=
                   add_error
                     (lit "homepage_unavailable:" ++ fmt_opt_Z status
                      ++ lit ":" ++ fmt_opt_str ctype) result in
                 let* _ := write_file out_dir (lit "metadata.json")
                             (metadata r base_url false []
                                (r_errors result)) in
                 ret result
             | Some html =>
                 let candidates := all_candidates base_url html in
                 let* '(result, saved) :=
                   crawl out_dir max_pages_per_site candidates ∅
                     result 0 in
                 let result := set_found (Z.ltb 0 saved) result in
                 let* w := write_file out_dir (lit "metadata.json")
                             (metadata r base_url (r_found result)
                                (r_saved_files result)
                                (r_errors result)) in
                 match w with
                 | Some e =>
                     ret (add_error (lit "meta_write_failed:" ++ e)
                            result)
                 | None => ret result
                 end
             end) st
      end
  end.

End SiteProcessor.

(** ** Loading, selecting and reporting

    What [load_restaurants], [run] and [main] compute around the calls
    of [process_restaurant]. *)

(** An object of the restaurants file as [r.get] reads it: a key that
    is absent, or whose value is [null], gives [None]; a value that is
    there is a string. *)
Record RawRestaurant := {
  raw_uuid : option str;
  raw_name : option str;
  raw_website : option str
}.

(** [status] in the progress line of a worker. *)
Inductive Status := SKIP | FOUND | MISS.

(** [l[offset:]] for a list: a negative offset counts from the end. *)
Definition slice_from {A} (offset : Z) (l : list A) : list A :=
  let n := Z.of_nat (List.length l) in
  List.skipn (Z.to_nat (if Z.ltb offset 0 then Z.max 0 (n + offset)
                        else offset)) l.

(** [if res.get("skipped")]: an absent key is falsy. *)
Definition truthy (b : option bool) : bool :=
  match b with Some true => true | _ => false end.

Section Driver.
Context `{PyLib}.

(** One turn of the loop of [load_restaurants]. *)
Definition load_restaurant (r : RawRestaurant) : Restaurant :=
  let nm := strip (str_or (opt_or_empty (raw_name r)) (lit "restaurant")) in
  let slug_source := str_lower nm in
  let sl :=
    str_or (strip_by (is_chr "-") (sub_non_alnum false slug_source))
      (lit "restaurant") in
  {| uuid := opt_or_empty (raw_uuid r);
     slug := sl;
     name := nm;
     website :=
       match strip (opt_or_empty (raw_website r)) with
       | [] => None
       | w => Some w
       end |}.

Definition load_restaurants (data : list RawRestaurant)
    : list Restaurant :=
  List.map load_restaurant data.

(** [if r.website] *)
Definition has_website (r : Restaurant) : bool :=
  match website r with
  | Some (_ :: _) => true
  | _ => false
  end.

(** The restaurants [run] hands to its workers: offset and limit are
    applied to the raw list, then those without a website are left
    out. *)
Definition select_restaurants (all_restaurants : list Restaurant)
    (limit : option Z) (offset : Z) : list Restaurant :=
  let all_restaurants :=
    if Z.eqb offset 0 then all_restaurants
    else slice_from offset all_restaurants in
  let all_restaurants :=
    match limit with
    | Some n =>
        if Z.ltb 0 n then List.firstn (Z.to_nat n) all_restaurants
        else all_restaurants
    | None => all_restaurants
    end in
  List.filter has_website all_restaurants.

(** [limit = None if args.limit == 0 else args.limit] in [main]. *)
Definition cli_limit (n : Z) : option Z :=
  if Z.eqb n 0 then None else Some n.

Definition worker_status (res : Result) : Status :=
  if truthy (r_skipped res) then SKIP
  else if r_found res then FOUND
  else MISS.

Definition found_count (results : list Result) : nat :=
  List.length (List.filter r_found results).

Definition skipped_count (results : list Result) : nat :=
  List.length (List.filter (fun res => truthy (r_skipped res)) results).

End Driver.

(** ** An instance to run the program on

    The tables of Python restricted to what the examples need: ASCII
    letters and digits (with the whole white-space table of
    [str.isspace]), URLs of the shape [scheme://host/path] without
    port, user, query or fragment, relative references without dot
    segments, paths that are already relative to the working directory,
    and a robots.txt that is either silent or closes the whole site.
    The outside world is a table of servers and a list of paths on
    which the disk refuses to open a file. *)

Module Demo.

Definition space_chr (c : N) : bool :=
  (N.leb 9 c && N.leb c 13) || (N.leb 28 c && N.leb c 32)
  || N.eqb c 133 || N.eqb c 160 || N.eqb c 5760
  || (N.leb 8192 c && N.leb c 8202)
  || N.eqb c 8232 || N.eqb c 8233 || N.eqb c 8239 || N.eqb c 8287
  || N.eqb c 12288.

Definition digit_chr (c : N) : bool := N.leb 48 c && N.leb c 57.

Definition word_chr (c : N) : bool :=
  digit_chr c || (N.leb 97 c && N.leb c 122)
  || (N.leb 65 c && N.leb c 90) || N.eqb c 95.

(** The text after the first occurrence of [sep], if there is one. *)
Fixpoint after (sep a : str) : option str :=
  if startswith a sep then Some (List.skipn (List.length sep) a)
  else match a with
       | [] => None
       | _ :: a' => after sep a'
       end.

Fixpoint before (sep a : str) : str :=
  if startswith a sep then []
  else match a with
       | [] => []
       | c :: a' => c :: before sep a'
       end.

Definition scheme_of (u : str) : str :=
  match after (lit "://") u with
  | Some _ => List.map lower_chr (before (lit "://") u)
  | None => []
  end.

Definition netloc_of (u : str) : str :=
  match after (lit "://") u with
  | Some rest => before (lit "/") rest
  | None => []
  end.

Definition path_of (u : str) : str :=
  match after (lit "://") u with
  | Some rest => List.skipn (List.length (before (lit "/") rest)) rest
  | None => u
  end.

Definition hostname_of (u : str) : option str :=
  match netloc_of u with
  | [] => None
  | h => Some (List.map lower_chr h)
  end.

(** The directory part of a path, up to its last slash. *)
Definition dir_of (p : str) : str :=
  List.firstn (List.length p - List.length (basename p)) p.

Definition join_url (base ref : str) : str :=
  match ref with
  | [] => base
  | _ =>
      match after (lit "://") ref with
      | Some _ => ref
      | None =>
          let root := scheme_of base ++ lit "://" ++ netloc_of base in
          if startswith ref (lit "/") then root ++ ref
          else root ++ str_or (dir_of (path_of base)) (lit "/") ++ ref
      end
  end.

#[export] Instance py : PyLib := {|
  str_lower := List.map lower_chr;
  str_lower_ascii := fun s _ => eq_refl;
  str_lower_blank := fun a b => List.map_app lower_chr a (32%N :: b);
  is_space := space_chr;
  is_digit := digit_chr;
  is_word := word_chr;
  is_digit_word := ltac:(abstract (
    intros c Hd; unfold word_chr; rewrite Hd; reflexivity));
  is_space_not_word := ltac:(abstract (
    intros c; unfold space_chr, word_chr, digit_chr;
    rewrite ?orb_true_iff, ?orb_false_iff, ?andb_true_iff,
      ?andb_false_iff, ?N.leb_le, ?N.leb_gt, ?N.eqb_eq, ?N.eqb_neq;
    lia));
  is_space_blank := eq_refl;
  dollar_not_word := eq_refl;
  urljoin := join_url;
  url_scheme := scheme_of;
  url_netloc := netloc_of;
  url_hostname := hostname_of;
  url_path := path_of;
  relpath := fun p => p;
  Robots := str;
  robots_parse := fun text => text;
  can_fetch := fun rp _ _ => negb (contains rp (lit "Disallow: /"))
|}.

Record World := {
  servers : list (str * HttpResponse);
  read_only : list str
}.

#[export] Instance outside : Outside := {|
  Env := World;
  http_get := fun w u =>
    (match odict_get u (servers w) with
     | Some r => HttpOk r
     | None => HttpRaise (lit "ConnectError")
     end, w);
  now_iso := fun _ => lit "2024-01-01T00:00:00+00:00";
  disk_write := fun w path =>
    (if List.existsb (str_eqb path) (read_only w)
     then OpenFails (lit "Permission denied")
     else WriteOk, w)
|}.

(** A tag-free page: its text is its source. *)
Definition plain (text : string) : Html :=
  {| html_source := lit text; soup_text := lit text;
     soup_anchors := []; soup_title := None;
     soup_meta_robots := None |}.

Definition page (text : string) : HttpResponse :=
  {| resp_status := 200;
     resp_content_type := Some (lit "text/html; charset=utf-8");
     resp_text := plain text;
     resp_content := lit text |}.

Definition start (w : World) (fs : gmap str (gmap str Node)) : State :=
  {| st_env := w; st_fs := fs; st_cache := ∅; st_trace := [] |}.

(** *** Homepages *)

Definition site : str := lit "https://x.com".

Definition link (href text : string) : Anchor :=
  {| a_href := Some (lit href); a_text := lit text |}.

(** Two links to one menu page, on a homepage without prices. *)
Definition home_two_menu_links : Html :=
  {| html_source :=
       lit "<a href='/menu'>Menu</a><a href='/menu'>Our Menu</a>";
     soup_text := lit "Menu Our Menu";
     soup_anchors := [link "/menu" "Menu"; link "/menu" "Our Menu"];
     soup_title := None;
     soup_meta_robots := None |}.

(** Two links to the homepage itself, on a homepage with prices. *)
Definition home_two_self_links : Html :=
  {| html_source :=
       lit "<a href='https://x.com'>Our Menu</a><a href='https://x.com'>Our Menu food</a><p>Lunch $12 Dinner $15</p>";
     soup_text := lit "Our Menu Our Menu food Lunch $12 Dinner $15";
     soup_anchors :=
       [link "https://x.com" "Our Menu";
        link "https://x.com" "Our Menu food"];
     soup_title := None;
     soup_meta_robots := None |}.

(** Twelve links to PDF menus, numbered 1 to 12. *)
Definition numbers : list Z := [1; 2; 3; 4; 5; 6; 7; 8; 9; 10; 11; 12].

Definition pdf_link (n : Z) : Anchor :=
  {| a_href := Some (lit "/menu" ++ str_of_Z n ++ lit ".pdf");
     a_text := lit "Menu " ++ str_of_Z n |}.

Definition home_twelve_pdfs : Html :=
  {| html_source :=
       List.concat
         (List.map
            (fun n => lit "<a href='/menu" ++ str_of_Z n ++ lit ".pdf'>Menu "
                      ++ str_of_Z n ++ lit "</a>") numbers);
     soup_text :=
       List.tail
         (List.concat
            (List.map (fun n => lit " Menu " ++ str_of_Z n) numbers));
     soup_anchors := List.map pdf_link numbers;
     soup_title := None;
     soup_meta_robots := None |}.

(** *** Restaurants, servers and output directories *)

(** A restaurant hosted on an ordering platform. *)
Definition cafe : Restaurant :=
  {| uuid := lit "0123456789ab"; slug := lit "cafe"; name := lit "Cafe";
     website := Some (lit "x.square.site") |}.

(** A restaurant on a site of its own. *)
Definition bistro : Restaurant :=
  {| uuid := lit "89abcdef0123"; slug := lit "bistro";
     name := lit "Bistro"; website := Some (lit "https://x.com") |}.

(** A restaurant without a website. *)
Definition stall : Restaurant :=
  {| uuid := lit "456789abcdef"; slug := lit "stall";
     name := lit "Stall"; website := None |}.

(** Two sites with a homepage without links and a page at [/menu]
    that has no menu yet; every other URL fails to connect. *)
Definition web : World :=
  {| servers :=
       [(lit "https://x.square.site", page "Welcome to our cafe");
        (lit "https://x.square.site/menu", page "Coming soon");
        (lit "https://x.com", page "Welcome to our bistro");
        (lit "https://x.com/menu", page "Coming soon")];
     read_only := [] |}.

(** No server answers. *)
Definition offline : World := {| servers := []; read_only := [] |}.

(** The result a run starts from. *)
Definition blank (r : Restaurant) : Result :=
  {| r_uuid := uuid r; r_slug := slug r; r_name := name r;
     r_website := website r; r_found := false; r_saved_files := [];
     r_errors := []; r_skipped := None |}.

(** The guessed candidate for [/menu] on each of the two sites. *)
Definition guess (root : string) : MenuPage :=
  mk_page (lit root ++ lit "/menu") (lit "menu") 8 true.

(** An output root where the directory of [cafe] holds two pages and
    no metadata. *)
Definition two_pages : gmap str (gmap str Node) :=
  {[ lit "menus/cafe--01234567" :=
       {[ lit "lunch.html" := NFile (FText (lit "Lunch"));
          lit "dinner.html" := NFile (FText (lit "Dinner")) ]} ]}.

(** *** Further servers and candidates *)

(** A response with a status and a content type of its own. *)
Definition answer (status : Z) (ctype text : string) : HttpResponse :=
  {| resp_status := status;
     resp_content_type := Some (lit ctype);
     resp_text := plain text;
     resp_content := lit text |}.

(** A site that its robots.txt closes. *)
Definition closed : World :=
  {| servers :=
       [(lit "https://x.com/robots.txt", answer 200 "text/plain" "Disallow: /");
        (lit "https://x.com", page "Welcome to our bistro")];
     read_only := [] |}.

(** A site whose page at [/menu] is gone and that serves a PDF. *)
Definition mixed : World :=
  {| servers :=
       [(lit "https://x.com", page "Welcome to our bistro");
        (lit "https://x.com/menu", answer 404 "text/html" "Nothing here");
        (lit "https://x.com/menu.pdf",
         answer 200 "application/pdf" "%PDF-1.4")];
     read_only := [] |}.

(** The guessed candidate for [/menu.pdf]. *)
Definition pdf_guess : MenuPage :=
  mk_page (lit "https://x.com/menu.pdf") (lit "menu pdf") 8 true.

(** An output root where the directory of [bistro] is there, empty. *)
Definition empty_dir : gmap str (gmap str Node) :=
  {[ lit "menus/bistro--89abcdef" := ∅ ]}.

(** Two objects of a restaurants file. *)
Definition raw_cafe : RawRestaurant :=
  {| raw_uuid := Some (lit "0123456789ab");
     raw_name := Some (lit "  Cafe & Bar ");
     raw_website := Some (lit " x.square.site ") |}.

Definition raw_stall : RawRestaurant :=
  {| raw_uuid := None; raw_name := None; raw_website := Some (lit "  ") |}.

End Demo.

(** ** Notions used in the statements *)

(** Highest score first. *)
Fixpoint descending (l : list MenuPage) : Prop :=
  match l with
  | [] => True
  | x :: l' => (forall y, In y l' -> score y <= score x) /\ descending l'
  end.


Section Notions.
Context `{PyLib} `{Outside}.

(** The absolute URL an anchor resolves to in [discover_menu_links];
    an anchor without [href], or with an empty one, is passed over. *)
Definition anchor_target (base_url : str) (a : Anchor) : option str :=
  match a_href a with
  | None | Some [] => None
  | Some href => Some (urljoin base_url href)
  end.

(** The score computed for an anchor. *)
Definition anchor_points (base_url : str) (a : Anchor) : Z :=
  anchor_score base_url (opt_or_empty (a_href a))
    (List.firstn 200 (a_text a)).

(** [z] is the maximum of the scores of the anchors of [html] that
    resolve to [u]. *)
Definition best_anchor_score (base_url : str) (html : Html) (u : str)
    (z : Z) : Prop :=
  (exists a, In a (soup_anchors html) /\
             anchor_target base_url a = Some u /\
             anchor_points base_url a = z) /\
  (forall a, In a (soup_anchors html) ->
             anchor_target base_url a = Some u ->
             anchor_points base_url a <= z).

(** The candidates of [l] whose URL is [u]. *)
Definition with_url (u : str) (l : list MenuPage) : list MenuPage :=
  List.filter (fun mp => str_eqb (url mp) u) l.

(** The candidate [discover_menu_links] puts in for a menu-like
    homepage. *)
Definition homepage_candidate (base_url : str) : MenuPage :=
  mk_page base_url (lit "menu") 5 false.

(** The candidates other than that of the homepage that score 5 or
    more: those that may be ranked before it. *)
Definition rivals (base_url : str) (l : list MenuPage) : list MenuPage :=
  List.filter
    (fun mp => Z.leb 5 (score mp) && negb (str_eqb (url mp) base_url)) l.

(** What holds of the dictionary of candidates once the anchors [seen]
    have been gone through: keys are distinct and are the URLs of their
    entries, an entry has a positive score, which is the maximum over
    the anchors resolving to its URL, and an anchor without an entry
    did not score. *)
Definition dict_inv (base_url : str) (seen : list Anchor)
    (d : list (str * MenuPage)) : Prop :=
  List.NoDup (List.map fst d) /\
  (forall k mp, odict_get k d = Some mp ->
     url mp = k /\ 0 < score mp /\
     (exists a, In a seen /\ anchor_target base_url a = Some k /\
                anchor_points base_url a = score mp) /\
     (forall a, In a seen -> anchor_target base_url a = Some k ->
                anchor_points base_url a <= score mp)) /\
  (forall k a, odict_get k d = None -> In a seen ->
     anchor_target base_url a = Some k -> anchor_points base_url a <= 0).

(** The extensions [existing_menu_info] looks for. *)
Definition menu_extensions : list str :=
  List.map lit [".html"; ".htm"; ".pdf"]%string.

(** [metadata.json] is absent from the directory, or is not parsable,
    or lists no saved files. *)
Definition metadata_unusable (d : gmap str Node) : Prop :=
  (forall c, d !! lit "metadata.json" <> Some (NFile c)) \/
  (exists c, d !! lit "metadata.json" = Some (NFile c) /\
     (json_load c = None \/
      exists m, json_load c = Some m /\
                (m_saved_files m = None \/ m_saved_files m = Some []))).

(** An entry of [saved_files] rebuilt from a file name alone. *)
Definition reconstructed (f : SavedFile) : Prop :=
  sf_url f = None /\ sf_status f = None /\
  sf_content_type f = None /\ sf_is_menu_like f = true.

(** Documents, as opposed to metadata: pages and PDFs. *)
Definition is_document (c : FileContent) : bool :=
  match c with
  | FText _ | FBytes _ => true
  | FMeta _ | FPartial => false
  end.

(** The event of a document written to disk in full. *)
Definition doc_written (e : Event) : bool :=
  match e with
  | EvWrite _ c WriteOk => is_document c
  | _ => false
  end.

Definition doc_writes (t : list Event) : nat :=
  List.length (List.filter doc_written t).

(** Nothing is deleted: a directory stays, and so does a file in it,
    whatever becomes of its content. *)
Definition files_persist (fs fs' : gmap str (gmap str Node)) : Prop :=
  forall dir d, fs !! dir = Some d ->
    exists d', fs' !! dir = Some d' /\
      forall fn c, d !! fn = Some (NFile c) ->
        exists c', d' !! fn = Some (NFile c').

(** The directory holds a file the resume check takes for a menu. *)
Definition has_menu_file (fs : gmap str (gmap str Node)) (dir : str)
    : Prop :=
  exists d fn c, fs !! dir = Some d /\ d !! fn = Some (NFile c) /\
                 In (splitext_ext fn) menu_extensions.

(** The characters [sanitize_label] lets through. *)
Definition label_chr (c : N) : Prop :=
  is_lower_alnum c = true \/ c = 45%N.

(** What a visit of a candidate comes to, from the state [st] with
    [saved] documents in [result]: events are added to the trace and
    nothing is deleted; either nothing is saved and no document is
    written, or one entry is appended to [saved_files] and counted, one
    document is written, and the output directory holds its file. *)
Definition visit_post (out_dir : str) (result : Result) (saved : Z)
    (st : State) (out : Result * Z * State) : Prop :=
  let '(result', saved', st') := out in
  exists new,
    st_trace st' = new ++ st_trace st /\
    files_persist (st_fs st) (st_fs st') /\
    r_skipped result' = r_skipped result /\
    ((saved' = saved /\
      r_saved_files result' = r_saved_files result /\
      doc_writes new = 0%nat) \/
     (saved' = saved + 1 /\
      (exists f, r_saved_files result' = r_saved_files result ++ [f]) /\
      doc_writes new = 1%nat /\
      has_menu_file (st_fs st') out_dir)).

(** What the loop over the candidates comes to: the entries [added]
    to [saved_files] are as many as the documents written and as the
    increase of [saved], which stays within the budget. *)
Definition crawl_post (out_dir : str) (max_pages_per_site : Z)
    (result : Result) (saved : Z) (st : State)
    (out : Result * Z * State) : Prop :=
  let '(result', saved', st') := out in
  exists new added,
    st_trace st' = new ++ st_trace st /\
    files_persist (st_fs st) (st_fs st') /\
    r_skipped result' = r_skipped result /\
    r_saved_files result' = r_saved_files result ++ added /\
    saved' = saved + Z.of_nat (List.length added) /\
    doc_writes new = List.length added /\
    (added <> [] -> has_menu_file (st_fs st') out_dir) /\
    (saved <= Z.max 0 max_pages_per_site ->
     saved' <= Z.max 0 max_pages_per_site).

(** The metadata record of a run, as an event of the trace and as a
    file of the output directory: the write of [metadata.json] is the
    last event of the run; its content has the identity of the
    restaurant, the normalized website, the found flag and the saved
    files of the result, and its error tags (to which the result may
    add that the write itself failed); when the write succeeds the
    file is there. *)
Definition metadata_written (out_root : str) (r : Restaurant) (w : str)
    (res : Result) (st st' : State) : Prop :=
  let out_dir := fst (restaurant_output_dir out_root r) in
  exists o errs rest,
    let record :=
      metadata r (normalize_url w) (r_found res) (r_saved_files res)
        errs (st_env st') in
    st_trace st' =
      EvWrite (path_join out_dir (lit "metadata.json")) record o
        :: rest ++ st_trace st /\
    (r_errors res = errs \/
     exists e, r_errors res = errs ++ [lit "meta_write_failed:" ++ e]) /\
    (o = WriteOk ->
     exists d, st_fs st' !! out_dir = Some d /\
               d !! lit "metadata.json" = Some (NFile record)).

(** What a run that does not resume comes to. *)
Definition fresh_post (out_root : str) (r : Restaurant)
    (max_pages_per_site : Z) (st : State) (out : Result * State)
    : Prop :=
  let '(res, st') := out in
  let out_dir := fst (restaurant_output_dir out_root r) in
  r_skipped res = None /\
  (r_found res = true <-> r_saved_files res <> []) /\
  Z.of_nat (List.length (r_saved_files res))
    <= Z.max 0 max_pages_per_site /\
  (r_saved_files res <> [] -> has_menu_file (st_fs st') out_dir) /\
  (exists new,
     st_trace st' = new ++ st_trace st /\
     doc_writes new = List.length (r_saved_files res)) /\
  match website r with
  | None | Some [] => st' = st
  | Some w => metadata_written out_root r w res st st'
  end.

(** The continuations [k] on a text and [k'] on the text followed by
    [x] give the same answers. *)
Definition stable_k (x : str)
    (k k' : option N -> str -> nat -> option nat) : Prop :=
  forall prev s n, k' prev (s ++ x) n = k prev s n.

(** A regular expression matches a text followed by [x] as it matches
    the text, with continuations that do. *)
Definition stable (x : str) (r : regex) : Prop :=
  forall k k', stable_k x k k' ->
    stable_k x (fun prev s n => rmatch r prev s n k)
               (fun prev s n => rmatch r prev s n k').

(** What follows the optional dollar sign in [PRICE_RE]. *)
Definition PRICE_DIGITS : regex :=
  Seq (Rep 1 3 is_digit)
    (Seq (Opt (Seq (Class (is_chr ".,")) (Rep 2 2 is_digit))) Bound).

(** The continuation of a match of [PRICE_RE] after the dollar sign
    and the white space. *)
Definition digits_k : option N -> str -> nat -> option nat :=
  fun prev s n => rmatch PRICE_DIGITS prev s n (fun _ _ m => Some m).

End Notions.

(** ** Notions used in the further properties *)

(** Every hyphen is followed by a character that is not a hyphen: the
    text has no two hyphens in a row and does not end with one. *)
Fixpoint slug_clean (s : str) : Prop :=
  match s with
  | [] => True
  | c :: s' =>
      (c = 45%N -> match s' with [] => False | d :: _ => d <> 45%N end)
      /\ slug_clean s'
  end.

(** The URLs passed to [client.get] by the calls of a trace. *)
Definition requests (t : list Event) : list str :=
  omap (fun e => match e with EvGet u => Some u | _ => None end) t.

(** The paths written to by the events of a trace. *)
Definition written_paths (t : list Event) : list str :=
  omap (fun e => match e with EvWrite p _ _ => Some p | _ => None end) t.

Section FurtherNotions.
Context `{PyLib} `{Outside}.

(** The result a run that does not resume starts from. *)
Definition initial_result (r : Restaurant) : Result :=
  {| r_uuid := uuid r; r_slug := slug r; r_name := name r;
     r_website := website r; r_found := false; r_saved_files := [];
     r_errors := []; r_skipped := None |}.

(** The URL [fetch_robots] requests for [base_url]. *)
Definition robots_url (base_url : str) : str :=
  url_scheme base_url ++ lit "://" ++ opt_or_empty (url_hostname base_url)
  ++ lit "/robots.txt".

(** A call that keeps to the directory [out_dir]: a call of
    [os.makedirs] is for [out_dir] itself, and a file opened for
    writing is [os.path.join(out_dir, fn)] for a name [fn] without
    slash, that is, a file of [out_dir] and not of a directory below
    it.  (What [os.makedirs] does to create [out_dir], parents
    included, is the library's and is not described.) *)
Definition inside (out_dir : str) (e : Event) : Prop :=
  match e with
  | EvGet _ => True
  | EvMkdir p => p = out_dir
  | EvWrite p _ _ =>
      exists fn, p = path_join out_dir fn /\ Forall (fun c => c <> 47%N) fn
  end.

(** From [st] to [st']: calls were added to the trace, all of them
    keeping to [out_dir]; no file or directory was deleted; the robots
    cache kept its entries. *)
Definition confined (out_dir : str) (st st' : State) : Prop :=
  (exists new, st_trace st' = new ++ st_trace st /\
               Forall (inside out_dir) new) /\
  files_persist (st_fs st) (st_fs st') /\
  (forall host rp, st_cache st !! host = Some rp ->
                   st_cache st' !! host = Some rp).

(** The results of calls of [process_restaurant]. *)
Definition produced (res : Result) : Prop :=
  exists out_root r max_pages_per_site st,
    res = fst (process_restaurant out_root r max_pages_per_site st).

End FurtherNotions.

(** What the error tags of a run that does not resume start with (the
    first two are whole tags). *)
Definition error_prefixes : list str := List.map lit
  [ "no_website"; "blocked_by_robots_home"; "homepage_unavailable:";
    "blocked_by_robots:"; "fetch_failed:"; "error_page:";
    "write_failed:"; "write_failed_pdf:"; "meta_write_failed:" ]%string.

Definition known_tag (tag : str) : Prop :=
  exists p, In p error_prefixes /\ startswith tag p = true.

Section MoreNotions.
Context `{PyLib} `{Outside}.

(** The entry of [saved_files] a visit of the candidate [mp] appends:
    it has the URL of the candidate, its file is named after the label
    of the candidate, and it is flagged as not menu-like only for a
    candidate that was not guessed, on a host that is not an external
    menu host, whose path implies a menu. *)
Definition entry_of (out_dir : str) (mp : MenuPage) (f : SavedFile)
    : Prop :=
  sf_url f = Some (url mp) /\
  (exists e, In e [lit ".html"; lit ".pdf"] /\
     sf_file f = relpath (path_join out_dir (save_label mp ++ e))) /\
  (sf_is_menu_like f = false ->
   guessed mp = false /\ path_implies_menu (url mp) = true /\
   host_matches_external (opt_or_empty (url_hostname (url mp))) = false).

(** What a visit of [mp] makes of [result] and [saved]: nothing but at
    most one error tag, a known one, or one entry of [saved_files]. *)
Definition visit_outcome (out_dir : str) (mp : MenuPage)
    (result : Result) (saved : Z) (out : Result * Z) : Prop :=
  let (result', saved') := out in
  (saved' = saved /\
   r_saved_files result' = r_saved_files result /\
   (r_errors result' = r_errors result \/
    exists tag, r_errors result' = r_errors result ++ [tag] /\
                known_tag tag)) \/
  (saved' = saved + 1 /\
   r_errors result' = r_errors result /\
   exists f, r_saved_files result' = r_saved_files result ++ [f] /\
             entry_of out_dir mp f).

End MoreNotions.

Section RequestNotions.
Context `{PyLib} `{Outside}.

(** From [st] to [st'] calls were added to the trace, and every URL
    passed to [client.get] by one of them satisfies [P]. *)
Definition requests_within (P : str -> Prop) (st st' : State) : Prop :=
  exists new, st_trace st' = new ++ st_trace st /\ Forall P (requests new).

(** The URLs a visit of the candidate [mp] may pass to [client.get]. *)
Definition candidate_request (mp : MenuPage) (u : str) : Prop :=
  u = url mp \/ u = robots_url (url mp).

End RequestNotions.

(** * Properties *)

(** ** The page classifier *)

Section Classifier.
Context `{PyLib}.

Lemma category_keywords_distinct : NoDup CATEGORY_KEYWORDS.
Proof. apply (bool_decide_unpack _). vm_compute. exact I. Qed.

(** A currency hit is a character among the three currency signs. *)
Lemma currency_hits_count (text : str) :
  currency_hits text = List.length (List.filter is_currency text).
Proof.
  unfold currency_hits, findall_count.
  generalize (@None N) as prev.
  induction text as [|c text IH]; intros prev; [reflexivity|].
  cbn [findall_from List.filter].
  unfold match_here, CURRENCY_RE. cbn [rmatch].
  destruct (is_currency c); cbn [Nat.pred List.length]; rewrite IH; reflexivity.
Qed.

(** The keywords counted by [cat_hits] are counted once each. *)
Lemma cat_hits_distinct (text : str) :
  cat_hits text =
  size (list_to_set
          (List.filter (fun kw => contains (str_lower text) kw)
             CATEGORY_KEYWORDS) : gset str).
Proof.
  unfold cat_hits. symmetry. apply size_list_to_set.
  apply NoDup_ListNoDup, List.NoDup_filter, NoDup_ListNoDup.
  apply category_keywords_distinct.
Qed.

(** The decision of [is_menu_like], on its three counts. *)
Lemma is_menu_like_counts (html : Html) :
  let text := soup_text html in
  is_menu_like html = true <->
  (3 <= price_hits text)%nat \/
  (2 <= currency_hits text)%nat \/
  ((1 <= price_hits text)%nat /\ (3 <= cat_hits text)%nat).
Proof.
  intros text. unfold is_menu_like. fold text.
  destruct (Nat.leb_spec 3 (price_hits text)) as [Hp|Hp]; [tauto|].
  destruct (Nat.leb_spec 2 (currency_hits text)) as [Hc|Hc]; [tauto|].
  destruct (Nat.leb_spec 1 (price_hits text)) as [Hp1|Hp1];
    destruct (Nat.leb_spec 3 (cat_hits text)) as [Hk|Hk]; cbn [andb];
    split; try tauto; try discriminate; lia.
Qed.

(** C6: [is_menu_like] answers true exactly when, over the visible
    text, there are at least 3 price tokens, or at least 2 currency
    signs, or at least 1 price token together with at least 3 distinct
    category keywords occurring in the (lower-cased) text. *)
Theorem is_menu_like_three_tiers (html : Html) :
  let text := soup_text html in
  let keywords_found : gset str :=
    list_to_set
      (List.filter (fun kw => contains (str_lower text) kw)
         CATEGORY_KEYWORDS) in
  is_menu_like html = true <->
  (3 <= price_hits text)%nat \/
  (2 <= currency_hits text)%nat \/
  ((1 <= price_hits text)%nat /\ (3 <= size keywords_found)%nat).
Proof.
  intros text keywords_found.
  unfold keywords_found. rewrite <- cat_hits_distinct.
  apply is_menu_like_counts.
Qed.

End Classifier.

(** ** A text with more text after a space *)

Lemma or_else_none {A} (v : option A) : or_else v None = v.
Proof. destruct v; reflexivity. Qed.

Lemma startswith_nil (a : str) : startswith a [] = true.
Proof. destruct a; reflexivity. Qed.

Lemma startswith_app (a b kw : str) :
  startswith a kw = true -> startswith (a ++ b) kw = true.
Proof.
  revert a. induction kw as [|y kw IH]; intros a;
    [intros _; apply startswith_nil|].
  destruct a as [|c a]; cbn; [discriminate|].
  intros Hs. apply andb_prop in Hs as [Hc Hs].
  rewrite Hc. cbn. apply IH, Hs.
Qed.

Lemma contains_unfold (a kw : str) :
  contains a kw =
  startswith a kw || match a with [] => false | _ :: a' => contains a' kw end.
Proof. destruct a; reflexivity. Qed.

Lemma contains_app (a b kw : str) :
  contains a kw = true -> contains (a ++ b) kw = true.
Proof.
  induction a as [|c a IH]; rewrite (contains_unfold _ kw).
  - rewrite orb_false_r. intros Hs.
    apply (startswith_app [] b kw) in Hs.
    rewrite (contains_unfold _ kw), Hs. reflexivity.
  - intros Hc. rewrite (contains_unfold _ kw).
    apply orb_prop in Hc as [Hs|Hc].
    + rewrite (startswith_app (c :: a) b kw Hs). reflexivity.
    + cbn [app]. rewrite (IH Hc). apply orb_true_r.
Qed.

Lemma filter_length_le {A} (f g : A -> bool) (l : list A) :
  (forall a, f a = true -> g a = true) ->
  (List.length (List.filter f l) <= List.length (List.filter g l))%nat.
Proof.
  intros Hfg. induction l as [|a l IH]; cbn; [lia|].
  destruct (f a) eqn:E.
  - rewrite (Hfg a E). cbn. lia.
  - destruct (g a); cbn; lia.
Qed.

Section Append.
Context `{PyLib}.
Variable e : str.

Lemma blank_not_word : is_word 32 = false.
Proof. apply is_space_not_word, is_space_blank. Qed.

Lemma not_word_not_digit (c : N) : is_word c = false -> is_digit c = false.
Proof.
  intros Hw. destruct (is_digit c) eqn:E; [|reflexivity].
  apply is_digit_word in E. congruence.
Qed.

Lemma blank_not_digit : is_digit 32 = false.
Proof. apply not_word_not_digit, blank_not_word. Qed.

Lemma head_word_stable (s : str) :
  word_at (List.head (s ++ (32%N :: e))) = word_at (List.head s).
Proof. destruct s; [apply blank_not_word|reflexivity]. Qed.

Lemma stable_bound : stable (32%N :: e) Bound.
Proof.
  intros k k' Hk prev s n. cbn [rmatch].
  rewrite head_word_stable, Hk. reflexivity.
Qed.

Lemma stable_class (p : N -> bool) : p 32%N = false -> stable (32%N :: e) (Class p).
Proof.
  intros Hp k k' Hk prev s n. cbn [rmatch].
  destruct s as [|c s]; cbn; [rewrite Hp; reflexivity|].
  rewrite <- Hk. reflexivity.
Qed.

Lemma stable_rep (lo hi : nat) (p : N -> bool) :
  p 32%N = false -> stable (32%N :: e) (Rep lo hi p).
Proof.
  intros Hp k k' Hk prev s n. cbn [rmatch].
  revert lo prev s n. induction hi as [|hi IH]; intros lo prev s n.
  - cbn. rewrite Hk. reflexivity.
  - cbn [rep]. destruct s as [|c s]; cbn [app].
    + rewrite Hp.
      change (32%N :: e) with ([] ++ 32%N :: e). rewrite Hk. reflexivity.
    + change (c :: s ++ (32%N :: e)) with ((c :: s) ++ (32%N :: e)).
      rewrite Hk, IH. reflexivity.
Qed.

Lemma stable_opt (r : regex) : stable (32%N :: e) r -> stable (32%N :: e) (Opt r).
Proof.
  intros Hr k k' Hk prev s n. cbn [rmatch].
  rewrite (Hr k k' Hk), Hk. reflexivity.
Qed.

Lemma stable_seq (r1 r2 : regex) :
  stable (32%N :: e) r1 -> stable (32%N :: e) r2 -> stable (32%N :: e) (Seq r1 r2).
Proof.
  intros H1 H2 k k' Hk prev s n. cbn [rmatch].
  apply (H1 _ _ (H2 k k' Hk)).
Qed.

Lemma digits_k_stable : stable_k (32%N :: e) digits_k digits_k.
Proof.
  assert (Hd : stable (32%N :: e) PRICE_DIGITS).
  { unfold PRICE_DIGITS.
    apply stable_seq; [apply stable_rep, blank_not_digit|].
    apply stable_seq; [|apply stable_bound].
    apply stable_opt, stable_seq;
      [apply stable_class; reflexivity|apply stable_rep, blank_not_digit]. }
  apply (Hd (fun _ _ m => Some m) (fun _ _ m => Some m)).
  intros prev s n. reflexivity.
Qed.

Lemma digits_k_no_digit (prev : option N) (s : str) (n : nat) :
  match s with [] => True | c :: _ => is_digit c = false end ->
  digits_k prev s n = None.
Proof.
  unfold digits_k, PRICE_DIGITS. cbn [rmatch rep].
  destruct s as [|c s]; [reflexivity|].
  intros ->. reflexivity.
Qed.

Lemma star_append (prev : option N) (s : str) (n : nat) :
  (forall m, star is_space prev s n digits_k = Some m ->
             star is_space prev (s ++ (32%N :: e)) n digits_k = Some m) /\
  (star is_space prev s n digits_k = None ->
   forall m, star is_space prev (s ++ (32%N :: e)) n digits_k = Some m ->
             Forall (fun c => is_space c = true) s).
Proof.
  revert prev n. induction s as [|c s IH]; intros prev n.
  - split; [|constructor].
    cbn [star app]. rewrite digits_k_no_digit by exact I. discriminate.
  - cbn [star app]. destruct (is_space c) eqn:Hc.
    + assert (Hnd : is_digit c = false)
        by (apply not_word_not_digit, is_space_not_word, Hc).
      rewrite (digits_k_no_digit prev (c :: s) n Hnd).
      rewrite (digits_k_no_digit prev (c :: s ++ (32%N :: e)) n Hnd).
      rewrite !or_else_none.
      destruct (IH (Some c) (S n)) as [IH1 IH2]. split; [exact IH1|].
      intros Hn m Hm. constructor; [exact Hc|]. eapply IH2; eassumption.
    + change (c :: s ++ (32%N :: e)) with ((c :: s) ++ (32%N :: e)).
      rewrite digits_k_stable. split; [tauto|]. congruence.
Qed.

(** How [PRICE_RE] matches at a position. *)
Lemma match_price (prev : option N) (s : str) :
  match_here PRICE_RE prev s =
  if xorb (word_at prev) (word_at (List.head s)) then
    or_else
      match s with
      | c :: s' =>
          if is_chr "$" c then star is_space (Some c) s' 1 digits_k
          else None
      | [] => None
      end
      (digits_k prev s 0%nat)
  else None.
Proof. reflexivity. Qed.

Lemma dollar_is (c : N) : is_chr "$" c = true -> c = 36%N.
Proof.
  unfold is_chr. cbn. rewrite orb_false_r. apply N.eqb_eq.
Qed.

Lemma dollar_not_digit : is_digit 36 = false.
Proof. apply not_word_not_digit, dollar_not_word. Qed.

Lemma match_price_kept (prev : option N) (s : str) (m : nat) :
  match_here PRICE_RE prev s = Some m ->
  match_here PRICE_RE prev (s ++ (32%N :: e)) = Some m.
Proof.
  rewrite !match_price, head_word_stable.
  destruct (xorb _ _); [|discriminate].
  rewrite digits_k_stable.
  destruct s as [|c s]; cbn [app].
  - rewrite digits_k_no_digit by exact I. discriminate.
  - destruct (is_chr "$" c) eqn:Hc; [|tauto].
    apply dollar_is in Hc. subst c.
    rewrite (digits_k_no_digit prev (36%N :: s) 0 dollar_not_digit).
    rewrite !or_else_none. apply star_append.
Qed.

Lemma match_price_new (prev : option N) (s : str) (m : nat) :
  match_here PRICE_RE prev s = None ->
  match_here PRICE_RE prev (s ++ (32%N :: e)) = Some m ->
  exists s', s = 36%N :: s' /\ Forall (fun c => is_space c = true) s'.
Proof.
  rewrite !match_price, head_word_stable.
  destruct (xorb _ _); [|discriminate].
  rewrite digits_k_stable.
  destruct s as [|c s]; cbn [app].
  - rewrite digits_k_no_digit by exact I. cbn. discriminate.
  - destruct (is_chr "$" c) eqn:Hc; [|cbn; congruence].
    apply dollar_is in Hc. subst c.
    rewrite (digits_k_no_digit prev (36%N :: s) 0 dollar_not_digit).
    rewrite !or_else_none. intros Hn Hm.
    exists s. split; [reflexivity|].
    eapply star_append; eassumption.
Qed.

Lemma no_price_in_blanks (prev : option N) (s : str) :
  word_at prev = false -> Forall (fun c => is_space c = true) s ->
  findall_from PRICE_RE prev s 0 = 0%nat.
Proof.
  intros Hp Hs. revert prev Hp.
  induction Hs as [|c s Hc Hs IH]; intros prev Hp; cbn [findall_from].
  - rewrite match_price, Hp. reflexivity.
  - rewrite match_price, Hp. cbn [List.head word_at].
    rewrite (is_space_not_word c Hc). cbn.
    apply IH. cbn. apply is_space_not_word, Hc.
Qed.

Lemma findall_price_append (prev : option N) (s : str) (skip : nat) :
  (findall_from PRICE_RE prev s skip
   <= findall_from PRICE_RE prev (s ++ (32%N :: e)) skip)%nat.
Proof.
  revert prev skip. induction s as [|c s IH]; intros prev skip.
  - cbn [findall_from app].
    assert (Hn : match_here PRICE_RE prev [] = None).
    { rewrite match_price, (digits_k_no_digit prev [] 0 I).
      destruct (xorb _ _); reflexivity. }
    rewrite Hn. destruct skip; lia.
  - cbn [findall_from app]. destruct skip as [|skip]; [|apply IH].
    change (c :: s ++ (32%N :: e)) with ((c :: s) ++ (32%N :: e)).
    destruct (match_here PRICE_RE prev (c :: s)) as [m|] eqn:E.
    + rewrite (match_price_kept _ _ _ E). apply le_n_S, IH.
    + destruct (match_here PRICE_RE prev ((c :: s) ++ (32%N :: e))) as [m|] eqn:E';
        [|apply IH].
      destruct (match_price_new _ _ _ E E') as (s' & Hs & Hblank).
      injection Hs as -> ->.
      rewrite (no_price_in_blanks (Some 36%N) s' dollar_not_word Hblank).
      lia.
Qed.

(** None of the three counts shrinks when text is added after a
    space. *)
Lemma price_hits_append (text : str) :
  (price_hits text <= price_hits (text ++ 32%N :: e))%nat.
Proof. apply findall_price_append. Qed.

Lemma currency_hits_append (text : str) :
  (currency_hits text <= currency_hits (text ++ 32%N :: e))%nat.
Proof.
  rewrite !currency_hits_count, List.filter_app, List.length_app. lia.
Qed.

Lemma cat_hits_append (text : str) :
  (cat_hits text <= cat_hits (text ++ 32%N :: e))%nat.
Proof.
  unfold cat_hits. apply filter_length_le. intros kw.
  rewrite str_lower_blank. apply contains_app.
Qed.

End Append.

Section Monotone.
Context `{PyLib}.

(** C7, amended: a document classified true stays true when price
    tokens are added to its text in a way that lowers none of the three
    counts (the price-token count grows or stays and neither the count
    of currency signs nor that of distinct category keywords shrinks),
    and so whenever more text follows the old one after a space, as
    when an element is added at the end of the document. *)
Theorem is_menu_like_monotone (html html' : Html) :
  is_menu_like html = true ->
  ((price_hits (soup_text html) <= price_hits (soup_text html'))%nat /\
   (currency_hits (soup_text html)
    <= currency_hits (soup_text html'))%nat /\
   (cat_hits (soup_text html) <= cat_hits (soup_text html'))%nat) \/
  (exists more, soup_text html' = soup_text html ++ 32%N :: more) ->
  is_menu_like html' = true.
Proof.
  intros Htrue Hmore.
  assert (Hcounts :
    (price_hits (soup_text html) <= price_hits (soup_text html'))%nat /\
    (currency_hits (soup_text html)
     <= currency_hits (soup_text html'))%nat /\
    (cat_hits (soup_text html) <= cat_hits (soup_text html'))%nat).
  { destruct Hmore as [Hc|(more & ->)]; [exact Hc|].
    split; [apply price_hits_append|].
    split; [apply currency_hits_append|apply cat_hits_append]. }
  destruct Hcounts as (Hp & Hc & Hk).
  apply is_menu_like_counts in Htrue.
  apply is_menu_like_counts.
  cbv zeta in *.
  destruct Htrue as [H3|[H2|[H1 Hk3]]]; [left|right; left|right; right];
    try split; lia.
Qed.

End Monotone.

Section ClassifierExamples.
Import Demo.

Example price_tokens :
  List.map (fun t => price_hits (lit t))
    ["1 2 3"; "1 2 345"; "1 2 3456"; "$5"; "a$ 5 b"; "1.234";
     "12.50 3,99 x1 1x"; "$ $"; "price: $12.50, $3"]%string
  = [3; 3; 2; 1; 1; 2; 2; 0; 2]%nat.
Proof. vm_compute. reflexivity. Qed.

(** The amended C7 on two concrete texts, the second being the first
    with one more price after a space. *)
Lemma is_menu_like_monotone_witness :
  is_menu_like (plain "Soup 5 Pizza 7 Wine 9") = true /\
  is_menu_like (plain "Soup 5 Pizza 7 Wine 9 Beer 4") = true.
Proof.
  split; [vm_compute; reflexivity|].
  apply (is_menu_like_monotone (plain "Soup 5 Pizza 7 Wine 9")).
  - vm_compute. reflexivity.
  - right. exists (lit "Beer 4"). reflexivity.
Defined.

(** C7 fails where the added price token falls inside a category
    keyword: the text [soups wine beer 1] is classified true by its one
    price and its four keywords ([soup], [soups], [wine], [beer]); with
    the token [5] put in after [so], as by an element inside the word,
    the text has two price tokens but only two keywords left, and is
    classified false. *)
Lemma is_menu_like_monotone_counterexample :
  let before := lit "soups wine beer 1" in
  let after := lit "so 5 ups wine beer 1" in
  before = lit "so" ++ lit "ups wine beer 1" /\
  after = lit "so" ++ lit " 5 " ++ lit "ups wine beer 1" /\
  price_hits before = 1%nat /\ price_hits after = 2%nat /\
  currency_hits before = 0%nat /\ currency_hits after = 0%nat /\
  cat_hits before = 4%nat /\ cat_hits after = 2%nat /\
  is_menu_like (plain "soups wine beer 1") = true /\
  is_menu_like (plain "so 5 ups wine beer 1") = false.
Proof. vm_compute. repeat split. Qed.

(** Where the added digits are glued to a number, a price token is
    changed, not added: the count goes down. *)
Example glued_digits :
  price_hits (lit "1 2 345") = 3%nat /\ price_hits (lit "1 2 3456") = 2%nat.
Proof. vm_compute. split; reflexivity. Qed.

End ClassifierExamples.

(** ** Insertion-ordered dictionaries and the ranking *)

Lemma str_eqb_eq (a b : str) : str_eqb a b = true <-> a = b.
Proof. unfold str_eqb. apply bool_decide_eq_true. Qed.

Lemma str_eqb_neq (a b : str) : str_eqb a b = false <-> a <> b.
Proof. unfold str_eqb. apply bool_decide_eq_false. Qed.

Lemma str_eqb_refl (a : str) : str_eqb a a = true.
Proof. apply str_eqb_eq. reflexivity. Qed.

Section Odict.
Context {V : Type}.
Implicit Types (d : list (str * V)) (k : str) (v : V).

Lemma odict_get_set_eq k v d : odict_get k (odict_set k v d) = Some v.
Proof.
  induction d as [|[k' v'] d IH]; cbn.
  - rewrite str_eqb_refl. reflexivity.
  - destruct (str_eqb k' k) eqn:E; cbn; rewrite E; [reflexivity|exact IH].
Qed.

Lemma odict_get_set_ne k k' v d :
  k <> k' -> odict_get k' (odict_set k v d) = odict_get k' d.
Proof.
  intros Hne. induction d as [|[k0 v0] d IH]; cbn.
  - apply str_eqb_neq in Hne. rewrite Hne. reflexivity.
  - destruct (str_eqb k0 k) eqn:E; cbn.
    + apply str_eqb_eq in E. subst k0.
      apply str_eqb_neq in Hne. rewrite Hne. reflexivity.
    + destruct (str_eqb k0 k'); [reflexivity|exact IH].
Qed.

Lemma odict_get_in k v d : odict_get k d = Some v -> In (k, v) d.
Proof.
  induction d as [|[k' v'] d IH]; cbn; [discriminate|].
  destruct (str_eqb k' k) eqn:E.
  - apply str_eqb_eq in E. intros [= ->]. left. congruence.
  - intros Hg. right. apply IH, Hg.
Qed.

Lemma odict_in_get k v d :
  List.NoDup (List.map fst d) -> In (k, v) d -> odict_get k d = Some v.
Proof.
  induction d as [|[k' v'] d IH]; cbn; [tauto|].
  intros Hnd [Heq|Hin]; inversion Hnd as [|? ? Hnotin Hnd']; subst.
  - inversion Heq; subst. rewrite str_eqb_refl. reflexivity.
  - destruct (str_eqb k' k) eqn:E.
    + apply str_eqb_eq in E. subst k'. exfalso. apply Hnotin.
      change k with (fst (k, v)). apply List.in_map, Hin.
    + apply IH; assumption.
Qed.

Lemma odict_set_keys k v d :
  List.map fst (odict_set k v d) =
  match odict_get k d with
  | Some _ => List.map fst d
  | None => List.map fst d ++ [k]
  end.
Proof.
  induction d as [|[k' v'] d IH]; cbn; [reflexivity|].
  destruct (str_eqb k' k) eqn:E; cbn; [reflexivity|].
  rewrite IH. destruct (odict_get k d); reflexivity.
Qed.

Lemma odict_get_none_keys k d :
  odict_get k d = None -> ~ In k (List.map fst d).
Proof.
  induction d as [|[k' v'] d IH]; cbn; [tauto|].
  destruct (str_eqb k' k) eqn:E; [discriminate|].
  apply str_eqb_neq in E. intros Hg [Heq|Hin]; [congruence|].
  apply IH; assumption.
Qed.

Lemma odict_set_nodup k v d :
  List.NoDup (List.map fst d) ->
  List.NoDup (List.map fst (odict_set k v d)).
Proof.
  intros Hnd. rewrite odict_set_keys.
  destruct (odict_get k d) eqn:E; [exact Hnd|].
  apply List.NoDup_app; [exact Hnd | repeat constructor; cbn; tauto |].
  intros x Hx [<-|[]]. eapply odict_get_none_keys; eassumption.
Qed.

End Odict.

Section Ranking.

Lemma insert_by_score_perm (x : MenuPage) (l : list MenuPage) :
  Permutation (insert_by_score x l) (x :: l).
Proof.
  induction l as [|y l IH]; cbn; [reflexivity|].
  destruct (Z.leb (score y) (score x)); [reflexivity|].
  rewrite IH. apply perm_swap.
Qed.

Lemma sorted_by_score_desc_perm (l : list MenuPage) :
  Permutation (sorted_by_score_desc l) l.
Proof.
  induction l as [|x l IH]; cbn; [reflexivity|].
  rewrite insert_by_score_perm, IH. reflexivity.
Qed.

Lemma insert_by_score_descending (x : MenuPage) (l : list MenuPage) :
  descending l -> descending (insert_by_score x l).
Proof.
  induction l as [|y l IH]; cbn; [tauto|].
  intros [Hy Hl].
  destruct (Z.leb_spec (score y) (score x)) as [Hle|Hgt]; cbn.
  - split; [|split; assumption].
    intros z [<-|Hz]; [exact Hle|]. specialize (Hy z Hz). lia.
  - split; [|apply IH, Hl].
    intros z Hz.
    apply (Permutation_in _ (insert_by_score_perm x l)) in Hz.
    destruct Hz as [<-|Hz]; [lia|apply Hy, Hz].
Qed.

Lemma sorted_by_score_desc_descending (l : list MenuPage) :
  descending (sorted_by_score_desc l).
Proof.
  induction l as [|x l IH]; cbn; [exact I|].
  apply insert_by_score_descending, IH.
Qed.

Lemma descending_before (pre post : list MenuPage) (x y : MenuPage) :
  descending (pre ++ x :: post) -> In y pre -> score x <= score y.
Proof.
  induction pre as [|p pre IH]; cbn; [tauto|].
  intros [Hp Hl] [<-|Hin].
  - apply Hp. apply List.in_or_app. right. left. reflexivity.
  - apply IH; assumption.
Qed.

End Ranking.

(** ** The candidate generator *)

Section Candidates.
Context `{PyLib}.

Lemma add_anchor_inv (base_url : str) (seen : list Anchor)
    (d : list (str * MenuPage)) (a : Anchor) :
  dict_inv base_url seen d ->
  dict_inv base_url (seen ++ [a]) (add_anchor base_url d a).
Proof.
  intros (Hnd & Hent & Hnone).
  (* an anchor that leaves the dictionary as it is *)
  assert (Hkeep :
    (forall k, anchor_target base_url a = Some k ->
       anchor_points base_url a <= 0 \/
       exists mp, odict_get k d = Some mp /\
                  anchor_points base_url a <= score mp) ->
    dict_inv base_url (seen ++ [a]) d).
  { intros Hlow. split; [exact Hnd|split].
    - intros k mp Hg. destruct (Hent k mp Hg) as (Hu & Hpos & Hex & Hmax).
      split; [exact Hu|split; [exact Hpos|split]].
      + destruct Hex as (a0 & Hin & Ht & Hs). exists a0.
        split; [apply List.in_or_app; left; exact Hin|tauto].
      + intros a0 Hin Ht. apply List.in_app_or in Hin as [Hin|[<-|[]]].
        * apply Hmax; assumption.
        * destruct (Hlow k Ht) as [Hle|(mp' & Hg' & Hle)]; [lia|].
          congruence.
    - intros k a0 Hg Hin Ht. apply List.in_app_or in Hin as [Hin|[<-|[]]].
      + eapply Hnone; eassumption.
      + destruct (Hlow k Ht) as [Hle|(mp' & Hg' & Hle)]; [exact Hle|].
        congruence. }
  (* an anchor that sets the entry of its URL *)
  assert (Hset : forall href,
    anchor_target base_url a = Some (urljoin base_url href) ->
    0 < anchor_points base_url a ->
    (forall old, odict_get (urljoin base_url href) d = Some old ->
                 score old < anchor_points base_url a) ->
    forall l,
    dict_inv base_url (seen ++ [a])
      (odict_set (urljoin base_url href)
         (mk_page (urljoin base_url href) l
            (anchor_points base_url a) false) d)).
  { intros href Ht Hpos Hold l.
    split; [apply odict_set_nodup, Hnd|split].
    - intros k mp Hg.
      destruct (decide (urljoin base_url href = k)) as [<-|Hk].
      + rewrite odict_get_set_eq in Hg. injection Hg as <-. cbn.
        split; [reflexivity|split; [exact Hpos|split]].
        * exists a. split; [apply List.in_or_app; right; left|]; tauto.
        * intros a0 Hin Ht0.
          apply List.in_app_or in Hin as [Hin|[<-|[]]]; [|lia].
          destruct (odict_get (urljoin base_url href) d) as [old|] eqn:E.
          -- destruct (Hent _ _ E) as (_ & _ & _ & Hmax).
             specialize (Hmax a0 Hin Ht0). specialize (Hold old eq_refl).
             lia.
          -- specialize (Hnone _ a0 E Hin Ht0). lia.
      + rewrite odict_get_set_ne in Hg by exact Hk.
        destruct (Hent k mp Hg) as (Hu & Hp & Hex & Hmax).
        split; [exact Hu|split; [exact Hp|split]].
        * destruct Hex as (a0 & Hin & Ht0 & Hs). exists a0.
          split; [apply List.in_or_app; left; exact Hin|tauto].
        * intros a0 Hin Ht0.
          apply List.in_app_or in Hin as [Hin|[<-|[]]];
            [apply Hmax; assumption|congruence].
    - intros k a0 Hg Hin Ht0.
      destruct (decide (urljoin base_url href = k)) as [<-|Hk].
      + rewrite odict_get_set_eq in Hg. discriminate.
      + rewrite odict_get_set_ne in Hg by exact Hk.
        apply List.in_app_or in Hin as [Hin|[<-|[]]];
          [eapply Hnone; eassumption|congruence]. }
  unfold add_anchor.
  destruct (a_href a) as [[|c href]|] eqn:Hh.
  - apply Hkeep. unfold anchor_target. rewrite Hh. discriminate.
  - assert (Hs : anchor_score base_url (c :: href)
                   (List.firstn 200 (a_text a))
                 = anchor_points base_url a).
    { unfold anchor_points. rewrite Hh. reflexivity. }
    assert (Ht : anchor_target base_url a
                 = Some (urljoin base_url (c :: href))).
    { unfold anchor_target. rewrite Hh. reflexivity. }
    rewrite Hs.
    destruct (Z.leb_spec (anchor_points base_url a) 0) as [Hle|Hgt].
    + apply Hkeep. intros k Hk. left. exact Hle.
    + destruct (odict_get (urljoin base_url (c :: href)) d)
        as [old|] eqn:E.
      * destruct (Z.ltb_spec (score old) (anchor_points base_url a))
          as [Hlt|Hge].
        -- apply (Hset (c :: href) Ht); [exact Hgt|].
           intros old' Ho. congruence.
        -- apply Hkeep. intros k Hk. right. exists old.
           rewrite Ht in Hk. injection Hk as <-. split; [exact E|lia].
      * apply (Hset (c :: href) Ht); [exact Hgt|].
        intros old' Ho. congruence.
  - apply Hkeep. unfold anchor_target. rewrite Hh. discriminate.
Qed.

Lemma fold_anchors_inv (base_url : str) (todo seen : list Anchor)
    (d : list (str * MenuPage)) :
  dict_inv base_url seen d ->
  dict_inv base_url (seen ++ todo)
    (List.fold_left (add_anchor base_url) todo d).
Proof.
  revert seen d. induction todo as [|a todo IH]; intros seen d Hinv; cbn.
  - rewrite List.app_nil_r. exact Hinv.
  - replace (seen ++ a :: todo) with ((seen ++ [a]) ++ todo)
      by (rewrite <- List.app_assoc; reflexivity).
    apply IH, add_anchor_inv, Hinv.
Qed.

Lemma anchors_dict_inv (base_url : str) (html : Html) :
  dict_inv base_url (soup_anchors html)
    (List.fold_left (add_anchor base_url) (soup_anchors html) []).
Proof.
  apply (fold_anchors_inv base_url (soup_anchors html) []).
  split; [constructor|split].
  - intros k mp Hg. discriminate.
  - intros k a _ [].
Qed.

End Candidates.

Lemma filter_perm {A} (f : A -> bool) (l l' : list A) :
  Permutation l l' -> Permutation (List.filter f l) (List.filter f l').
Proof.
  induction 1 as [|x l l' _ IH|x y l|l l' l'' _ IH1 _ IH2]; cbn.
  - reflexivity.
  - destruct (f x); [apply perm_skip|]; exact IH.
  - destruct (f x), (f y); try reflexivity. apply perm_swap.
  - etransitivity; eassumption.
Qed.

Lemma firstn_in {A} (n : nat) (l : list A) (x : A) :
  In x (List.firstn n l) -> In x l.
Proof.
  intros Hin. rewrite <- (List.firstn_skipn n l).
  apply List.in_or_app. left. exact Hin.
Qed.

Lemma firstn_nodup {A} (n : nat) (l : list A) :
  List.NoDup l -> List.NoDup (List.firstn n l).
Proof.
  intros Hnd. rewrite <- (List.firstn_skipn n l) in Hnd.
  apply List.NoDup_app_remove_r in Hnd. exact Hnd.
Qed.

Lemma with_url_at_most_one (u : str) (l : list MenuPage) :
  List.NoDup (List.map url l) -> (List.length (with_url u l) <= 1)%nat.
Proof.
  unfold with_url.
  induction l as [|x l IH]; cbn; [lia|].
  intros Hnd. inversion Hnd as [|? ? Hnotin Hnd']; subst.
  destruct (str_eqb (url x) u) eqn:E; [|apply IH, Hnd'].
  apply str_eqb_eq in E. cbn.
  assert (Hnil : List.filter (fun mp => str_eqb (url mp) u) l = []).
  { destruct (List.filter (fun mp => str_eqb (url mp) u) l) as [|y f]
      eqn:Hf; [reflexivity|].
    assert (Hy : In y (List.filter (fun mp => str_eqb (url mp) u) l))
      by (rewrite Hf; left; reflexivity).
    apply List.filter_In in Hy as [Hy Hyu]. apply str_eqb_eq in Hyu.
    exfalso. apply Hnotin. rewrite E, <- Hyu. apply List.in_map, Hy. }
  rewrite Hnil. cbn. lia.
Qed.

Section Discover.
Context `{PyLib}.

Lemma candidate_dict_nodup (base_url : str) (html : Html) :
  List.NoDup (List.map fst (candidate_dict base_url html)).
Proof.
  unfold candidate_dict.
  destruct (anchors_dict_inv base_url html) as (Hnd & _).
  destruct (is_menu_like html); [apply odict_set_nodup|]; exact Hnd.
Qed.

Lemma candidate_dict_other (base_url : str) (html : Html) (u : str) :
  is_menu_like html = false \/ u <> base_url ->
  odict_get u (candidate_dict base_url html) =
  odict_get u (List.fold_left (add_anchor base_url) (soup_anchors html) []).
Proof.
  unfold candidate_dict. intros [->|Hne]; [reflexivity|].
  destruct (is_menu_like html); [|reflexivity].
  apply odict_get_set_ne. congruence.
Qed.

Lemma candidate_dict_keyed (base_url : str) (html : Html)
    (k : str) (mp : MenuPage) :
  odict_get k (candidate_dict base_url html) = Some mp -> url mp = k.
Proof.
  destruct (anchors_dict_inv base_url html) as (_ & Hent & _).
  unfold candidate_dict.
  destruct (is_menu_like html); [|intros Hg; apply (Hent k mp Hg)].
  destruct (decide (base_url = k)) as [<-|Hk].
  - rewrite odict_get_set_eq. intros [= <-]. reflexivity.
  - rewrite odict_get_set_ne by exact Hk. intros Hg. apply (Hent k mp Hg).
Qed.

Lemma candidate_dict_values (base_url : str) (html : Html)
    (mp : MenuPage) :
  In mp (odict_values (candidate_dict base_url html)) ->
  odict_get (url mp) (candidate_dict base_url html) = Some mp.
Proof.
  unfold odict_values. intros Hin.
  apply List.in_map_iff in Hin as ([k mp'] & Heq & Hin). cbn in Heq. subst.
  apply odict_in_get in Hin; [|apply candidate_dict_nodup].
  rewrite (candidate_dict_keyed _ _ _ _ Hin). exact Hin.
Qed.

Lemma candidate_dict_urls (base_url : str) (html : Html) :
  List.map url (odict_values (candidate_dict base_url html)) =
  List.map fst (candidate_dict base_url html).
Proof.
  unfold odict_values. rewrite List.map_map.
  apply List.map_ext_in. intros [k mp] Hin. cbn.
  apply candidate_dict_keyed with (base_url := base_url) (html := html).
  apply odict_in_get; [apply candidate_dict_nodup|exact Hin].
Qed.

Lemma discover_in_dict (base_url : str) (html : Html) (mp : MenuPage) :
  In mp (discover_menu_links base_url html) ->
  odict_get (url mp) (candidate_dict base_url html) = Some mp.
Proof.
  unfold discover_menu_links. intros Hin.
  apply firstn_in in Hin.
  apply (Permutation_in _ (sorted_by_score_desc_perm _)) in Hin.
  apply candidate_dict_values, Hin.
Qed.

Lemma discover_urls_distinct (base_url : str) (html : Html) :
  List.NoDup (List.map url (discover_menu_links base_url html)).
Proof.
  unfold discover_menu_links. rewrite <- List.firstn_map.
  apply firstn_nodup.
  eapply Permutation_NoDup.
  - symmetry. apply Permutation_map, sorted_by_score_desc_perm.
  - rewrite candidate_dict_urls. apply candidate_dict_nodup.
Qed.

(** C8, amended: for every URL, that of a menu-like homepage included,
    the output has at most one candidate; and unless the URL is the
    base URL of a menu-like homepage, that candidate carries the
    maximum of the scores computed for the anchors that resolve to the
    URL. *)
Theorem discover_dedup_max (base_url : str) (html : Html) (u : str) :
  (List.length (with_url u (discover_menu_links base_url html)) <= 1)%nat
  /\
  (is_menu_like html = false \/ u <> base_url ->
   forall mp, In mp (discover_menu_links base_url html) -> url mp = u ->
     best_anchor_score base_url html u (score mp)).
Proof.
  split.
  - apply with_url_at_most_one, discover_urls_distinct.
  - intros Hu mp Hin <-.
    apply discover_in_dict in Hin.
    rewrite candidate_dict_other in Hin by exact Hu.
    destruct (anchors_dict_inv base_url html) as (_ & Hent & _).
    destruct (Hent _ _ Hin) as (_ & _ & Hex & Hmax).
    split; assumption.
Qed.

(** C9, amended: for a menu-like homepage the dictionary of candidates
    maps the base URL to the candidate labelled "menu" with score 5,
    whatever the anchors gave for that URL; the output has no other
    candidate for the base URL, and has this one whenever fewer than 12
    other candidates score 5 or more. *)
Theorem homepage_candidate_injected (base_url : str) (html : Html) :
  is_menu_like html = true ->
  odict_get base_url (candidate_dict base_url html)
    = Some (homepage_candidate base_url) /\
  (forall mp, In mp (discover_menu_links base_url html) ->
     url mp = base_url -> mp = homepage_candidate base_url) /\
  ((List.length
      (rivals base_url (odict_values (candidate_dict base_url html)))
    < 12)%nat ->
   In (homepage_candidate base_url) (discover_menu_links base_url html)).
Proof.
  intros Hml.
  assert (Hget : odict_get base_url (candidate_dict base_url html)
                 = Some (homepage_candidate base_url)).
  { unfold candidate_dict. rewrite Hml. apply odict_get_set_eq. }
  split; [exact Hget|split].
  - intros mp Hin Hu. apply discover_in_dict in Hin.
    rewrite Hu in Hin. congruence.
  - intros Hfew. unfold discover_menu_links.
    set (l := odict_values (candidate_dict base_url html)) in *.
    assert (Hin : In (homepage_candidate base_url)
                    (sorted_by_score_desc l)).
    { apply (Permutation_in _ (Permutation_sym
                                 (sorted_by_score_desc_perm l))).
      unfold l, odict_values.
      apply List.in_map_iff. exists (base_url, homepage_candidate base_url).
      split; [reflexivity|]. apply odict_get_in, Hget. }
    apply List.in_split in Hin as (pre & post & Hsplit).
    assert (Hpre : List.filter
                     (fun mp => Z.leb 5 (score mp)
                                && negb (str_eqb (url mp) base_url)) pre
                   = pre).
    { assert (Hnd : List.NoDup (List.map url (sorted_by_score_desc l))).
      { eapply Permutation_NoDup.
        - symmetry. apply Permutation_map, sorted_by_score_desc_perm.
        - unfold l. rewrite candidate_dict_urls.
          apply candidate_dict_nodup. }
      assert (Hdesc := sorted_by_score_desc_descending l).
      rewrite Hsplit in Hnd, Hdesc.
      apply List.forallb_filter_id, List.forallb_forall.
      intros y Hy. apply andb_true_intro. split.
      - apply Z.leb_le.
        apply (descending_before pre post (homepage_candidate base_url) y
                 Hdesc Hy).
      - apply negb_true_iff, str_eqb_neq. intros Hyu.
        rewrite List.map_app in Hnd. cbn in Hnd.
        apply List.NoDup_remove_2 in Hnd. apply Hnd.
        apply List.in_or_app. left. rewrite <- Hyu.
        apply List.in_map, Hy. }
    assert (Hlen : (List.length pre < 12)%nat).
    { eapply Nat.le_lt_trans; [|exact Hfew].
      unfold rivals.
      rewrite <- (Permutation_length
                    (filter_perm _ _ _ (sorted_by_score_desc_perm l))).
      rewrite Hsplit, List.filter_app, Hpre, List.length_app. lia. }
    rewrite Hsplit, List.firstn_app.
    apply List.in_or_app. right.
    destruct (12 - List.length pre)%nat as [|n] eqn:E; [lia|].
    cbn. left. reflexivity.
Qed.

End Discover.

Section DiscoverExamples.
Import Demo.

Example two_menu_links_collapse :
  List.map (fun mp => (url mp, label mp, score mp))
    (discover_menu_links site home_two_menu_links)
  = [(lit "https://x.com/menu", lit "our menu", 9)].
Proof. vm_compute. reflexivity. Qed.

(** The amended C8 on a homepage with two links to [/menu], where the
    one candidate has the higher of the two scores, and on the
    menu-like homepage with two links to itself, where there is one
    candidate all the same. *)
Lemma discover_dedup_max_witness :
  ((List.length
      (with_url (lit "https://x.com/menu")
         (discover_menu_links site home_two_menu_links)) <= 1)%nat /\
   forall mp, In mp (discover_menu_links site home_two_menu_links) ->
     url mp = lit "https://x.com/menu" ->
     best_anchor_score site home_two_menu_links (lit "https://x.com/menu")
       (score mp)) /\
  (List.length
     (with_url site (discover_menu_links site home_two_self_links))
   <= 1)%nat.
Proof.
  split.
  - destruct (discover_dedup_max site home_two_menu_links
                (lit "https://x.com/menu")) as [Hone Hmax].
    split; [exact Hone|]. apply Hmax. left. vm_compute. reflexivity.
  - apply (discover_dedup_max site home_two_self_links site).
Defined.

Example two_self_links_scores :
  List.map (anchor_points site) (soup_anchors home_two_self_links) = [6; 8]
  /\ List.map (fun mp => (url mp, label mp, score mp))
       (discover_menu_links site home_two_self_links)
     = [(lit "https://x.com", lit "menu", 5)].
Proof. vm_compute. split; reflexivity. Qed.

(** C8 fails on a menu-like homepage with two links to itself: the
    anchors score 6 and 8, the one candidate for their URL has 5. *)
Lemma discover_dedup_counterexample :
  exists a1 a2 mp,
    a1 <> a2 /\
    In a1 (soup_anchors home_two_self_links) /\
    In a2 (soup_anchors home_two_self_links) /\
    anchor_target site a1 = Some site /\
    anchor_target site a2 = Some site /\
    In mp (discover_menu_links site home_two_self_links) /\
    url mp = site /\
    ~ best_anchor_score site home_two_self_links site (score mp).
Proof.
  exists (link "https://x.com" "Our Menu"),
         (link "https://x.com" "Our Menu food"),
         (homepage_candidate site).
  split; [discriminate|].
  split; [left; reflexivity|].
  split; [right; left; reflexivity|].
  split; [vm_compute; reflexivity|].
  split; [vm_compute; reflexivity|].
  split; [vm_compute; left; reflexivity|].
  split; [reflexivity|].
  intros [_ Hmax].
  specialize (Hmax (link "https://x.com" "Our Menu food")).
  assert (Hle : anchor_points site (link "https://x.com" "Our Menu food")
                <= score (homepage_candidate site)).
  { apply Hmax; [right; left; reflexivity|vm_compute; reflexivity]. }
  vm_compute in Hle. apply Hle. reflexivity.
Qed.

(** The amended C9 on the same homepage. *)
Lemma homepage_candidate_injected_witness :
  odict_get site (candidate_dict site home_two_self_links)
    = Some (homepage_candidate site) /\
  (forall mp, In mp (discover_menu_links site home_two_self_links) ->
     url mp = site -> mp = homepage_candidate site) /\
  ((List.length
      (rivals site (odict_values (candidate_dict site home_two_self_links)))
    < 12)%nat ->
   In (homepage_candidate site)
     (discover_menu_links site home_two_self_links)).
Proof.
  apply (homepage_candidate_injected site home_two_self_links).
  vm_compute. reflexivity.
Defined.

Example twelve_pdfs_ranking :
  List.map (fun mp => (url mp, score mp))
    (discover_menu_links site home_twelve_pdfs)
  = List.map
      (fun n => (lit "https://x.com/menu" ++ str_of_Z n ++ lit ".pdf", 10))
      numbers.
Proof. vm_compute. reflexivity. Qed.

(** C9 fails on a menu-like homepage with twelve links to PDF menus:
    all twelve places go to the links, none to the homepage. *)
Lemma homepage_candidate_counterexample :
  is_menu_like home_twelve_pdfs = true /\
  ~ exists mp, In mp (discover_menu_links site home_twelve_pdfs) /\
               url mp = site /\ label mp = lit "menu" /\ score mp = 5.
Proof.
  split; [vm_compute; reflexivity|].
  intros (mp & Hin & Hu & _).
  assert (Hall : List.forallb (fun mp => negb (str_eqb (url mp) site))
                   (discover_menu_links site home_twelve_pdfs) = true)
    by (vm_compute; reflexivity).
  rewrite List.forallb_forall in Hall. specialize (Hall mp Hin).
  apply negb_true_iff, str_eqb_neq in Hall. contradiction.
Qed.

End DiscoverExamples.

(** ** Resuming from an output directory *)

Section Resume.
Context `{PyLib} `{Outside}.

Lemma menu_extension_lower (ext : str) :
  In ext menu_extensions ->
  List.existsb (str_eqb (str_lower ext)) menu_extensions = true.
Proof.
  intros Hin.
  assert (Hl : str_lower ext = ext).
  { cbn in Hin. destruct Hin as [<-|[<-|[<-|[]]]];
      (rewrite str_lower_ascii;
       [reflexivity|repeat constructor; vm_compute; reflexivity]). }
  rewrite Hl. apply List.existsb_exists. exists ext.
  split; [exact Hin|apply str_eqb_refl].
Qed.

Lemma scan_entry_file (out_dir fn : str) (c : FileContent) :
  In (splitext_ext fn) menu_extensions ->
  exists f, scan_entry out_dir (fn, NFile c) = Some f.
Proof.
  intros Hext. unfold scan_entry.
  destruct (str_eqb fn (lit "metadata.json")) eqn:E.
  - apply str_eqb_eq in E. subst fn. exfalso.
    vm_compute in Hext. intuition discriminate.
  - fold menu_extensions. rewrite (menu_extension_lower _ Hext).
    eexists. reflexivity.
Qed.

Lemma scan_entry_reconstructed (out_dir : str) (e : str * Node)
    (f : SavedFile) :
  scan_entry out_dir e = Some f -> reconstructed f.
Proof.
  unfold scan_entry. destruct e as [fn [c|]].
  - destruct (str_eqb fn (lit "metadata.json")); [discriminate|].
    destruct (List.existsb _ _); [|discriminate].
    intros [= <-]. repeat split.
  - destruct (str_eqb fn (lit "metadata.json")); discriminate.
Qed.

Lemma result_from_meta_unusable (slug_unique : str) (r : Restaurant)
    (d : gmap str Node) :
  metadata_unusable d -> result_from_meta slug_unique r d = None.
Proof.
  unfold result_from_meta.
  intros [Hno|(c & -> & [->|(m & -> & [->| ->])])]; try reflexivity.
  destruct (d !! lit "metadata.json") as [[c|]|] eqn:E; try reflexivity.
  exfalso. apply (Hno c). reflexivity.
Qed.

(** The resume check reads the output directory of the restaurant and
    nothing else. *)
Lemma existing_menu_info_dir (fs fs' : gmap str (gmap str Node))
    (out_root : str) (r : Restaurant) :
  fs !! fst (restaurant_output_dir out_root r)
  = fs' !! fst (restaurant_output_dir out_root r) ->
  existing_menu_info fs out_root r = existing_menu_info fs' out_root r.
Proof.
  unfold existing_menu_info, restaurant_output_dir. cbn [fst].
  intros ->. reflexivity.
Qed.

(** A resumed result is marked found and skipped. *)
Lemma existing_menu_info_flags (fs : gmap str (gmap str Node))
    (out_root : str) (r : Restaurant) (res : Result) :
  existing_menu_info fs out_root r = Some res ->
  r_found res = true /\ r_skipped res = Some true.
Proof.
  unfold existing_menu_info, restaurant_output_dir.
  destruct (fs !! _) as [d|]; [|discriminate].
  destruct (result_from_meta _ r d) as [res'|] eqn:E.
  - intros [= <-]. unfold result_from_meta in E.
    repeat (match type of E with
            | match ?x with _ => _ end = _ => destruct x; try discriminate
            end).
    all: injection E as <-; split; reflexivity.
  - destruct (omap _ _); [discriminate|].
    intros [= <-]. split; reflexivity.
Qed.

(** A directory that holds a page or a PDF is resumed from, whatever
    its metadata. *)
Lemma existing_menu_info_some (fs : gmap str (gmap str Node))
    (out_root : str) (r : Restaurant) (d : gmap str Node)
    (fn : str) (c : FileContent) :
  fs !! fst (restaurant_output_dir out_root r) = Some d ->
  d !! fn = Some (NFile c) ->
  In (splitext_ext fn) menu_extensions ->
  exists res, existing_menu_info fs out_root r = Some res.
Proof.
  intros Hd Hfn Hext.
  unfold existing_menu_info. unfold restaurant_output_dir in *.
  cbn [fst] in Hd. rewrite Hd.
  destruct (result_from_meta _ r d) as [res'|]; [eauto|].
  destruct (scan_entry_file
              (path_join out_root
                 match uuid r with
                 | [] => slug r
                 | _ :: _ => slug r ++ lit "--" ++ List.firstn 8 (uuid r)
                 end) fn c Hext) as (f & Hf).
  assert (Hin : f ∈ omap (scan_entry
              (path_join out_root
                 match uuid r with
                 | [] => slug r
                 | _ :: _ => slug r ++ lit "--" ++ List.firstn 8 (uuid r)
                 end)) (map_to_list d)).
  { apply list_elem_of_omap. exists (fn, NFile c).
    split; [apply elem_of_map_to_list, Hfn|exact Hf]. }
  destruct (omap _ _) as [|f0 fs0]; [inversion Hin|eauto].
Qed.

(** C10: when the output directory exists, [metadata.json] is absent,
    unparsable or lists no saved files, and the directory holds a
    regular file with extension .html, .htm or .pdf, the resume check
    returns a result with found and skipped set in which every entry
    has no URL, no status, no content type, and is marked menu-like. *)
Theorem resume_from_directory_scan (fs : gmap str (gmap str Node))
    (out_root : str) (r : Restaurant) (d : gmap str Node)
    (fn : str) (c : FileContent) :
  fs !! fst (restaurant_output_dir out_root r) = Some d ->
  metadata_unusable d ->
  d !! fn = Some (NFile c) ->
  In (splitext_ext fn) menu_extensions ->
  exists res,
    existing_menu_info fs out_root r = Some res /\
    r_found res = true /\ r_skipped res = Some true /\
    Forall reconstructed (r_saved_files res).
Proof.
  intros Hd Hmeta Hfn Hext.
  destruct (existing_menu_info_some fs out_root r d fn c Hd Hfn Hext)
    as (res & Hres).
  exists res. split; [exact Hres|].
  destruct (existing_menu_info_flags _ _ _ _ Hres) as [Hf Hs].
  split; [exact Hf|split; [exact Hs|]].
  unfold existing_menu_info in Hres. unfold restaurant_output_dir in *.
  cbn [fst] in Hd. rewrite Hd in Hres.
  rewrite (result_from_meta_unusable _ r d Hmeta) in Hres.
  destruct (omap _ _) as [|f0 fs0] eqn:E; [discriminate|].
  injection Hres as <-. cbn [r_saved_files]. rewrite <- E.
  apply Forall_forall. intros f Hin.
  apply list_elem_of_omap in Hin as (e & _ & He).
  eapply scan_entry_reconstructed, He.
Qed.

End Resume.

(** ** File names of saved documents *)

Lemma lstrip_by_forall (P : N -> Prop) (p : N -> bool) (a : str) :
  Forall P a -> Forall P (lstrip_by p a).
Proof.
  induction 1 as [|c a Hc Ha IH]; cbn; [constructor|].
  destruct (p c); [exact IH|constructor; assumption].
Qed.

Lemma strip_by_forall (P : N -> Prop) (p : N -> bool) (a : str) :
  Forall P a -> Forall P (strip_by p a).
Proof.
  intros Ha. unfold strip_by, rstrip_by.
  apply Forall_rev, lstrip_by_forall, Forall_rev, lstrip_by_forall, Ha.
Qed.

Lemma sub_non_alnum_label (in_run : bool) (a : str) :
  Forall label_chr (sub_non_alnum in_run a).
Proof.
  revert in_run. induction a as [|c a IH]; intros in_run; cbn.
  - constructor.
  - destruct (is_lower_alnum c) eqn:E.
    + constructor; [left; exact E|apply IH].
    + destruct in_run; [apply IH|].
      constructor; [right; reflexivity|apply IH].
Qed.

Lemma menu_label : Forall label_chr (lit "menu").
Proof. repeat constructor. Qed.

Lemma str_or_forall (P : N -> Prop) (x y : str) :
  Forall P x -> Forall P y -> Forall P (str_or x y).
Proof. intros Hx Hy. destruct x; [exact Hy|exact Hx]. Qed.

Lemma str_or_nonempty (x y : str) : y <> [] -> str_or x y <> [].
Proof. intros Hy. destruct x; [exact Hy|discriminate]. Qed.

Section Labels.
Context `{PyLib}.

Lemma sanitize_label_chars (l : str) :
  Forall label_chr (sanitize_label l) /\ sanitize_label l <> [].
Proof.
  unfold sanitize_label. split.
  - apply Forall_take, str_or_forall; [|exact menu_label].
    apply strip_by_forall, sub_non_alnum_label.
  - match goal with
    | |- List.firstn 60 ?x <> [] =>
        assert (Hx : x <> []) by (apply str_or_nonempty; discriminate);
        destruct x; [congruence|discriminate]
    end.
Qed.

Lemma save_label_chars (mp : MenuPage) :
  Forall label_chr (save_label mp) /\ save_label mp <> [].
Proof.
  unfold save_label.
  destruct (str_eqb _ (lit "menu")); [|apply sanitize_label_chars].
  destruct (sanitize_label (str_or (basename _) _)) as [|c t] eqn:E;
    [apply sanitize_label_chars|].
  destruct (str_eqb (c :: t) (lit "menu")); [apply sanitize_label_chars|].
  rewrite <- E. apply sanitize_label_chars.
Qed.

End Labels.

Lemma label_chr_plain (c : N) : label_chr c -> c <> 46%N /\ c <> 47%N.
Proof.
  unfold label_chr, is_lower_alnum.
  intros [Hc| ->]; [|split; discriminate].
  split; intros ->; vm_compute in Hc; discriminate.
Qed.

Lemma basename_plain (p : str) :
  Forall (fun c => c <> 47%N) p -> basename p = p.
Proof.
  induction 1 as [|c p Hc Hp IH]; cbn; [reflexivity|].
  assert (Hno : List.existsb (N.eqb 47) p = false).
  { apply not_true_is_false. intros Hex.
    apply List.existsb_exists in Hex as (x & Hx & Heq).
    apply N.eqb_eq in Heq. subst x.
    rewrite Forall_forall in Hp. apply (Hp 47%N); [|reflexivity].
    apply list_elem_of_In. exact Hx. }
  rewrite Hno. destruct (N.eqb_spec c 47); [contradiction|reflexivity].
Qed.

Lemma ext_after_label (l e : str) :
  Forall (fun c => c <> 46%N) l ->
  ext_from_last_dot e = Some e ->
  ext_from_last_dot (l ++ e) = Some e.
Proof.
  intros Hl He. induction Hl as [|c l Hc Hl IH]; cbn; [exact He|].
  rewrite IH. reflexivity.
Qed.

(** A label followed by [.html] or [.pdf] has that extension. *)
Lemma label_extension (l e : str) :
  Forall label_chr l -> l <> [] ->
  e = lit ".html" \/ e = lit ".pdf" ->
  splitext_ext (l ++ e) = e /\ In e menu_extensions.
Proof.
  intros Hl Hne He.
  assert (Hplain : Forall (fun c => c <> 46%N /\ c <> 47%N) l).
  { eapply List.Forall_impl; [|exact Hl]. apply label_chr_plain. }
  assert (He' : Forall (fun c => c <> 47%N) e /\
                ext_from_last_dot e = Some e /\ In e menu_extensions).
  { destruct He as [-> | ->];
      (split; [repeat constructor; discriminate|]);
      (split; [reflexivity|]); vm_compute; tauto. }
  destruct He' as (Hslash & Hext & Hin).
  split; [|exact Hin].
  unfold splitext_ext. rewrite basename_plain.
  - destruct l as [|c l]; [congruence|].
    inversion Hplain as [|? ? [Hc _] Hrest]; subst.
    cbn [app lstrip_by]. destruct (N.eqb_spec 46 c); [congruence|].
    change (c :: l ++ e) with ((c :: l) ++ e).
    rewrite ext_after_label; [reflexivity| |exact Hext].
    eapply List.Forall_impl; [|exact Hplain]. cbn. tauto.
  - apply Forall_app. split; [|exact Hslash].
    eapply List.Forall_impl; [|exact Hplain]. cbn. tauto.
Qed.

(** ** What the effects do to the state *)

Lemma files_persist_refl (fs : gmap str (gmap str Node)) :
  files_persist fs fs.
Proof. intros dir d Hd. exists d. split; [exact Hd|eauto]. Qed.

Lemma files_persist_trans (fs1 fs2 fs3 : gmap str (gmap str Node)) :
  files_persist fs1 fs2 -> files_persist fs2 fs3 -> files_persist fs1 fs3.
Proof.
  intros H12 H23 dir d Hd.
  destruct (H12 dir d Hd) as (d2 & Hd2 & Hf2).
  destruct (H23 dir d2 Hd2) as (d3 & Hd3 & Hf3).
  exists d3. split; [exact Hd3|].
  intros fn c Hfn. destruct (Hf2 fn c Hfn) as (c2 & Hc2). eauto.
Qed.

Lemma files_persist_insert (fs : gmap str (gmap str Node))
    (dir name : str) (d : gmap str Node) (c : FileContent) :
  fs !! dir = Some d ->
  files_persist fs (<[dir := <[name := NFile c]> d]> fs).
Proof.
  intros Hd dir1 d1 Hd1.
  destruct (decide (dir = dir1)) as [<-|Hne].
  - rewrite lookup_insert_eq. eexists. split; [reflexivity|].
    assert (d1 = d) by congruence. subst d1.
    intros fn c1 Hfn. destruct (decide (name = fn)) as [<-|Hn].
    + rewrite lookup_insert_eq. eauto.
    + rewrite lookup_insert_ne by exact Hn. eauto.
  - rewrite lookup_insert_ne by exact Hne. exists d1. eauto.
Qed.

Lemma has_menu_file_persist (fs fs' : gmap str (gmap str Node))
    (dir : str) :
  files_persist fs fs' -> has_menu_file fs dir -> has_menu_file fs' dir.
Proof.
  intros Hp (d & fn & c & Hd & Hfn & Hext).
  destruct (Hp dir d Hd) as (d' & Hd' & Hf).
  destruct (Hf fn c Hfn) as (c' & Hc').
  exists d', fn, c'. tauto.
Qed.

Lemma doc_writes_app (a b : list Event) :
  doc_writes (a ++ b) = (doc_writes a + doc_writes b)%nat.
Proof. unfold doc_writes. rewrite List.filter_app, List.length_app. reflexivity. Qed.

Lemma gets_no_doc_writes (t : list Event) :
  List.forallb is_get t = true -> doc_writes t = 0%nat.
Proof.
  unfold doc_writes. induction t as [|e t IH]; cbn; [reflexivity|].
  intros Hall. apply andb_prop in Hall as [He Ht].
  destruct e; try discriminate. cbn. apply IH, Ht.
Qed.

Section Effects.
Context `{PyLib} `{Outside}.

Lemma client_get_spec (u : str) (st : State) (o : HttpOutcome)
    (st' : State) :
  client_get u st = (o, st') ->
  st_fs st' = st_fs st /\ st_trace st' = EvGet u :: st_trace st.
Proof.
  unfold client_get. destruct (http_get (st_env st) u) as [o' env'].
  intros [= <- <-]. split; reflexivity.
Qed.

Lemma fetch_robots_spec (u : str) (st : State) (rp : Robots)
    (st' : State) :
  fetch_robots u st = (rp, st') ->
  st_fs st' = st_fs st /\
  exists new, st_trace st' = new ++ st_trace st /\
              List.forallb is_get new = true.
Proof.
  unfold fetch_robots.
  destruct (st_cache st !! _) as [rp0|].
  - intros [= <- <-]. split; [reflexivity|]. exists []. split; reflexivity.
  - unfold bind, ret, cache_set.
    destruct (client_get _ st) as [o st1] eqn:Hg.
    apply client_get_spec in Hg as [Hfs Htr].
    intros [= <- <-]. cbn. split; [exact Hfs|].
    eexists [_]. split; [exact Htr|reflexivity].
Qed.

Lemma fetch_text_spec (u : str) (st : State)
    (x : option Html * option str * option Z) (st' : State) :
  fetch_text u st = (x, st') ->
  st_fs st' = st_fs st /\ st_trace st' = EvGet u :: st_trace st.
Proof.
  unfold fetch_text, bind, ret.
  destruct (client_get u st) as [o st1] eqn:Hg.
  apply client_get_spec in Hg.
  destruct o as [r|e]; [destruct (_ || _)|]; intros [= <- <-]; exact Hg.
Qed.

Lemma ensure_dir_spec (path : str) (st : State) (st' : State) :
  ensure_dir path st = (tt, st') ->
  files_persist (st_fs st) (st_fs st') /\
  (exists d, st_fs st' !! path = Some d) /\
  st_trace st' = EvMkdir path :: st_trace st.
Proof.
  unfold ensure_dir, log, set_fs. cbn. intros [= <-]. cbn.
  destruct (st_fs st !! path) as [d|] eqn:E.
  - split; [apply files_persist_refl|]. split; [eauto|reflexivity].
  - split; [|split; [|reflexivity]].
    + intros dir d Hd. exists d.
      rewrite lookup_insert_ne by congruence. eauto.
    + exists ∅. apply lookup_insert_eq.
Qed.

Lemma write_file_spec (dir name : str) (content : Env -> FileContent)
    (st : State) (w : option str) (st' : State) :
  write_file dir name content st = (w, st') ->
  exists o,
    st_trace st' =
      EvWrite (path_join dir name) (content (st_env st')) o
        :: st_trace st /\
    files_persist (st_fs st) (st_fs st') /\
    (w = None <-> o = WriteOk) /\
    (forall e, w = Some e -> o = OpenFails e \/ o = WriteFails e) /\
    (o = WriteOk ->
     exists d', st_fs st' !! dir = Some d' /\
                d' !! name = Some (NFile (content (st_env st')))).
Proof.
  unfold write_file.
  destruct (disk_write (st_env st) (path_join dir name)) as [o env'].
  destruct (st_fs st !! dir) as [d|] eqn:Hd.
  - set (o' := match d !! name with Some NDir => _ | _ => o end).
    intros [= <- <-]. cbn. exists o'.
    split; [reflexivity|].
    destruct o' as [|e|e]; cbn.
    + split; [apply files_persist_insert, Hd|].
      split; [tauto|]. split; [discriminate|].
      intros _. eexists. rewrite lookup_insert_eq. split; [reflexivity|].
      apply lookup_insert_eq.
    + split; [apply files_persist_refl|].
      split; [split; discriminate|]. split; [|discriminate].
      intros e0 [= <-]. left. reflexivity.
    + split; [apply files_persist_insert, Hd|].
      split; [split; discriminate|]. split; [|discriminate].
      intros e0 [= <-]. right. reflexivity.
  - intros [= <- <-]. cbn. eexists. split; [reflexivity|].
    split; [apply files_persist_refl|].
    split; [split; discriminate|]. split; [|discriminate].
    intros e0 [= <-]. left. reflexivity.
Qed.

End Effects.

(** ** One candidate *)

Section Visit.
Context `{PyLib} `{Outside}.

Lemma saved_name_has_menu_file (fs : gmap str (gmap str Node))
    (out_dir : str) (mp : MenuPage) (e : str) (d : gmap str Node)
    (c : FileContent) :
  e = lit ".html" \/ e = lit ".pdf" ->
  fs !! out_dir = Some d ->
  d !! (save_label mp ++ e) = Some (NFile c) ->
  has_menu_file fs out_dir.
Proof.
  intros He Hd Hfn. exists d, (save_label mp ++ e), c.
  split; [exact Hd|split; [exact Hfn|]].
  destruct (save_label_chars mp) as [Hl Hne].
  destruct (label_extension _ e Hl Hne He) as [-> Hin]. exact Hin.
Qed.

Lemma nothing_saved_post (out_dir : str) (result res : Result)
    (saved : Z) (st st2 : State) (pre : list Event) :
  st_fs st2 = st_fs st ->
  st_trace st2 = pre ++ st_trace st ->
  doc_writes pre = 0%nat ->
  r_saved_files res = r_saved_files result ->
  r_skipped res = r_skipped result ->
  visit_post out_dir result saved st (res, saved, st2).
Proof.
  intros Hfs Htr Hpre Hres Hskip. exists pre. split; [exact Htr|].
  rewrite Hfs. split; [apply files_persist_refl|].
  split; [exact Hskip|]. left. tauto.
Qed.

(** The end of a branch that writes a document. *)
Lemma write_post (out_dir : str) (mp : MenuPage) (e : str)
    (content : Env -> FileContent) (result : Result)
    (res_fail : str -> Result)
    (f : SavedFile) (saved : Z) (st st2 st3 : State)
    (pre : list Event) (w : option str) :
  e = lit ".html" \/ e = lit ".pdf" ->
  (forall env, is_document (content env) = true) ->
  st_fs st2 = st_fs st ->
  st_trace st2 = pre ++ st_trace st ->
  doc_writes pre = 0%nat ->
  (forall x, r_saved_files (res_fail x) = r_saved_files result) ->
  (forall x, r_skipped (res_fail x) = r_skipped result) ->
  write_file out_dir (save_label mp ++ e) content st2 = (w, st3) ->
  visit_post out_dir result saved st
    (match w with
     | Some x => (res_fail x, saved)
     | None => (add_saved f result, saved + 1)
     end, st3).
Proof.
  intros He Hdoc Hfs Htr Hpre Hfail Hskip Hw.
  apply write_file_spec in Hw as (o & Htr3 & Hp & Hnone & Hsome & Hok).
  rewrite Hfs in Hp.
  assert (Hnew : st_trace st3 =
                 (EvWrite (path_join out_dir (save_label mp ++ e))
                    (content (st_env st3)) o :: pre) ++ st_trace st)
    by (rewrite Htr3, Htr; reflexivity).
  assert (Hcount : doc_writes
                     (EvWrite (path_join out_dir (save_label mp ++ e))
                        (content (st_env st3)) o :: pre)
                   = if doc_written
                          (EvWrite (path_join out_dir (save_label mp ++ e))
                             (content (st_env st3)) o)
                     then 1%nat else 0%nat).
  { unfold doc_writes in *. cbn [List.filter].
    destruct (doc_written _); cbn [List.length]; rewrite Hpre;
      reflexivity. }
  destruct w as [e0|]; eexists; (split; [exact Hnew|]);
    (split; [exact Hp|]); (split; [first [apply Hskip|reflexivity]|]).
  - left. split; [reflexivity|split; [apply Hfail|]].
    rewrite Hcount.
    destruct (Hsome e0 eq_refl) as [-> | ->]; reflexivity.
  - right.
    assert (Ho : o = WriteOk) by (apply Hnone; reflexivity). subst o.
    split; [reflexivity|]. split; [eexists; reflexivity|].
    split.
    + rewrite Hcount. cbn. rewrite Hdoc. reflexivity.
    + destruct (Hok eq_refl) as (d' & Hd' & Hfn).
      eapply saved_name_has_menu_file; eassumption.
Qed.

Lemma visit_spec (out_dir : str) (mp : MenuPage) (result : Result)
    (saved : Z) (st : State) :
  visit_post out_dir result saved st (visit out_dir mp result saved st).
Proof.
  unfold visit, bind, ret.
  destruct (fetch_robots (url mp) st) as [rp st0] eqn:Hr.
  apply fetch_robots_spec in Hr as (Hfs0 & new0 & Htr0 & Hget0).
  assert (Hdw0 := gets_no_doc_writes _ Hget0).
  destruct (negb (can_fetch rp USER_AGENT (url mp))).
  { eapply nothing_saved_post; eauto. }
  destruct (fetch_text (url mp) st0) as [[[body ctype2] status2] st1]
    eqn:Ht.
  apply fetch_text_spec in Ht as (Hfs1 & Htr1).
  assert (Htr1' : st_trace st1 = (EvGet (url mp) :: new0) ++ st_trace st)
    by (rewrite Htr1, Htr0; reflexivity).
  assert (Hdw1 : doc_writes (EvGet (url mp) :: new0) = 0%nat)
    by exact Hdw0.
  assert (Hfs1' : st_fs st1 = st_fs st) by congruence.
  destruct (is_pdf ctype2).
  - destruct (client_get (url mp) st1) as [pdf st2] eqn:Hg.
    apply client_get_spec in Hg as (Hfs2 & Htr2).
    assert (Htr2' : st_trace st2
                    = (EvGet (url mp) :: EvGet (url mp) :: new0)
                      ++ st_trace st)
      by (rewrite Htr2, Htr1'; reflexivity).
    assert (Hfs2' : st_fs st2 = st_fs st) by congruence.
    destruct pdf as [pdf_resp|e].
    + destruct (write_file _ _ _ st2) as [w st3] eqn:Hw.
      eapply (write_post _ _ _ _ result
                (fun e => add_error
                            (lit "write_failed_pdf:" ++ url mp
                             ++ lit ":" ++ e) result)
                _ saved st st2 st3 _ w) in Hw;
        [|right; reflexivity|reflexivity|exact Hfs2'|exact Htr2'
         |exact Hdw0|reflexivity|reflexivity].
      destruct w; exact Hw.
    + eapply nothing_saved_post; eauto.
  - destruct body as [body|].
    + destruct (looks_like_error_page body status2).
      { eapply nothing_saved_post; eauto. }
      cbv zeta.
      assert (Hsave : forall flag,
        visit_post out_dir result saved st
          (let (w, st3) :=
             write_file out_dir (save_label mp ++ lit ".html")
               (fun _ => FText (html_source body)) st1 in
           match w with
           | Some e =>
               fun st => (add_error
                            (lit "write_failed:" ++ url mp ++ lit ":" ++ e)
                            result, saved, st)
           | None =>
               fun st =>
                 (add_saved
                    {| sf_url := Some (url mp);
                       sf_file :=
                         relpath
                           (path_join out_dir
                              (save_label mp ++ lit ".html"));
                       sf_status := status2;
                       sf_content_type := ctype2;
                       sf_is_menu_like := flag |} result, saved + 1, st)
           end st3)).
      { intros flag.
        destruct (write_file _ _ _ st1) as [w st3] eqn:Hw.
        eapply (write_post _ _ _ _ result
                  (fun e => add_error
                              (lit "write_failed:" ++ url mp
                               ++ lit ":" ++ e) result)
                  _ saved st st1 st3 _ w) in Hw;
          [|left; reflexivity|reflexivity|exact Hfs1'|exact Htr1'
           |exact Hdw1|reflexivity|reflexivity].
        destruct w; exact Hw. }
      destruct (negb (is_menu_like body) &&
                negb (host_matches_external _)).
      * destruct (guessed mp).
        { eapply nothing_saved_post; eauto. }
        destruct (negb (path_implies_menu (url mp))).
        { eapply nothing_saved_post; eauto. }
        apply Hsave.
      * destruct (host_matches_external _); apply Hsave.
    + eapply nothing_saved_post; eauto.
Qed.

End Visit.

(** ** The loop and the whole run *)

Section Run.
Context `{PyLib} `{Outside}.

Lemma crawl_spec (out_dir : str) (max_pages_per_site : Z)
    (candidates : list MenuPage) (seen_urls : gset str)
    (result : Result) (saved : Z) (st : State) :
  crawl_post out_dir max_pages_per_site result saved st
    (crawl out_dir max_pages_per_site candidates seen_urls result saved st).
Proof.
  revert seen_urls result saved st.
  assert (Hstop : forall result saved st,
    crawl_post out_dir max_pages_per_site result saved st
      (result, saved, st)).
  { intros result saved st. exists [], [].
    split; [reflexivity|]. split; [apply files_persist_refl|].
    split; [reflexivity|].
    split; [rewrite List.app_nil_r; reflexivity|].
    split; [cbn; lia|]. split; [reflexivity|]. split; [congruence|tauto]. }
  induction candidates as [|mp rest IH]; intros seen_urls result saved st;
    cbn [crawl]; [apply Hstop|].
  destruct (Z.leb_spec max_pages_per_site saved) as [Hfull|Hroom];
    [apply Hstop|].
  destruct (bool_decide (url mp ∈ seen_urls)); [apply IH|].
  unfold bind.
  pose proof (visit_spec out_dir mp result saved st) as Hv.
  destruct (visit out_dir mp result saved st) as [[result1 saved1] st1].
  specialize (IH (seen_urls ∪ {[url mp]}) result1 saved1 st1).
  destruct (crawl _ _ rest _ result1 saved1 st1)
    as [[result2 saved2] st2].
  destruct Hv as (new1 & Htr1 & Hp1 & Hsk1 & Hcase).
  destruct IH as (new2 & added2 & Htr2 & Hp2 & Hsk2 & Hfiles2 & Hsaved2
                  & Hdw2 & Hhas2 & Hmax2).
  assert (Hsk : r_skipped result2 = r_skipped result) by congruence.
  assert (Hp : files_persist (st_fs st) (st_fs st2))
    by (eapply files_persist_trans; eassumption).
  assert (Htr : st_trace st2 = (new2 ++ new1) ++ st_trace st)
    by (rewrite Htr2, Htr1, List.app_assoc; reflexivity).
  destruct Hcase as [(-> & Hfiles1 & Hdw1)|(-> & (f & Hfiles1) & Hdw1 & Hhas1)].
  - exists (new2 ++ new1), added2.
    split; [exact Htr|]. split; [exact Hp|]. split; [exact Hsk|].
    split; [congruence|]. split; [exact Hsaved2|].
    split; [rewrite doc_writes_app; lia|]. split; [exact Hhas2|exact Hmax2].
  - exists (new2 ++ new1), (f :: added2).
    split; [exact Htr|]. split; [exact Hp|]. split; [exact Hsk|].
    split.
    { rewrite Hfiles2, Hfiles1, <- List.app_assoc. reflexivity. }
    split; [cbn [List.length]; lia|].
    split; [rewrite doc_writes_app; cbn [List.length]; lia|].
    split.
    { intros _. exact (has_menu_file_persist _ _ _ Hp2 Hhas1). }
    intros Hle. apply Hmax2. lia.
Qed.

(** The end of a run: the metadata is written, and the result is
    returned, with one more tag when the write failed. *)
Lemma finish_post (out_root : str) (r : Restaurant) (w : str)
    (max_pages_per_site : Z) (st st2 st3 : State) (pre : list Event)
    (res res' : Result) (wres : option str) :
  let out_dir := fst (restaurant_output_dir out_root r) in
  st_trace st2 = pre ++ st_trace st ->
  files_persist (st_fs st) (st_fs st2) ->
  doc_writes pre = List.length (r_saved_files res) ->
  r_skipped res = None ->
  (r_found res = true <-> r_saved_files res <> []) ->
  Z.of_nat (List.length (r_saved_files res))
    <= Z.max 0 max_pages_per_site ->
  (r_saved_files res <> [] -> has_menu_file (st_fs st2) out_dir) ->
  write_file out_dir (lit "metadata.json")
    (metadata r (normalize_url w) (r_found res) (r_saved_files res)
       (r_errors res)) st2 = (wres, st3) ->
  res' = res \/
  (exists e, res' = add_error (lit "meta_write_failed:" ++ e) res) ->
  r_skipped res' = None /\
  (r_found res' = true <-> r_saved_files res' <> []) /\
  Z.of_nat (List.length (r_saved_files res'))
    <= Z.max 0 max_pages_per_site /\
  (r_saved_files res' <> [] -> has_menu_file (st_fs st3) out_dir) /\
  (exists new,
     st_trace st3 = new ++ st_trace st /\
     doc_writes new = List.length (r_saved_files res')) /\
  metadata_written out_root r w res' st st3.
Proof.
  intros out_dir Htr Hp Hdw Hskip Hfound Hmax Hhas Hw Hres'.
  apply write_file_spec in Hw as (o & Htr3 & Hp3 & _ & _ & Hok).
  assert (Hsame : r_skipped res' = r_skipped res /\
                  r_found res' = r_found res /\
                  r_saved_files res' = r_saved_files res).
  { destruct Hres' as [->|(e & ->)]; repeat split. }
  destruct Hsame as (Hs1 & Hs2 & Hs3). rewrite Hs1, Hs2, Hs3.
  split; [exact Hskip|]. split; [exact Hfound|]. split; [exact Hmax|].
  split.
  { intros Hne. eapply has_menu_file_persist; [exact Hp3|apply Hhas, Hne]. }
  split.
  { eexists ([_] ++ pre). split; [rewrite Htr3, Htr; reflexivity|].
    rewrite doc_writes_app, Hdw. destruct o; reflexivity. }
  unfold metadata_written. fold out_dir. rewrite Hs2, Hs3.
  exists o, (r_errors res), pre.
  split; [rewrite Htr3, Htr; reflexivity|].
  split; [|exact Hok].
  destruct Hres' as [->|(e & ->)]; [left; reflexivity|].
  right. exists e. reflexivity.
Qed.

Lemma fresh_run (out_root : str) (r : Restaurant)
    (max_pages_per_site : Z) (st : State) :
  existing_menu_info (st_fs st) out_root r = None ->
  fresh_post out_root r max_pages_per_site st
    (process_restaurant out_root r max_pages_per_site st).
Proof.
  intros Hex. unfold process_restaurant. rewrite Hex.
  assert (Hnone : forall res,
    r_skipped res = None -> r_found res = false ->
    r_saved_files res = [] ->
    r_skipped res = None /\
    (r_found res = true <-> r_saved_files res <> []) /\
    Z.of_nat (List.length (r_saved_files res))
      <= Z.max 0 max_pages_per_site /\
    (r_saved_files res <> [] ->
     has_menu_file (st_fs st) (fst (restaurant_output_dir out_root r))) /\
    (exists new,
       st_trace st = new ++ st_trace st /\
       doc_writes new = List.length (r_saved_files res))).
  { intros res Hs Hf Hfiles. rewrite Hfiles, Hf.
    split; [exact Hs|]. split; [split; [discriminate|congruence]|].
    split; [cbn; lia|]. split; [congruence|].
    exists []. split; reflexivity. }
  unfold fresh_post.
  destruct (website r) as [[|c w]|] eqn:Hweb.
  - destruct (Hnone (add_error (lit "no_website")
                       {| r_uuid := uuid r; r_slug := slug r;
                          r_name := name r; r_website := Some [];
                          r_found := false; r_saved_files := [];
                          r_errors := []; r_skipped := None |})
                eq_refl eq_refl eq_refl) as (? & ? & ? & ? & ?).
    repeat split; try assumption; tauto.
  - unfold bind, ret.
    destruct (ensure_dir _ st) as [[] st1] eqn:He.
    apply ensure_dir_spec in He as (Hp1 & _ & Htr1).
    destruct (fetch_robots _ st1) as [rp st2] eqn:Hr.
    apply fetch_robots_spec in Hr as (Hfs2 & new2 & Htr2 & Hget2).
    assert (Hp2 : files_persist (st_fs st) (st_fs st2))
      by (rewrite Hfs2; exact Hp1).
    assert (Htr2' : st_trace st2
                    = (new2 ++ [EvMkdir (fst (restaurant_output_dir
                                               out_root r))])
                      ++ st_trace st)
      by (rewrite Htr2, Htr1, <- List.app_assoc; reflexivity).
    assert (Hdw2 : doc_writes
                     (new2 ++ [EvMkdir (fst (restaurant_output_dir
                                              out_root r))]) = 0%nat)
      by (rewrite doc_writes_app, (gets_no_doc_writes _ Hget2);
          reflexivity).
    destruct (negb (can_fetch rp USER_AGENT (normalize_url (c :: w)))).
    + destruct (write_file _ _ _ st2) as [wres st3] eqn:Hw.
      eapply (finish_post out_root r (c :: w) max_pages_per_site st st2 st3
                _ (add_error (lit "blocked_by_robots_home")
                     {| r_uuid := uuid r; r_slug := slug r;
                        r_name := name r; r_website := Some (c :: w);
                        r_found := false; r_saved_files := [];
                        r_errors := []; r_skipped := None |}));
        [exact Htr2'|exact Hp2|exact Hdw2|reflexivity
        |split; [discriminate|intros Hne; contradiction Hne; reflexivity]
        |cbn; lia|intros Hne; contradiction Hne; reflexivity
        |exact Hw|left; reflexivity].
    + destruct (fetch_text _ st2) as [[[html ctype] status] st3] eqn:Ht.
      apply fetch_text_spec in Ht as (Hfs3 & Htr3).
      assert (Hp3 : files_persist (st_fs st) (st_fs st3))
        by (rewrite Hfs3; exact Hp2).
      assert (Htr3' : st_trace st3
                      = (EvGet (normalize_url (c :: w))
                         :: new2 ++ [EvMkdir (fst (restaurant_output_dir
                                                    out_root r))])
                        ++ st_trace st)
        by (rewrite Htr3, Htr2'; reflexivity).
      assert (Hdw3 : doc_writes
                       (EvGet (normalize_url (c :: w))
                        :: new2 ++ [EvMkdir (fst (restaurant_output_dir
                                                   out_root r))]) = 0%nat)
        by exact Hdw2.
      destruct html as [html|].
      * pose proof (crawl_spec (fst (restaurant_output_dir out_root r))
                      max_pages_per_site
                      (all_candidates (normalize_url (c :: w)) html) ∅
                      {| r_uuid := uuid r; r_slug := slug r;
                         r_name := name r; r_website := Some (c :: w);
                         r_found := false; r_saved_files := [];
                         r_errors := []; r_skipped := None |} 0 st3)
          as Hc.
        destruct (crawl _ _ _ _ _ _ st3) as [[result1 saved1] st4].
        destruct Hc as (new4 & added & Htr4 & Hp4 & Hskip & Hfiles
                        & Hsaved & Hdw4 & Hhas & Hmax).
        cbn [r_saved_files r_skipped app] in Hfiles, Hskip.
        destruct (write_file _ _ _ st4) as [wres st5] eqn:Hw.
        assert (Hfin : forall res',
          res' = set_found (Z.ltb 0 saved1) result1 \/
          (exists e, res' = add_error (lit "meta_write_failed:" ++ e)
                              (set_found (Z.ltb 0 saved1) result1)) ->
          r_skipped res' = None /\
          (r_found res' = true <-> r_saved_files res' <> []) /\
          Z.of_nat (List.length (r_saved_files res'))
            <= Z.max 0 max_pages_per_site /\
          (r_saved_files res' <> [] ->
           has_menu_file (st_fs st5)
             (fst (restaurant_output_dir out_root r))) /\
          (exists new,
             st_trace st5 = new ++ st_trace st /\
             doc_writes new = List.length (r_saved_files res')) /\
          metadata_written out_root r (c :: w) res' st st5).
        { intros res' Hres'.
          eapply (finish_post out_root r (c :: w) max_pages_per_site st st4
                    st5 _ (set_found (Z.ltb 0 saved1) result1));
            [rewrite Htr4, Htr3', List.app_assoc; reflexivity
            |eapply files_persist_trans; eassumption
            |rewrite doc_writes_app, Hdw4, Hdw3;
             cbn [r_saved_files set_found]; rewrite Hfiles; lia
            |exact Hskip
            |cbn [r_found r_saved_files set_found]; rewrite Hfiles, Hsaved;
             rewrite Z.ltb_lt; destruct added; cbn [List.length];
             split; first [congruence | lia | discriminate]
            |cbn [r_saved_files set_found]; rewrite Hfiles;
             specialize (Hmax ltac:(lia)); lia
            |cbn [r_saved_files set_found]; rewrite Hfiles; exact Hhas
            |exact Hw
            |exact Hres']. }
        destruct wres as [e|]; apply Hfin;
          [right; eexists; reflexivity|left; reflexivity].
      * destruct (write_file _ _ _ st3) as [wres st4] eqn:Hw.
        eapply (finish_post out_root r (c :: w) max_pages_per_site st st3
                  st4 _ (add_error
                           (lit "homepage_unavailable:" ++ fmt_opt_Z status
                            ++ lit ":" ++ fmt_opt_str ctype)
                     {| r_uuid := uuid r; r_slug := slug r;
                        r_name := name r; r_website := Some (c :: w);
                        r_found := false; r_saved_files := [];
                        r_errors := []; r_skipped := None |}));
        [exact Htr3'|exact Hp3|exact Hdw3|reflexivity
        |split; [discriminate|intros Hne; contradiction Hne; reflexivity]
        |cbn; lia|intros Hne; contradiction Hne; reflexivity
        |exact Hw|left; reflexivity].
  - destruct (Hnone (add_error (lit "no_website")
                       {| r_uuid := uuid r; r_slug := slug r;
                          r_name := name r; r_website := None;
                          r_found := false; r_saved_files := [];
                          r_errors := []; r_skipped := None |})
                eq_refl eq_refl eq_refl) as (? & ? & ? & ? & ?).
    repeat split; try assumption; tauto.
Qed.

End Run.

(** ** The site processor: the claims *)

Lemma doc_writes_pos (t : list Event) :
  doc_writes t <> 0%nat <-> exists e, In e t /\ doc_written e = true.
Proof.
  unfold doc_writes. split.
  - destruct (List.filter doc_written t) as [|e l] eqn:E; [tauto|].
    intros _. exists e. apply List.filter_In. rewrite E. left. reflexivity.
  - intros (e & Hin & He) Hlen.
    assert (Hf : In e (List.filter doc_written t))
      by (apply List.filter_In; tauto).
    destruct (List.filter doc_written t); [destruct Hf|discriminate].
Qed.

Section Claims.
Context `{PyLib} `{Outside}.

(** C1, amended: in the result of a run that does not resume, the
    number of saved documents is at most the page budget, or zero when
    the budget is negative.  (A resumed result lists what the output
    directory holds, whatever the budget.) *)
Theorem page_budget_fresh (out_root : str) (r : Restaurant)
    (max_pages_per_site : Z) (st : State) :
  existing_menu_info (st_fs st) out_root r = None ->
  Z.of_nat
    (List.length
       (r_saved_files
          (fst (process_restaurant out_root r max_pages_per_site st))))
  <= Z.max 0 max_pages_per_site.
Proof.
  intros Hex.
  pose proof (fresh_run out_root r max_pages_per_site st Hex) as Hpost.
  destruct (process_restaurant _ _ _ st) as [res st'].
  destruct Hpost as (_ & _ & Hmax & _). exact Hmax.
Qed.

(** C2, amended: a guessed candidate whose host is not an external
    menu platform, whose response is not a PDF by its content type and
    whose content [is_menu_like] classifies false, is not saved,
    whatever its URL path: the visit leaves [saved_files], the count
    and the file system as they were, and does nothing but requests. *)
Theorem guessed_gate (out_dir : str) (mp : MenuPage) (result : Result)
    (saved : Z) (st : State) (body : Html) :
  let after_robots := snd (fetch_robots (url mp) st) in
  let fetched := fst (fetch_text (url mp) after_robots) in
  guessed mp = true ->
  fst (fst fetched) = Some body ->
  is_pdf (snd (fst fetched)) = false ->
  is_menu_like body = false ->
  host_matches_external (opt_or_empty (url_hostname (url mp))) = false ->
  exists result' st' new,
    visit out_dir mp result saved st = ((result', saved), st') /\
    r_saved_files result' = r_saved_files result /\
    st_fs st' = st_fs st /\
    st_trace st' = new ++ st_trace st /\
    List.forallb is_get new = true.
Proof.
  intros after_robots fetched Hg Hbody Hpdf Hml Hext.
  unfold visit, bind, ret. subst after_robots fetched.
  destruct (fetch_robots (url mp) st) as [rp st0] eqn:Hr.
  apply fetch_robots_spec in Hr as (Hfs0 & new0 & Htr0 & Hget0).
  destruct (negb (can_fetch rp USER_AGENT (url mp))).
  { eexists _, _, new0. repeat split; eauto. }
  cbn [snd] in Hbody, Hpdf.
  destruct (fetch_text (url mp) st0) as [[[body' ctype2] status2] st1]
    eqn:Ht.
  cbn [fst snd] in Hbody, Hpdf. subst body'.
  apply fetch_text_spec in Ht as (Hfs1 & Htr1).
  rewrite Hpdf.
  assert (Hnew : st_trace st1 = (EvGet (url mp) :: new0) ++ st_trace st)
    by (rewrite Htr1, Htr0; reflexivity).
  assert (Hfs : st_fs st1 = st_fs st) by congruence.
  destruct (looks_like_error_page body status2).
  { eexists _, _, _. repeat split; eauto. }
  cbv zeta. rewrite Hml, Hext, Hg. cbn.
  eexists _, _, _. repeat split; eauto.
Qed.

(** C3, amended: when a run has saved at least one document, a second
    run against the output directory as the first one left it returns
    a result with [skipped] set and leaves the state as it found it:
    no request is made, neither for robots.txt, nor for the homepage,
    nor for a candidate. *)
Theorem second_run_skips (out_root : str) (r : Restaurant)
    (max1 max2 : Z) (st st2 : State) :
  let out_dir := fst (restaurant_output_dir out_root r) in
  r_saved_files (fst (process_restaurant out_root r max1 st)) <> [] ->
  st_fs st2 !! out_dir
  = st_fs (snd (process_restaurant out_root r max1 st)) !! out_dir ->
  exists res2,
    process_restaurant out_root r max2 st2 = (res2, st2) /\
    r_skipped res2 = Some true.
Proof.
  intros out_dir Hsaved Hfs.
  assert (Hex : exists res,
            existing_menu_info (st_fs st2) out_root r = Some res).
  { rewrite (existing_menu_info_dir _ _ _ _ Hfs).
    destruct (existing_menu_info (st_fs st) out_root r) as [res0|] eqn:E.
    - (* the first run resumed itself *)
      unfold process_restaurant. rewrite E. cbn. eauto.
    - pose proof (fresh_run out_root r max1 st E) as Hpost.
      destruct (process_restaurant out_root r max1 st) as [res1 st1].
      cbn [fst snd] in *.
      destruct Hpost as (_ & _ & _ & Hhas & _).
      destruct (Hhas Hsaved) as (d & fn & c & Hd & Hfn & Hext).
      eapply existing_menu_info_some; eassumption. }
  destruct Hex as (res & Hex). exists res.
  split; [unfold process_restaurant; rewrite Hex; reflexivity|].
  apply (existing_menu_info_flags _ _ _ _ Hex).
Qed.

(** C4, amended: whenever a run that does not resume returns a result
    [res], leaving the state [st']: for a restaurant that has a
    website, the last thing it did was to write [metadata.json],
    whether robots.txt closed the homepage, the homepage was
    unavailable, or the candidates were gone through, with or without
    result; the record has the identity, the website, a timestamp, the
    found flag, the saved files and the error tags of the result.  For
    a restaurant without website (absent or empty) the result has the
    single tag [no_website] and nothing was done: no directory made, no
    request, no file written.  (A run that an exception ends is not
    among those described: it returns no result.) *)
Theorem metadata_always_written (out_root : str) (r : Restaurant)
    (max_pages_per_site : Z) (st : State) (res : Result) (st' : State) :
  existing_menu_info (st_fs st) out_root r = None ->
  process_restaurant out_root r max_pages_per_site st = (res, st') ->
  match website r with
  | None | Some [] =>
      st' = st /\ res = add_error (lit "no_website") (initial_result r)
  | Some w => metadata_written out_root r w res st st'
  end.
Proof.
  intros Hex Hrun.
  pose proof (fresh_run out_root r max_pages_per_site st Hex) as Hpost.
  rewrite Hrun in Hpost.
  destruct Hpost as (_ & _ & _ & _ & _ & Hmeta).
  destruct (website r) as [[|c w]|] eqn:Hweb; [|exact Hmeta|];
    (split; [exact Hmeta|]);
    unfold process_restaurant in Hrun; rewrite Hex, Hweb in Hrun;
    injection Hrun as <- _; unfold initial_result; rewrite Hweb;
    reflexivity.
Qed.

(** C5: in a run that does not resume, [found] is true exactly when
    [saved_files] is not empty, and exactly when the run has written
    at least one document to disk. *)
Theorem found_iff_written (out_root : str) (r : Restaurant)
    (max_pages_per_site : Z) (st : State) :
  existing_menu_info (st_fs st) out_root r = None ->
  let res := fst (process_restaurant out_root r max_pages_per_site st) in
  let st' := snd (process_restaurant out_root r max_pages_per_site st) in
  (r_found res = true <-> r_saved_files res <> []) /\
  exists new,
    st_trace st' = new ++ st_trace st /\
    (r_found res = true <->
     exists e, In e new /\ doc_written e = true).
Proof.
  intros Hex.
  pose proof (fresh_run out_root r max_pages_per_site st Hex) as Hpost.
  destruct (process_restaurant _ _ _ st) as [res st']. cbn [fst snd].
  destruct Hpost as (_ & Hfound & _ & _ & (new & Htr & Hdw) & _).
  split; [exact Hfound|]. exists new. split; [exact Htr|].
  rewrite <- doc_writes_pos, Hdw, Hfound.
  destruct (r_saved_files res); cbn; split; congruence.
Qed.

End Claims.

Section ProcessExamples.
Import Demo.

Example cafe_run :
  let res := fst (process_restaurant (lit "menus") cafe 1 (start web ∅)) in
  r_found res = true /\
  r_saved_files res =
    [{| sf_url := Some (lit "https://x.square.site/menu");
        sf_file := lit "menus/cafe--01234567/menu.html";
        sf_status := Some 200;
        sf_content_type := Some (lit "text/html");
        sf_is_menu_like := true |}] /\
  r_errors res = [] /\ r_skipped res = None.
Proof. vm_compute. repeat split. Qed.

(** The amended C1 on the run of [cafe] with a budget of one page. *)
Lemma page_budget_fresh_witness :
  Z.of_nat
    (List.length
       (r_saved_files
          (fst (process_restaurant (lit "menus") cafe 1 (start web ∅)))))
  <= Z.max 0 1.
Proof.
  apply (page_budget_fresh (lit "menus") cafe 1 (start web ∅)).
  vm_compute. reflexivity.
Defined.

(** C1 fails on resume: with a budget of one page, the result rebuilt
    from a directory that holds two pages lists both. *)
Lemma page_budget_counterexample :
  let res :=
    fst (process_restaurant (lit "menus") cafe 1 (start web two_pages)) in
  r_skipped res = Some true /\
  ~ Z.of_nat (List.length (r_saved_files res)) <= 1.
Proof.
  split; [vm_compute; reflexivity|].
  assert (Hlen : List.length
                   (r_saved_files
                      (fst (process_restaurant (lit "menus") cafe 1
                              (start web two_pages)))) = 2%nat)
    by (vm_compute; reflexivity).
  cbv zeta. rewrite Hlen. cbn. lia.
Qed.

(** The amended C2 on the guess [/menu] of a site of its own. *)
Lemma guessed_gate_witness :
  exists result' st' new,
    visit (lit "menus/bistro--89abcdef") (guess "https://x.com")
      (blank bistro) 0 (start web ∅)
    = ((result', 0), st') /\
    r_saved_files result' = r_saved_files (blank bistro) /\
    st_fs st' = st_fs (start web ∅) /\
    st_trace st' = new ++ st_trace (start web ∅) /\
    List.forallb is_get new = true.
Proof.
  apply (guessed_gate (lit "menus/bistro--89abcdef")
           (guess "https://x.com") (blank bistro) 0 (start web ∅)
           (plain "Coming soon")).
  - reflexivity.
  - vm_compute. reflexivity.
  - vm_compute. reflexivity.
  - vm_compute. reflexivity.
  - vm_compute. reflexivity.
Defined.

(** C2 fails on an external menu host: the guess [/menu] of a site
    hosted on square.site is saved although its content is not
    menu-like. *)
Lemma guessed_gate_counterexample :
  let mp := guess "https://x.square.site" in
  let res := fst (process_restaurant (lit "menus") cafe 1 (start web ∅)) in
  In mp (build_guessed_menu_pages (lit "https://x.square.site")) /\
  guessed mp = true /\
  fst (http_get web (url mp)) = HttpOk (page "Coming soon") /\
  is_menu_like (plain "Coming soon") = false /\
  exists f, In f (r_saved_files res) /\ sf_url f = Some (url mp).
Proof.
  split; [vm_compute; left; reflexivity|].
  split; [reflexivity|].
  split; [vm_compute; reflexivity|].
  split; [vm_compute; reflexivity|].
  eexists. split; [vm_compute; left; reflexivity|reflexivity].
Qed.

(** The amended C3 on [cafe]: the first run saves a page, the second
    one is skipped. *)
Lemma second_run_skips_witness :
  exists res2,
    process_restaurant (lit "menus") cafe 5
      (start web
         (st_fs (snd (process_restaurant (lit "menus") cafe 1
                        (start web ∅)))))
    = (res2,
       start web
         (st_fs (snd (process_restaurant (lit "menus") cafe 1
                        (start web ∅))))) /\
    r_skipped res2 = Some true.
Proof.
  apply (second_run_skips (lit "menus") cafe 1 5 (start web ∅)).
  - vm_compute. discriminate.
  - reflexivity.
Defined.

(** C3 fails when the first run saved nothing: with the site
    unreachable, the second run is not skipped and asks again for
    robots.txt and for the homepage. *)
Lemma second_run_counterexample :
  let first :=
    process_restaurant (lit "menus") bistro 5 (start offline ∅) in
  let second :=
    process_restaurant (lit "menus") bistro 5
      (start offline (st_fs (snd first))) in
  r_skipped (fst second) <> Some true /\
  List.filter is_get (st_trace (snd second))
  = [EvGet (lit "https://x.com"); EvGet (lit "https://x.com/robots.txt")].
Proof. split; [vm_compute; discriminate|vm_compute; reflexivity]. Qed.

(** The amended C4 on the run of [cafe]. *)
Lemma metadata_always_written_witness :
  metadata_written (lit "menus") cafe (lit "x.square.site")
    (fst (process_restaurant (lit "menus") cafe 1 (start web ∅)))
    (start web ∅)
    (snd (process_restaurant (lit "menus") cafe 1 (start web ∅))).
Proof.
  apply (metadata_always_written (lit "menus") cafe 1 (start web ∅)
           (fst (process_restaurant (lit "menus") cafe 1 (start web ∅)))
           (snd (process_restaurant (lit "menus") cafe 1 (start web ∅)))).
  - vm_compute. reflexivity.
  - apply surjective_pairing.
Defined.

(** C4 fails for a restaurant without website: the run is not a
    resumed one, ends with the tag [no_website], and writes nothing. *)
Lemma metadata_counterexample :
  let out := process_restaurant (lit "menus") stall 5 (start web ∅) in
  existing_menu_info ∅ (lit "menus") stall = None /\
  r_errors (fst out) = [lit "no_website"] /\
  st_trace (snd out) = [] /\
  st_fs (snd out) = ∅.
Proof. vm_compute. repeat split. Qed.

(** C5 on the run of [cafe]. *)
Lemma found_iff_written_witness :
  let res := fst (process_restaurant (lit "menus") cafe 1 (start web ∅)) in
  let st' := snd (process_restaurant (lit "menus") cafe 1 (start web ∅)) in
  (r_found res = true <-> r_saved_files res <> []) /\
  exists new,
    st_trace st' = new ++ st_trace (start web ∅) /\
    (r_found res = true <->
     exists e, In e new /\ doc_written e = true).
Proof.
  apply (found_iff_written (lit "menus") cafe 1 (start web ∅)).
  vm_compute. reflexivity.
Defined.

(** C10 on a directory that holds two pages and no metadata. *)
Lemma resume_from_directory_scan_witness :
  exists res,
    existing_menu_info two_pages (lit "menus") cafe = Some res /\
    r_found res = true /\ r_skipped res = Some true /\
    Forall reconstructed (r_saved_files res).
Proof.
  apply (resume_from_directory_scan two_pages (lit "menus") cafe
           {[ lit "lunch.html" := NFile (FText (lit "Lunch"));
              lit "dinner.html" := NFile (FText (lit "Dinner")) ]}
           (lit "lunch.html") (FText (lit "Lunch"))).
  - vm_compute. reflexivity.
  - left. intros c. vm_compute. discriminate.
  - vm_compute. reflexivity.
  - vm_compute. tauto.
Defined.

End ProcessExamples.

(** * Further properties of the code *)

(** ** Strings: prefixes, suffixes and substrings *)

Lemma startswith_iff (a b : str) :
  startswith a b = true <-> exists suf, a = b ++ suf.
Proof.
  revert a. induction b as [|y b IH]; intros a.
  - rewrite startswith_nil. split; [intros _; exists a; reflexivity|tauto].
  - destruct a as [|x a]; cbn.
    + split; [discriminate|intros (suf & Hs); discriminate].
    + rewrite andb_true_iff, N.eqb_eq, IH. split.
      * intros (-> & suf & ->). exists suf. reflexivity.
      * intros (suf & [= -> ->]). split; [reflexivity|eauto].
Qed.

Lemma contains_iff (a b : str) :
  contains a b = true <-> exists pre suf, a = pre ++ b ++ suf.
Proof.
  induction a as [|c a IH]; rewrite contains_unfold, orb_true_iff,
    startswith_iff.
  - split.
    + intros [(suf & Hs)|Hf]; [|discriminate].
      exists [], suf. exact Hs.
    + intros (pre & suf & Hs). left.
      destruct pre; [exists suf; exact Hs|discriminate].
  - rewrite IH. split.
    + intros [(suf & Hs)|(pre & suf & ->)].
      * exists [], suf. exact Hs.
      * exists (c :: pre), suf. reflexivity.
    + intros (pre & suf & Hs). destruct pre as [|x pre].
      * left. exists suf. exact Hs.
      * right. injection Hs as -> ->. eauto.
Qed.

Lemma endswith_iff (a b : str) :
  endswith a b = true <-> exists pre, a = pre ++ b.
Proof.
  unfold endswith. rewrite startswith_iff. split.
  - intros (suf & Hs). exists (rev suf).
    rewrite <- (rev_involutive a), Hs, rev_app_distr, rev_involutive.
    reflexivity.
  - intros (pre & ->). exists (rev pre). apply rev_app_distr.
Qed.

Lemma startswith_self_app (a b : str) : startswith (a ++ b) a = true.
Proof. apply startswith_iff. exists b. reflexivity. Qed.

Lemma contains_trans (a b c : str) :
  contains a b = true -> contains b c = true -> contains a c = true.
Proof.
  rewrite !contains_iff.
  intros (p1 & s1 & ->) (p2 & s2 & ->).
  exists (p1 ++ p2), (s2 ++ s1). rewrite <- !app_assoc. reflexivity.
Qed.

(** What [lstrip] and [rstrip] leave: a suffix that does not start, a
    prefix that does not end, with a stripped character. *)
Lemma lstrip_by_spec (p : N -> bool) (a : str) :
  exists pre, a = pre ++ lstrip_by p a /\
    Forall (fun c => p c = true) pre /\
    match lstrip_by p a with [] => True | c :: _ => p c = false end.
Proof.
  induction a as [|c a (pre & Ha & Hpre & Hhd)]; cbn.
  - exists []. repeat split; constructor.
  - destruct (p c) eqn:Hc.
    + exists (c :: pre). split; [cbn; congruence|].
      split; [constructor; assumption|exact Hhd].
    + exists []. repeat split; [constructor|exact Hc].
Qed.

Lemma rstrip_by_spec (p : N -> bool) (a : str) :
  exists suf, a = rstrip_by p a ++ suf /\
    Forall (fun c => p c = true) suf /\
    (rstrip_by p a = [] \/
     exists body c, rstrip_by p a = body ++ [c] /\ p c = false).
Proof.
  unfold rstrip_by.
  destruct (lstrip_by_spec p (rev a)) as (pre & Ha & Hpre & Hhd).
  exists (rev pre). split; [|split].
  - rewrite <- rev_app_distr, <- Ha, rev_involutive. reflexivity.
  - apply Forall_rev, Hpre.
  - destruct (lstrip_by p (rev a)) as [|c l]; [left; reflexivity|].
    right. exists (rev l), c. split; [reflexivity|exact Hhd].
Qed.

Lemma strip_by_head (p : N -> bool) (a : str) (c : N) :
  p c = true -> head (strip_by p a) <> Some c.
Proof.
  intros Hc. unfold strip_by.
  destruct (lstrip_by_spec p a) as (_ & _ & _ & Hhd).
  destruct (rstrip_by_spec p (lstrip_by p a)) as (suf & Hs & _ & _).
  destruct (rstrip_by p (lstrip_by p a)) as [|x l]; [discriminate|].
  rewrite Hs in Hhd. cbn in *. congruence.
Qed.

Lemma strip_by_last (p : N -> bool) (a : str) :
  strip_by p a = [] \/
  exists body c, strip_by p a = body ++ [c] /\ p c = false.
Proof.
  unfold strip_by.
  destruct (rstrip_by_spec p (lstrip_by p a)) as (_ & _ & _ & H). exact H.
Qed.

(** ** Labels and file names *)

Section LabelShape.
Context `{PyLib}.

(** X1: [sanitize_label] always returns a usable file-name stem: it is
    never empty, has at most 60 characters, all of them among [a-z],
    [0-9] and the hyphen, and it does not start with a hyphen. *)
Theorem sanitize_label_shape (l : str) :
  sanitize_label l <> [] /\
  (List.length (sanitize_label l) <= 60)%nat /\
  Forall label_chr (sanitize_label l) /\
  head (sanitize_label l) <> Some 45%N.
Proof.
  destruct (sanitize_label_chars l) as [Hchars Hne].
  split; [exact Hne|]. split; [|split; [exact Hchars|]].
  - unfold sanitize_label. apply List.firstn_le_length.
  - unfold sanitize_label.
    set (t := strip_by (is_chr "-") _).
    assert (Ht : head t <> Some 45%N)
      by (apply strip_by_head; reflexivity).
    destruct t as [|c t]; cbn; [discriminate|exact Ht].
Qed.

(** X2: The file name under which [process_restaurant] saves a page
    or a PDF (the label of the candidate followed by [.html] or [.pdf])
    is never [metadata.json], has no slash, and is a name the directory
    scan of [existing_menu_info] takes for a menu: that scan rebuilds an
    entry for it, whatever the file holds. *)
Theorem saved_names_resumable (out_dir : str) (mp : MenuPage) (e : str)
    (c : FileContent) :
  In e [lit ".html"; lit ".pdf"] ->
  let fn := save_label mp ++ e in
  fn <> lit "metadata.json" /\
  Forall (fun x => x <> 47%N) fn /\
  scan_entry out_dir (fn, NFile c)
  = Some {| sf_url := None;
            sf_file := relpath (path_join out_dir fn);
            sf_status := None; sf_content_type := None;
            sf_is_menu_like := true |}.
Proof.
  intros He fn.
  assert (He' : e = lit ".html" \/ e = lit ".pdf")
    by (destruct He as [<-|[<-|[]]]; tauto).
  destruct (save_label_chars mp) as [Hl Hne].
  destruct (label_extension _ e Hl Hne He') as [Hext Hin].
  fold fn in Hext.
  assert (Hmeta : fn <> lit "metadata.json").
  { intros Heq. rewrite Heq in Hext.
    destruct He' as [-> | ->]; vm_compute in Hext; discriminate. }
  split; [exact Hmeta|]. split.
  - apply Forall_app. split.
    + eapply List.Forall_impl; [|exact Hl].
      intros x Hx. apply (label_chr_plain x Hx).
    + destruct He' as [-> | ->]; repeat constructor; discriminate.
  - unfold scan_entry. apply str_eqb_neq in Hmeta. rewrite Hmeta.
    rewrite Hext.
    change (List.map lit [".html"; ".htm"; ".pdf"]%string)
      with menu_extensions.
    rewrite (menu_extension_lower e Hin). reflexivity.
Qed.

End LabelShape.

(** ** Link scores *)

Lemma fold_hits_none {A} (cond : A -> bool) (w : A -> Z) (l : list A)
    (s : Z) :
  List.existsb cond l = false ->
  List.fold_left (fun score x => if cond x then score + w x else score) l s
  = s.
Proof.
  revert s. induction l as [|x l IH]; intros s; cbn; [reflexivity|].
  intros Hex. apply orb_false_iff in Hex as [Hx Hl].
  rewrite Hx. apply IH, Hl.
Qed.

Lemma fold_hits_bounds {A} (cond : A -> bool) (w : A -> Z) (l : list A)
    (s : Z) :
  (forall x, 0 <= w x) ->
  s <= List.fold_left
         (fun score x => if cond x then score + w x else score) l s
    <= s + List.fold_right Z.add 0 (List.map w l).
Proof.
  intros Hw. revert s. induction l as [|x l IH]; intros s; cbn; [lia|].
  specialize (Hw x).
  destruct (cond x); [specialize (IH (s + w x))|specialize (IH s)]; lia.
Qed.

Lemma fold_misses_bounds {A} (cond : A -> bool) (l : list A) (s : Z) :
  s - 3 * Z.of_nat (List.length l)
  <= List.fold_left (fun score x => if cond x then score - 3 else score) l s
  <= s.
Proof.
  revert s. induction l as [|x l IH]; intros s; cbn [fold_left List.length];
    [lia|].
  destruct (cond x); [specialize (IH (s - 3))|specialize (IH s)]; lia.
Qed.

Lemma existsb_false_in {A} (f : A -> bool) (l : list A) (x : A) :
  List.existsb f l = false -> In x l -> f x = false.
Proof.
  intros Hex Hin. destruct (f x) eqn:Hx; [|reflexivity].
  rewrite <- Hex. symmetry. apply List.existsb_exists. eauto.
Qed.

Section LinkScore.
Context `{PyLib}.

(** X3: A link scores more than 0 in [score_link] only if its
    text or its href (stripped and lower-cased) contains one of the
    positive hints, or its href ends with [.pdf]: the bonus for the
    strong patterns never makes a score positive on its own, since each
    of them contains the hint [menu]. *)
Theorem score_link_positive_hint (text href : str) :
  0 < score_link text href ->
  let t := str_lower (strip text) in
  let h := str_lower (strip href) in
  (exists kw, In kw POSITIVE_MENU_HINTS /\
              (contains t kw = true \/ contains h kw = true)) \/
  endswith h (lit ".pdf") = true.
Proof.
  intros Hpos t h.
  destruct (List.existsb (fun kw => contains t kw || contains h kw)
              POSITIVE_MENU_HINTS) eqn:Hex.
  { left. apply List.existsb_exists in Hex as (kw & Hin & Hkw).
    exists kw. split; [exact Hin|]. apply orb_true_iff, Hkw. }
  destruct (endswith h (lit ".pdf")) eqn:Hpdf; [right; reflexivity|].
  exfalso. unfold score_link in Hpos. fold t h in Hpos.
  rewrite Hpdf in Hpos.
  rewrite (fold_hits_none
             (fun kw => contains t kw || contains h kw)
             (fun kw => if contains kw (lit "menu") then 3 else 2)
             _ 0 Hex) in Hpos.
  assert (Hstrong : List.existsb (contains h)
            (List.map lit
               ["/menu"; "/menus"; "food-menu"; "our-menu"; "menu.html"]%string)
          = false).
  { destruct (List.existsb (contains h) _) eqn:Hs; [|reflexivity].
    apply List.existsb_exists in Hs as (pat & Hin & Hpat).
    assert (Hmenu : contains pat (lit "menu") = true)
      by (cbn in Hin; decompose [or] Hin; subst; try reflexivity;
          contradiction).
    pose proof (contains_trans _ _ _ Hpat Hmenu) as Hh.
    assert (Hfalse := existsb_false_in _ _ (lit "menu") Hex
                        ltac:(left; reflexivity)).
    cbn beta in Hfalse. rewrite Hh, orb_true_r in Hfalse. discriminate. }
  rewrite Hstrong in Hpos.
  pose proof (fold_misses_bounds
                (fun bad => contains t bad || contains h bad)
                NEGATIVE_HINTS 0) as [_ Hle].
  lia.
Qed.

(** X4: The score of [score_link] lies between -36 and 34: each of
    the twelve negative hints costs 3; the positive hints add up to 27
    at most, a strong pattern adds 3 and a PDF 4. *)
Theorem score_link_bounds (text href : str) :
  -36 <= score_link text href <= 34.
Proof.
  unfold score_link.
  set (t := str_lower (strip text)). set (h := str_lower (strip href)).
  pose proof (fold_hits_bounds
                (fun kw => contains t kw || contains h kw)
                (fun kw => if contains kw (lit "menu") then 3 else 2)
                POSITIVE_MENU_HINTS 0
                ltac:(intros x; cbv beta; destruct (contains x (lit "menu")); lia)) as Hp.
  change (List.fold_right Z.add 0 _) with 27 in Hp.
  set (p := List.fold_left _ POSITIVE_MENU_HINTS 0) in *.
  pose proof (fold_misses_bounds
                (fun bad => contains t bad || contains h bad)
                NEGATIVE_HINTS p) as Hn.
  change (Z.of_nat (List.length NEGATIVE_HINTS)) with 12 in Hn.
  set (n := List.fold_left _ NEGATIVE_HINTS p) in *.
  destruct (List.existsb _ _), (endswith h _); lia.
Qed.

End LinkScore.

(** ** External hosts *)

Section ExternalHosts.
Context `{PyLib}.

(** X5: [host_matches_external] holds exactly when the
    lower-cased host is one of the external menu domains or ends with a
    dot followed by one of them: a host that only ends with the letters
    of a domain, without the dot, is not matched. *)
Theorem host_matches_external_iff (host : str) :
  host_matches_external host = true <->
  exists dom, In dom EXTERNAL_MENU_HOSTS /\
    (str_lower host = dom \/
     exists sub, str_lower host = sub ++ lit "." ++ dom).
Proof.
  unfold host_matches_external. rewrite List.existsb_exists.
  split; intros (dom & Hin & Hdom); exists dom; (split; [exact Hin|]).
  - apply orb_true_iff in Hdom as [Heq|Hend].
    + left. apply str_eqb_eq, Heq.
    + right. apply endswith_iff, Hend.
  - apply orb_true_iff. destruct Hdom as [Heq|Hsub].
    + left. apply str_eqb_eq, Heq.
    + right. apply endswith_iff, Hsub.
Qed.

End ExternalHosts.

(** ** The candidates of a site *)

Lemma odict_set_forall {V} (P : V -> Prop) (k : str) (v : V)
    (d : list (str * V)) :
  P v -> Forall (fun kv => P (snd kv)) d ->
  Forall (fun kv => P (snd kv)) (odict_set k v d).
Proof.
  intros Hv. induction 1 as [|[k' v'] d Hx Hd IH]; cbn.
  - repeat constructor. exact Hv.
  - destruct (str_eqb k' k); constructor; assumption.
Qed.

Lemma descending_firstn (n : nat) (l : list MenuPage) :
  descending l -> descending (List.firstn n l).
Proof.
  revert n. induction l as [|x l IH]; intros [|n]; cbn; try tauto.
  intros [Hx Hl]. split; [|apply IH, Hl].
  intros y Hy. apply Hx. eapply firstn_in, Hy.
Qed.

Section CandidateShape.
Context `{PyLib}.

(** What every entry of the dictionary of candidates satisfies. *)
Lemma candidate_dict_entries (base_url : str) (html : Html) :
  Forall (fun kv => 0 < score (snd kv) /\ guessed (snd kv) = false)
    (candidate_dict base_url html).
Proof.
  unfold candidate_dict.
  assert (Hfold : forall anchors d,
    Forall (fun kv => 0 < score (snd kv) /\ guessed (snd kv) = false) d ->
    Forall (fun kv => 0 < score (snd kv) /\ guessed (snd kv) = false)
      (List.fold_left (add_anchor base_url) anchors d)).
  { induction anchors as [|a anchors IH]; intros d Hd; cbn; [exact Hd|].
    apply IH. unfold add_anchor.
    destruct (a_href a) as [[|c href]|]; try exact Hd.
    destruct (Z.leb_spec (anchor_score base_url (c :: href)
                            (List.firstn 200 (a_text a))) 0) as [|Hpos];
      [exact Hd|].
    assert (Hset : forall l,
      Forall (fun kv => 0 < score (snd kv) /\ guessed (snd kv) = false)
        (odict_set (urljoin base_url (c :: href))
           (mk_page (urljoin base_url (c :: href)) l
              (anchor_score base_url (c :: href)
                 (List.firstn 200 (a_text a))) false) d)).
    { intros l.
      apply (odict_set_forall
               (fun mp => 0 < score mp /\ guessed mp = false));
        [split; [exact Hpos|reflexivity]|exact Hd]. }
    destruct (odict_get _ d) as [old|]; [|apply Hset].
    destruct (Z.ltb (score old) _); [apply Hset|exact Hd]. }
  specialize (Hfold (soup_anchors html) [] ltac:(constructor)).
  destruct (is_menu_like html); [|exact Hfold].
  apply (odict_set_forall (fun mp => 0 < score mp /\ guessed mp = false));
    [split; [reflexivity|reflexivity]|exact Hfold].
Qed.

Lemma discover_entries (base_url : str) (html : Html) :
  Forall (fun mp => 0 < score mp /\ guessed mp = false)
    (discover_menu_links base_url html).
Proof.
  unfold discover_menu_links. apply Forall_take.
  pose proof (candidate_dict_entries base_url html) as Hd.
  apply List.Forall_forall. intros mp Hin.
  apply (Permutation_in _ (sorted_by_score_desc_perm _)) in Hin.
  unfold odict_values in Hin. apply List.in_map_iff in Hin as (kv & <- & Hkv).
  exact (proj1 (List.Forall_forall _ _) Hd kv Hkv).
Qed.

(** X6: [discover_menu_links] returns at most 12 candidates,
    highest score first, each with a score above 0 and none marked as
    guessed. *)
Theorem discover_menu_links_shape (base_url : str) (html : Html) :
  let out := discover_menu_links base_url html in
  (List.length out <= 12)%nat /\
  descending out /\
  Forall (fun mp => 0 < score mp /\ guessed mp = false) out.
Proof.
  cbv zeta. split; [apply List.firstn_le_length|].
  split; [|apply discover_entries].
  apply descending_firstn, sorted_by_score_desc_descending.
Qed.

Lemma build_guessed_entries (base_url : str) :
  Forall (fun mp => score mp = 8 /\ guessed mp = true)
    (build_guessed_menu_pages base_url).
Proof.
  unfold build_guessed_menu_pages. apply List.Forall_forall.
  intros mp Hin. apply List.in_map_iff in Hin as (path & <- & _).
  split; reflexivity.
Qed.

End CandidateShape.

Section AllCandidates.
Context `{PyLib} `{Outside}.

(** X8: The candidates [process_restaurant] goes through are
    those of the homepage, unchanged and first, followed by guessed
    ones: every guessed candidate has score 8, comes from
    [build_guessed_menu_pages], and its URL is not that of a candidate
    of the homepage; and no guessed URL is lost, each one is the URL of
    some candidate. *)
Theorem all_candidates_link_first (base_url : str) (html : Html) :
  exists guesses,
    all_candidates base_url html
    = discover_menu_links base_url html ++ guesses /\
    Forall (fun mp => guessed mp = false)
      (discover_menu_links base_url html) /\
    Forall
      (fun mp =>
         guessed mp = true /\ score mp = 8 /\
         In mp (build_guessed_menu_pages base_url) /\
         ~ In (url mp) (List.map url (discover_menu_links base_url html)))
      guesses /\
    (forall mp, In mp (build_guessed_menu_pages base_url) ->
       In (url mp) (List.map url (all_candidates base_url html))).
Proof.
  unfold all_candidates.
  set (links := discover_menu_links base_url html).
  set (keep := fun mp : MenuPage =>
                 negb (bool_decide
                         (url mp ∈ (list_to_set (List.map url links)
                                    : gset str)))).
  assert (Hkeep : forall mp, keep mp = true <->
                             ~ In (url mp) (List.map url links)).
  { intros mp. unfold keep.
    rewrite negb_true_iff, bool_decide_eq_false, elem_of_list_to_set,
      list_elem_of_In. reflexivity. }
  exists (List.filter keep (build_guessed_menu_pages base_url)).
  split; [reflexivity|]. split; [|split].
  - eapply List.Forall_impl; [|apply discover_entries]. cbn. tauto.
  - apply List.Forall_forall. intros mp Hin.
    apply List.filter_In in Hin as [Hin Hk].
    pose proof (proj1 (List.Forall_forall _ _)
                  (build_guessed_entries base_url) mp Hin) as [Hs Hg].
    repeat split; try assumption. apply Hkeep, Hk.
  - intros mp Hin. rewrite List.map_app. apply List.in_or_app.
    destruct (keep mp) eqn:Hk.
    + right. apply List.in_map, List.filter_In. tauto.
    + left. unfold keep in Hk.
      rewrite negb_false_iff, bool_decide_eq_true, elem_of_list_to_set,
        list_elem_of_In in Hk. exact Hk.
Qed.

End AllCandidates.

(** ** Slugs and output directories *)

Lemma sub_non_alnum_in_run_head (a : str) :
  head (sub_non_alnum true a) <> Some 45%N.
Proof.
  induction a as [|c a IH]; cbn; [discriminate|].
  destruct (is_lower_alnum c) eqn:Hc; [|exact IH].
  cbn. intros [= ->]. discriminate.
Qed.

Lemma sub_non_alnum_no_double (in_run : bool) (a pre suf : str) :
  sub_non_alnum in_run a <> pre ++ 45%N :: 45%N :: suf.
Proof.
  revert in_run pre. induction a as [|c a IH]; intros in_run pre; cbn.
  - destruct pre; discriminate.
  - destruct (is_lower_alnum c) eqn:Hc.
    + destruct pre as [|x pre]; cbn.
      * intros [= -> _]. discriminate.
      * intros [= _ Hrest]. exact (IH _ _ Hrest).
    + destruct in_run; [apply IH|].
      destruct pre as [|x pre]; cbn.
      * intros [= Hrest]. apply (sub_non_alnum_in_run_head a).
        rewrite Hrest. reflexivity.
      * intros [= _ Hrest]. exact (IH _ _ Hrest).
Qed.

Lemma slug_clean_intro (s : str) :
  (forall pre suf, s <> pre ++ 45%N :: 45%N :: suf) ->
  (forall body, s <> body ++ [45%N]) ->
  slug_clean s.
Proof.
  induction s as [|c s IH]; intros Hdouble Hlast; cbn; [exact I|].
  split.
  - intros ->. destruct s as [|d s].
    + apply (Hlast []). reflexivity.
    + intros ->. apply (Hdouble [] s). reflexivity.
  - apply IH.
    + intros pre suf ->. apply (Hdouble (c :: pre) suf). reflexivity.
    + intros body ->. apply (Hlast (c :: body)). reflexivity.
Qed.

Lemma slug_clean_no_double (s u : str) :
  ~ slug_clean (s ++ 45%N :: 45%N :: u).
Proof.
  induction s as [|c s IH]; cbn.
  - intros [H _]. specialize (H eq_refl). contradiction.
  - intros [_ H]. exact (IH H).
Qed.

Lemma slug_clean_split (s1 s2 u1 u2 : str) :
  slug_clean s1 -> slug_clean s2 ->
  s1 ++ 45%N :: 45%N :: u1 = s2 ++ 45%N :: 45%N :: u2 ->
  s1 = s2 /\ u1 = u2.
Proof.
  revert s2. induction s1 as [|c s1 IH]; intros [|d s2]; cbn.
  - intros _ _ [= ->]. tauto.
  - intros _ [Hd _] [= <- Hrest]. exfalso.
    specialize (Hd eq_refl). destruct s2 as [|x s2]; [exact Hd|].
    cbn in Hrest. injection Hrest as <- _. contradiction.
  - intros [Hc _] _ [= -> Hrest]. exfalso.
    specialize (Hc eq_refl). destruct s1 as [|x s1]; [exact Hc|].
    cbn in Hrest. injection Hrest as -> _. contradiction.
  - intros [_ H1] [_ H2] [= -> Hrest].
    destruct (IH s2 H1 H2 Hrest) as [-> ->]. tauto.
Qed.

(** The slug [load_restaurants] derives from a lower-cased name. *)
Lemma slug_of_name_shape (src : str) :
  let s :=
    str_or (strip_by (is_chr "-") (sub_non_alnum false src))
      (lit "restaurant") in
  (exists c rest, s = c :: rest /\ is_lower_alnum c = true) /\
  Forall label_chr s /\
  slug_clean s.
Proof.
  cbv zeta.
  set (t := strip_by (is_chr "-") (sub_non_alnum false src)).
  assert (Hchars : Forall label_chr t)
    by apply strip_by_forall, sub_non_alnum_label.
  assert (Hhead : head t <> Some 45%N)
    by (apply strip_by_head; reflexivity).
  assert (Hclean : slug_clean t).
  { apply slug_clean_intro.
    - intros pre suf Ht. unfold t, strip_by in Ht.
      destruct (rstrip_by_spec (is_chr "-")
                  (lstrip_by (is_chr "-") (sub_non_alnum false src)))
        as (suf1 & Hs1 & _ & _).
      destruct (lstrip_by_spec (is_chr "-") (sub_non_alnum false src))
        as (pre1 & Hp1 & _ & _).
      rewrite Hs1, Ht in Hp1.
      apply (sub_non_alnum_no_double false src (pre1 ++ pre) (suf ++ suf1)).
      rewrite Hp1, <- !List.app_assoc. reflexivity.
    - intros body Ht.
      destruct (strip_by_last (is_chr "-") (sub_non_alnum false src))
        as [Hnil|(body' & c & Hb & Hc)]; fold t in Hnil || fold t in Hb.
      + rewrite Hnil in Ht. destruct body; discriminate.
      + rewrite Hb in Ht. apply List.app_inj_tail in Ht as [_ ->].
        discriminate. }
  destruct t as [|c t]; cbn [str_or].
  - split; [exists 114%N, (lit "estaurant"); split; reflexivity|].
    split; [repeat constructor|]. cbn.
    repeat split; discriminate.
  - split; [|split; assumption].
    exists c, t. split; [reflexivity|].
    inversion Hchars as [|? ? [Hc| ->] _]; [exact Hc|]. cbn in Hhead.
    congruence.
Qed.

Section Slugs.
Context `{PyLib}.

(** X9: The slug [load_restaurants] gives a restaurant starts
    with a letter or digit in [a-z0-9], consists of such characters and
    hyphens, has no two hyphens in a row and does not end with a
    hyphen, whatever the name in the file (absent, empty, or without
    any letter or digit: the slug is then [restaurant]). *)
Theorem load_restaurant_slug (raw : RawRestaurant) :
  let s := slug (load_restaurant raw) in
  (exists c rest, s = c :: rest /\ is_lower_alnum c = true) /\
  Forall label_chr s /\
  slug_clean s.
Proof. cbn [load_restaurant slug]. apply slug_of_name_shape. Qed.

End Slugs.

Lemma path_join_inj (root a b : str) :
  startswith a (lit "/") = false -> startswith b (lit "/") = false ->
  path_join root a = path_join root b -> a = b.
Proof.
  unfold path_join. intros -> ->.
  destruct (str_eqb root [] || endswith root (lit "/")); intros Heq.
  - exact (List.app_inv_head _ _ _ Heq).
  - apply List.app_inv_head in Heq. injection Heq as ->. reflexivity.
Qed.

Section OutputDirs.
Context `{PyLib}.

(** X11: Two restaurants loaded by [load_restaurants] get the
    same output directory under a root exactly when they have the same
    slug and the same first eight characters of uuid (in particular
    both without uuid, or both with one): the separator [--] cannot be
    confused with a part of a slug. *)
Theorem output_dir_collision (out_root : str) (raw1 raw2 : RawRestaurant) :
  let r1 := load_restaurant raw1 in
  let r2 := load_restaurant raw2 in
  fst (restaurant_output_dir out_root r1)
  = fst (restaurant_output_dir out_root r2)
  <-> slug r1 = slug r2 /\
      List.firstn 8 (uuid r1) = List.firstn 8 (uuid r2).
Proof.
  intros r1 r2.
  assert (Hslug : forall raw,
    (exists c rest, slug (load_restaurant raw) = c :: rest /\
                    is_lower_alnum c = true) /\
    slug_clean (slug (load_restaurant raw))).
  { intros raw. cbn [load_restaurant slug].
    destruct (slug_of_name_shape
                (str_lower
                   (strip (str_or (opt_or_empty (raw_name raw))
                             (lit "restaurant")))))
      as (Hhd & _ & Hcl).
    split; assumption. }
  destruct (Hslug raw1) as ((c1 & t1 & Hs1 & Hc1) & Hcl1).
  destruct (Hslug raw2) as ((c2 & t2 & Hs2 & Hc2) & Hcl2).
  fold r1 in Hs1, Hcl1. fold r2 in Hs2, Hcl2. clear Hslug.
  unfold restaurant_output_dir. cbn [fst].
  set (su1 := match uuid r1 with [] => slug r1 | _ => _ end).
  set (su2 := match uuid r2 with [] => slug r2 | _ => _ end).
  assert (Hslash : forall c, is_lower_alnum c = true -> N.eqb c 47 = false).
  { intros c Hc. destruct (N.eqb_spec c 47) as [->|]; [|reflexivity].
    discriminate. }
  assert (H1 : startswith su1 (lit "/") = false).
  { unfold su1. rewrite Hs1. change (lit "/") with [47%N].
    destruct (uuid r1); cbn [startswith app]; rewrite (Hslash _ Hc1);
      reflexivity. }
  assert (H2 : startswith su2 (lit "/") = false).
  { unfold su2. rewrite Hs2. change (lit "/") with [47%N].
    destruct (uuid r2); cbn [startswith app]; rewrite (Hslash _ Hc2);
      reflexivity. }
  transitivity (su1 = su2).
  { split; [apply path_join_inj; assumption|congruence]. }
  unfold su1, su2. clear su1 su2 H1 H2.
  change (lit "--") with [45%N; 45%N]. cbn [app].
  destruct (uuid r1) as [|x1 u1], (uuid r2) as [|x2 u2]; cbn [List.firstn].
  - tauto.
  - split; [|intros [_ [=]]].
    intros Heq. exfalso. rewrite Heq in Hcl1.
    exact (slug_clean_no_double _ _ Hcl1).
  - split; [|intros [_ [=]]].
    intros Heq. exfalso. rewrite <- Heq in Hcl2.
    exact (slug_clean_no_double _ _ Hcl2).
  - split.
    + intros Heq. apply slug_clean_split in Heq; assumption.
    + intros [-> ->]. reflexivity.
Qed.

End OutputDirs.

(** ** The restaurants of a run *)

Lemma sublist_filter' {A} (f : A -> bool) (l : list A) :
  sublist (List.filter f l) l.
Proof.
  induction l as [|x l IH]; cbn; [constructor|].
  destruct (f x); [apply sublist_skip|apply sublist_cons]; exact IH.
Qed.

Section Selection.
Context `{PyLib}.

(** X12: The restaurants [run] processes, for a [--limit] of [n]
    as [main] passes it on, are a subsequence of the loaded ones, in
    their order, each with a non-empty website; with an offset of 0 or
    more they come from the list after its first [offset] entries; a
    positive [n] bounds their number, and an [n] of zero (the default)
    or less selects what no limit selects. *)
Theorem select_restaurants_spec (all_restaurants : list Restaurant)
    (n offset : Z) :
  let chosen := select_restaurants all_restaurants (cli_limit n) offset in
  sublist chosen all_restaurants /\
  Forall (fun r => exists c w, website r = Some (c :: w)) chosen /\
  (0 <= offset ->
   sublist chosen (List.skipn (Z.to_nat offset) all_restaurants)) /\
  (0 < n -> Z.of_nat (List.length chosen) <= n) /\
  (n <= 0 -> chosen = select_restaurants all_restaurants None offset).
Proof.
  cbv zeta. unfold select_restaurants.
  set (l1 := if Z.eqb offset 0 then _ else _).
  set (l2 := match cli_limit n with Some _ => _ | None => _ end).
  assert (H1 : sublist l1 all_restaurants).
  { unfold l1. destruct (Z.eqb offset 0); [reflexivity|].
    unfold slice_from. apply sublist_drop. }
  assert (H2 : sublist l2 l1).
  { unfold l2. destruct (cli_limit n) as [m|]; [|reflexivity].
    destruct (Z.ltb 0 m); [apply sublist_take|reflexivity]. }
  split; [|split; [|split; [|split]]].
  - etransitivity; [apply sublist_filter'|]. etransitivity; eassumption.
  - apply List.Forall_forall. intros r Hin.
    apply List.filter_In in Hin as [_ Hw]. unfold has_website in Hw.
    destruct (website r) as [[|c w]|]; try discriminate. eauto.
  - intros Hoff.
    etransitivity; [apply sublist_filter'|]. etransitivity; [exact H2|].
    unfold l1, slice_from. destruct (Z.eqb_spec offset 0) as [Heq|Hne];
      [rewrite Heq; reflexivity|].
    destruct (Z.ltb_spec offset 0); [lia|reflexivity].
  - intros Hn.
    pose proof (sublist_length _ _ (sublist_filter' has_website l2)) as Hlen.
    assert (Hl2 : l2 = List.firstn (Z.to_nat n) l1).
    { unfold l2, cli_limit. destruct (Z.eqb_spec n 0); [lia|].
      apply Z.ltb_lt in Hn as ->. reflexivity. }
    rewrite Hl2 in Hlen at 2. rewrite List.length_firstn in Hlen. lia.
  - intros Hn. unfold l2, cli_limit. destruct (Z.eqb_spec n 0); [reflexivity|].
    destruct (Z.ltb_spec 0 n); [lia|reflexivity].
Qed.

(** X10: [load_restaurants] never leaves an empty website: a
    website that is absent, null, empty or blank becomes [None], and
    any other is kept stripped, so it neither starts nor ends with
    white space and passes the test [if r.website] of [run]. *)
Theorem load_restaurant_website (raw : RawRestaurant) :
  match website (load_restaurant raw) with
  | None => strip (opt_or_empty (raw_website raw)) = []
  | Some w =>
      w = strip (opt_or_empty (raw_website raw)) /\
      has_website (load_restaurant raw) = true /\
      (exists c rest, w = c :: rest /\ is_space c = false) /\
      (exists body d, w = body ++ [d] /\ is_space d = false)
  end.
Proof.
  unfold has_website. cbn [load_restaurant website].
  pose proof (fun c => strip_by_head is_space
                         (opt_or_empty (raw_website raw)) c) as Hhead.
  pose proof (strip_by_last is_space (opt_or_empty (raw_website raw)))
    as Hlast.
  fold (strip (opt_or_empty (raw_website raw))) in Hhead, Hlast.
  destruct (strip (opt_or_empty (raw_website raw))) as [|c w];
    [reflexivity|].
  split; [reflexivity|]. split; [reflexivity|]. split.
  - exists c, w. split; [reflexivity|].
    destruct (is_space c) eqn:Hc; [|reflexivity].
    contradiction (Hhead c Hc). reflexivity.
  - destruct Hlast as [Hnil|Hl]; [discriminate|exact Hl].
Qed.

End Selection.

(** ** The progress line and the counts of a run *)

Section Reporting.
Context `{PyLib} `{Outside}.

Lemma produced_skipped_found (res : Result) :
  produced res -> truthy (r_skipped res) = true -> r_found res = true.
Proof.
  intros (out_root & r & max_pages_per_site & st & ->).
  destruct (existing_menu_info (st_fs st) out_root r) as [ex|] eqn:Hex.
  - unfold process_restaurant. rewrite Hex. cbn [fst]. intros _.
    apply (existing_menu_info_flags _ _ _ _ Hex).
  - pose proof (fresh_run out_root r max_pages_per_site st Hex) as Hf.
    destruct (process_restaurant _ _ _ st) as [res st'].
    destruct Hf as (Hskip & _). cbn [fst]. rewrite Hskip. discriminate.
Qed.

(** X13: The status in the progress line of a worker is SKIP
    exactly when the run resumed from an existing output directory,
    FOUND exactly when it did not and saved at least one file, and MISS
    exactly when it did not and saved none. *)
Theorem worker_status_spec (out_root : str) (r : Restaurant)
    (max_pages_per_site : Z) (st : State) :
  let res := fst (process_restaurant out_root r max_pages_per_site st) in
  let resumed := existing_menu_info (st_fs st) out_root r in
  (worker_status res = SKIP <-> resumed <> None) /\
  (worker_status res = FOUND <->
   resumed = None /\ r_saved_files res <> []) /\
  (worker_status res = MISS <->
   resumed = None /\ r_saved_files res = []).
Proof.
  cbv zeta. unfold worker_status.
  destruct (existing_menu_info (st_fs st) out_root r) as [ex|] eqn:Hex.
  - unfold process_restaurant. rewrite Hex. cbn [fst].
    destruct (existing_menu_info_flags _ _ _ _ Hex) as [_ ->]. cbn.
    repeat split; try discriminate; try tauto; try (intros [[=] _]).
  - pose proof (fresh_run out_root r max_pages_per_site st Hex) as Hf.
    destruct (process_restaurant _ _ _ st) as [res st'].
    destruct Hf as (Hskip & Hfound & _). cbn [fst]. rewrite Hskip. cbn.
    destruct (r_found res).
    + assert (Hne : r_saved_files res <> []) by (apply Hfound; reflexivity).
      repeat split; try discriminate; try tauto;
        try (intros [_ ?]; contradiction).
    + assert (Hnil : r_saved_files res = []).
      { destruct (r_saved_files res); [reflexivity|].
        assert (false = true) by (apply Hfound; discriminate).
        discriminate. }
      repeat split; try discriminate; try tauto;
        try (intros [_ ?]; contradiction).
Qed.

(** X14: In the closing summary of [run] the restaurants
    counted as skipped are also counted as found: over results of
    [process_restaurant], [skipped_count] never exceeds [found_count],
    because a result with [skipped] has [found] set. *)
Theorem skipped_counted_found (results : list Result) :
  Forall produced results ->
  (skipped_count results <= found_count results)%nat.
Proof.
  unfold skipped_count, found_count.
  induction 1 as [|res results Hres _ IH]; cbn [List.filter List.length];
    [lia|].
  pose proof (produced_skipped_found res Hres) as Himp.
  destruct (truthy (r_skipped res)).
  - rewrite (Himp eq_refl). cbn [List.length]. lia.
  - destruct (r_found res); cbn [List.length]; lia.
Qed.

End Reporting.

(** ** What a run touches *)

Section Confined.
Context `{PyLib} `{Outside}.

Lemma confined_refl (out_dir : str) (st : State) : confined out_dir st st.
Proof.
  split; [exists []; split; [reflexivity|constructor]|].
  split; [apply files_persist_refl|tauto].
Qed.

Lemma confined_trans (out_dir : str) (st1 st2 st3 : State) :
  confined out_dir st1 st2 -> confined out_dir st2 st3 ->
  confined out_dir st1 st3.
Proof.
  intros ((n1 & Ht1 & Hi1) & Hp1 & Hc1) ((n2 & Ht2 & Hi2) & Hp2 & Hc2).
  split; [|split].
  - exists (n2 ++ n1). split; [rewrite Ht2, Ht1, List.app_assoc; reflexivity|].
    apply Forall_app. split; assumption.
  - eapply files_persist_trans; eassumption.
  - intros host rp Hh. apply Hc2, Hc1, Hh.
Qed.

Lemma client_get_confined (out_dir u : str) (st : State) :
  confined out_dir st (snd (client_get u st)).
Proof.
  unfold client_get. destruct (http_get (st_env st) u) as [o env'].
  cbn [snd]. unfold confined. cbn [st_trace st_fs st_cache].
  split; [exists [EvGet u]; split; [reflexivity|repeat constructor]|].
  split; [apply files_persist_refl|tauto].
Qed.

Lemma fetch_robots_confined (out_dir u : str) (st : State) :
  confined out_dir st (snd (fetch_robots u st)).
Proof.
  unfold fetch_robots.
  destruct (st_cache st !! _) as [rp0|] eqn:Hc; [apply confined_refl|].
  unfold bind, ret, cache_set, client_get.
  destruct (http_get (st_env st) _) as [o env'].
  cbn [snd]. unfold confined.
  cbn [st_trace st_fs st_cache].
  split; [eexists [_]; split; [reflexivity|repeat constructor]|].
  split; [apply files_persist_refl|].
  intros host rp Hh. rewrite lookup_insert_ne; [exact Hh|].
  intros <-. congruence.
Qed.

Lemma fetch_text_confined (out_dir u : str) (st : State) :
  confined out_dir st (snd (fetch_text u st)).
Proof.
  unfold fetch_text, bind, ret.
  pose proof (client_get_confined out_dir u st) as Hg.
  destruct (client_get u st) as [o st1].
  destruct o as [r|e]; [destruct (_ || _)|]; exact Hg.
Qed.

Lemma ensure_dir_confined (out_dir : str) (st : State) :
  confined out_dir st (snd (ensure_dir out_dir st)).
Proof.
  pose proof (ensure_dir_spec out_dir st) as Hs.
  destruct (ensure_dir out_dir st) as [[] st1] eqn:He.
  destruct (Hs st1 eq_refl) as (Hp & _ & Ht).
  unfold ensure_dir, log, set_fs in He. cbn in He. injection He as <-.
  cbn [snd]. unfold confined. cbn [st_trace st_fs st_cache].
  split; [exists [EvMkdir out_dir]; split;
          [reflexivity|repeat constructor]|].
  split; [exact Hp|tauto].
Qed.

Lemma write_file_confined (out_dir fn : str)
    (content : Env -> FileContent) (st : State) :
  Forall (fun c => c <> 47%N) fn ->
  confined out_dir st (snd (write_file out_dir fn content st)).
Proof.
  intros Hfn.
  pose proof (write_file_spec out_dir fn content st) as Hs.
  destruct (write_file out_dir fn content st) as [w st1] eqn:Hw.
  destruct (Hs w st1 eq_refl) as (o & Ht & Hp & _).
  cbn [snd]. split; [|split; [exact Hp|]].
  - eexists [_]. split; [exact Ht|]. repeat constructor. exists fn.
    split; [reflexivity|exact Hfn].
  - unfold write_file in Hw.
    destruct (disk_write (st_env st) _) as [o' env'].
    injection Hw as _ <-. cbn [st_cache]. tauto.
Qed.

(** The name of a saved document has no slash. *)
Lemma saved_name_no_slash (mp : MenuPage) (e : str) :
  e = lit ".html" \/ e = lit ".pdf" ->
  Forall (fun c => c <> 47%N) (save_label mp ++ e).
Proof.
  intros He. destruct (save_label_chars mp) as [Hl _].
  apply Forall_app. split.
  - eapply List.Forall_impl; [|exact Hl].
    intros x Hx. apply (label_chr_plain x Hx).
  - destruct He as [-> | ->]; repeat constructor; discriminate.
Qed.

Lemma visit_confined (out_dir : str) (mp : MenuPage) (result : Result)
    (saved : Z) (st : State) :
  confined out_dir st (snd (visit out_dir mp result saved st)).
Proof.
  unfold visit, bind, ret.
  pose proof (fetch_robots_confined out_dir (url mp) st) as Hr0.
  destruct (fetch_robots (url mp) st) as [rp st0]. cbn [snd] in Hr0.
  destruct (negb _); [exact Hr0|].
  pose proof (fetch_text_confined out_dir (url mp) st0) as Hr1.
  destruct (fetch_text (url mp) st0) as [[[body ctype2] status2] st1].
  cbn [snd] in Hr1.
  pose proof (confined_trans _ _ _ _ Hr0 Hr1) as Hr01.
  destruct (is_pdf ctype2).
  - pose proof (client_get_confined out_dir (url mp) st1) as Hr2.
    destruct (client_get (url mp) st1) as [pdf st2]. cbn [snd] in Hr2.
    pose proof (confined_trans _ _ _ _ Hr01 Hr2) as Hr02.
    destruct pdf as [pdf_resp|e]; [|exact Hr02].
    pose proof (write_file_confined out_dir (save_label mp ++ lit ".pdf")
                  (fun _ => FBytes (resp_content pdf_resp)) st2
                  (saved_name_no_slash mp _ (or_intror eq_refl))) as Hr3.
    destruct (write_file _ _ _ st2) as [w st3].
    destruct w; eapply confined_trans; eassumption.
  - destruct body as [body|]; [|exact Hr01].
    destruct (looks_like_error_page body status2); [exact Hr01|].
    cbv zeta.
    assert (Hsave : forall flag,
      confined out_dir st
        (snd (let (w, st3) :=
                write_file out_dir (save_label mp ++ lit ".html")
                  (fun _ => FText (html_source body)) st1 in
              match w with
              | Some e =>
                  fun st => (add_error
                               (lit "write_failed:" ++ url mp ++ lit ":" ++ e)
                               result, saved, st)
              | None =>
                  fun st =>
                    (add_saved
                       {| sf_url := Some (url mp);
                          sf_file :=
                            relpath
                              (path_join out_dir
                                 (save_label mp ++ lit ".html"));
                          sf_status := status2;
                          sf_content_type := ctype2;
                          sf_is_menu_like := flag |} result, saved + 1, st)
              end st3))).
    { intros flag.
      pose proof (write_file_confined out_dir (save_label mp ++ lit ".html")
                    (fun _ => FText (html_source body)) st1
                    (saved_name_no_slash mp _ (or_introl eq_refl))) as Hr3.
      destruct (write_file _ _ _ st1) as [w st3].
      destruct w; eapply confined_trans; eassumption. }
    destruct (negb (is_menu_like body) && negb (host_matches_external _)).
    + destruct (guessed mp); [exact Hr01|].
      destruct (negb (path_implies_menu (url mp))); [exact Hr01|].
      apply Hsave.
    + destruct (host_matches_external _); apply Hsave.
Qed.

Lemma crawl_confined (out_dir : str) (max_pages_per_site : Z)
    (candidates : list MenuPage) (seen_urls : gset str)
    (result : Result) (saved : Z) (st : State) :
  confined out_dir st
    (snd (crawl out_dir max_pages_per_site candidates seen_urls result
            saved st)).
Proof.
  revert seen_urls result saved st.
  induction candidates as [|mp rest IH]; intros seen_urls result saved st;
    cbn [crawl]; [apply confined_refl|].
  destruct (Z.leb max_pages_per_site saved); [apply confined_refl|].
  destruct (bool_decide (url mp ∈ seen_urls)); [apply IH|].
  unfold bind.
  pose proof (visit_confined out_dir mp result saved st) as Hv.
  destruct (visit out_dir mp result saved st) as [[result1 saved1] st1].
  eapply confined_trans; [exact Hv|apply IH].
Qed.

End Confined.

(** ** The shape of a run that does not resume *)

Section FreshShape.
Context `{PyLib} `{Outside}.

(** The run of [process_restaurant] on a restaurant with a website and
    no earlier output, written out step by step. *)
Lemma process_restaurant_fresh (out_root : str) (r : Restaurant)
    (max_pages_per_site : Z) (st : State) (c : N) (w : str) :
  existing_menu_info (st_fs st) out_root r = None ->
  website r = Some (c :: w) ->
  let base_url := normalize_url (c :: w) in
  let out_dir := fst (restaurant_output_dir out_root r) in
  let st1 := snd (ensure_dir out_dir st) in
  let rp := fst (fetch_robots base_url st1) in
  let st2 := snd (fetch_robots base_url st1) in
  let fetched := fetch_text base_url st2 in
  let finish (res : Result) :=
    write_file out_dir (lit "metadata.json")
      (metadata r base_url (r_found res) (r_saved_files res)
         (r_errors res)) in
  process_restaurant out_root r max_pages_per_site st =
  if negb (can_fetch rp USER_AGENT base_url) then
    let res := add_error (lit "blocked_by_robots_home") (initial_result r) in
    (res, snd (finish res st2))
  else
    match fst (fst (fst fetched)) with
    | None =>
        let res :=
          add_error
            (lit "homepage_unavailable:" ++ fmt_opt_Z (snd (fst fetched))
             ++ lit ":" ++ fmt_opt_str (snd (fst (fst fetched))))
            (initial_result r) in
        (res, snd (finish res (snd fetched)))
    | Some html =>
        let crawled :=
          crawl out_dir max_pages_per_site (all_candidates base_url html) ∅
            (initial_result r) 0 (snd fetched) in
        let res :=
          set_found (Z.ltb 0 (snd (fst crawled))) (fst (fst crawled)) in
        (match fst (finish res (snd crawled)) with
         | Some e => add_error (lit "meta_write_failed:" ++ e) res
         | None => res
         end,
         snd (finish res (snd crawled)))
    end.
Proof.
  intros Hex Hweb. cbv zeta. unfold process_restaurant, initial_result.
  rewrite Hex, Hweb. unfold bind, ret.
  destruct (ensure_dir _ st) as [[] st1]. cbn [snd].
  destruct (fetch_robots _ st1) as [rp st2]. cbn [fst snd].
  destruct (negb _).
  { destruct (write_file _ _ _ st2) as [wres st3]. reflexivity. }
  destruct (fetch_text _ st2) as [[[html ctype] status] st3]. cbn [fst snd].
  destruct html as [html|].
  - destruct (crawl _ _ _ _ _ _ st3) as [[result1 saved1] st4].
    cbn [fst snd].
    destruct (write_file _ _ _ st4) as [wres st5]. cbn [fst snd].
    destruct wres; reflexivity.
  - destruct (write_file _ _ _ st3) as [wres st4]. reflexivity.
Qed.

(** X22: A run of [process_restaurant] keeps its file-system calls to
    the output directory of its restaurant: the only directory it
    passes to [os.makedirs] is that one, every file it opens for
    writing is [os.path.join(out_dir, name)] for a name without slash,
    it deletes no file or directory, and the robots cache keeps every
    entry it had. *)
Theorem process_restaurant_confined (out_root : str) (r : Restaurant)
    (max_pages_per_site : Z) (st : State) :
  confined (fst (restaurant_output_dir out_root r)) st
    (snd (process_restaurant out_root r max_pages_per_site st)).
Proof.
  destruct (existing_menu_info (st_fs st) out_root r) as [ex|] eqn:Hex.
  { unfold process_restaurant. rewrite Hex. apply confined_refl. }
  destruct (website r) as [[|c w]|] eqn:Hweb.
  1, 3: unfold process_restaurant; rewrite Hex, Hweb; apply confined_refl.
  rewrite (process_restaurant_fresh _ _ _ _ c w Hex Hweb).
  set (out_dir := fst (restaurant_output_dir out_root r)).
  set (base_url := normalize_url (c :: w)).
  pose proof (ensure_dir_confined out_dir st) as H1.
  pose proof (fetch_robots_confined out_dir base_url
                (snd (ensure_dir out_dir st))) as H2.
  pose proof (confined_trans _ _ _ _ H1 H2) as H12.
  assert (Hfin : forall res st',
    confined out_dir st st' ->
    confined out_dir st
      (snd (write_file out_dir (lit "metadata.json")
              (metadata r base_url (r_found res) (r_saved_files res)
                 (r_errors res)) st'))).
  { intros res st' Hst'. eapply confined_trans; [exact Hst'|].
    apply write_file_confined. repeat constructor; discriminate. }
  destruct (negb _); [apply Hfin, H12|].
  pose proof (fetch_text_confined out_dir base_url
                (snd (fetch_robots base_url (snd (ensure_dir out_dir st)))))
    as H3.
  pose proof (confined_trans _ _ _ _ H12 H3) as H123.
  destruct (fst (fst (fst (fetch_text base_url _)))) as [html|];
    [|apply Hfin, H123].
  cbv zeta. cbn [snd]. apply Hfin.
  eapply confined_trans; [exact H123|apply crawl_confined].
Qed.

End FreshShape.

(** ** The robots cache *)

Section RobotsCache.
Context `{PyLib} `{Outside}.

Lemma fetch_robots_hit (u : str) (st : State) (rp : Robots) :
  st_cache st !! opt_or_empty (url_hostname u) = Some rp ->
  fetch_robots u st = (rp, st).
Proof. unfold fetch_robots. intros ->. reflexivity. Qed.

Lemma fetch_robots_trace (u : str) (st : State) :
  st_fs (snd (fetch_robots u st)) = st_fs st /\
  exists new,
    st_trace (snd (fetch_robots u st)) = new ++ st_trace st /\
    (new = [] \/ new = [EvGet (robots_url u)]).
Proof.
  unfold fetch_robots.
  destruct (st_cache st !! _) as [rp0|].
  - split; [reflexivity|]. exists []. split; [reflexivity|tauto].
  - unfold bind, ret, cache_set, client_get.
    destruct (http_get (st_env st) _) as [o env']. cbn [snd st_fs st_trace].
    split; [reflexivity|]. eexists [_]. split; [reflexivity|].
    right. reflexivity.
Qed.

(** X15: [fetch_robots] asks for robots.txt at most once per
    host: after a call the policy it returned is cached under the host
    of the URL; on a cache hit it returns the cached policy and changes
    nothing; on a miss it makes one request, for
    [scheme://host/robots.txt]; and a later call for any URL of the
    same host returns the same policy without any request. *)
Theorem fetch_robots_once (u : str) (st : State) :
  let host := opt_or_empty (url_hostname u) in
  let rp := fst (fetch_robots u st) in
  let st1 := snd (fetch_robots u st) in
  st_cache st1 !! host = Some rp /\
  match st_cache st !! host with
  | Some rp0 => rp = rp0 /\ st1 = st
  | None => st_trace st1 = EvGet (robots_url u) :: st_trace st
  end /\
  forall u', opt_or_empty (url_hostname u') = host ->
             fetch_robots u' st1 = (rp, st1).
Proof.
  cbv zeta.
  assert (Hcached : st_cache (snd (fetch_robots u st))
                      !! opt_or_empty (url_hostname u)
                    = Some (fst (fetch_robots u st))).
  { unfold fetch_robots.
    destruct (st_cache st !! _) as [rp0|] eqn:Hc; [exact Hc|].
    unfold bind, ret, cache_set, client_get.
    destruct (http_get (st_env st) _) as [o env']. cbn [fst snd st_cache].
    apply lookup_insert_eq. }
  split; [exact Hcached|]. split.
  - unfold fetch_robots.
    destruct (st_cache st !! _) as [rp0|]; [split; reflexivity|].
    unfold bind, ret, cache_set, client_get.
    destruct (http_get (st_env st) _) as [o env']. reflexivity.
  - intros u' Hhost. apply fetch_robots_hit. rewrite Hhost. exact Hcached.
Qed.

End RobotsCache.

(** ** One candidate *)

Lemma requests_app (a b : list Event) :
  requests (a ++ b) = requests a ++ requests b.
Proof. unfold requests. apply omap_app. Qed.

Lemma written_paths_app (a b : list Event) :
  written_paths (a ++ b) = written_paths a ++ written_paths b.
Proof. unfold written_paths. apply omap_app. Qed.

Section OneCandidate.
Context `{PyLib} `{Outside}.

(** X17: A candidate that robots.txt disallows is never requested: the
    visit adds the tag [blocked_by_robots:<url>], saves nothing, leaves
    the files as they are, and requests at most the robots.txt of the
    host of the candidate. *)
Theorem visit_blocked (out_dir : str) (mp : MenuPage) (result : Result)
    (saved : Z) (st : State) :
  can_fetch (fst (fetch_robots (url mp) st)) USER_AGENT (url mp) = false ->
  let out := visit out_dir mp result saved st in
  fst out = (add_error (lit "blocked_by_robots:" ++ url mp) result, saved) /\
  st_fs (snd out) = st_fs st /\
  exists new,
    st_trace (snd out) = new ++ st_trace st /\
    (new = [] \/ new = [EvGet (robots_url (url mp))]).
Proof.
  intros Hblocked. cbv zeta. unfold visit, bind, ret.
  pose proof (fetch_robots_trace (url mp) st) as Ht.
  destruct (fetch_robots (url mp) st) as [rp st0]. cbn [fst snd] in *.
  rewrite Hblocked. cbn [negb fst snd]. split; [reflexivity|exact Ht].
Qed.

(** X18: A candidate whose page is not a PDF and looks like an error
    page (status 400 or more, an error title, or a noindex page saying
    it does not exist) is never saved: the visit adds the tag
    [error_page:<url>:<status>], leaves the files as they are and
    writes nothing. *)
Theorem visit_error_page (out_dir : str) (mp : MenuPage) (result : Result)
    (saved : Z) (st : State) (body : Html) (ctype2 : option str)
    (status2 : option Z) :
  let st0 := snd (fetch_robots (url mp) st) in
  can_fetch (fst (fetch_robots (url mp) st)) USER_AGENT (url mp) = true ->
  fst (fetch_text (url mp) st0) = (Some body, ctype2, status2) ->
  is_pdf ctype2 = false ->
  looks_like_error_page body status2 = true ->
  let out := visit out_dir mp result saved st in
  fst out
  = (add_error (lit "error_page:" ++ url mp ++ lit ":" ++ fmt_opt_Z status2)
       result, saved) /\
  st_fs (snd out) = st_fs st /\
  exists new,
    st_trace (snd out) = new ++ st_trace st /\ written_paths new = [].
Proof.
  intros st0 Hallowed Hfetched Hpdf Herr. cbv zeta.
  unfold visit, bind, ret. subst st0.
  destruct (fetch_robots_trace (url mp) st) as (Hfs0 & new0 & Htr0 & Hnew0).
  destruct (fetch_robots (url mp) st) as [rp st0]. cbn [fst snd] in *.
  rewrite Hallowed. cbn [negb].
  pose proof (fetch_text_spec (url mp) st0) as Hspec.
  destruct (fetch_text (url mp) st0) as [x st1]. cbn [fst] in Hfetched.
  subst x. destruct (Hspec _ _ eq_refl) as (Hfs1 & Htr1).
  rewrite Hpdf, Herr. cbn [fst snd].
  split; [reflexivity|]. split; [congruence|].
  exists (EvGet (url mp) :: new0). split; [rewrite Htr1, Htr0; reflexivity|].
  destruct Hnew0 as [-> | ->]; reflexivity.
Qed.

(** X19: A candidate answered with a PDF content type is saved
    whenever the second request for it and the write succeed, guessed
    or not and whatever its content: the visit counts one more saved
    file, appends an entry flagged menu-like with the status and type
    of the first response, and the output directory holds the file
    [<label>.pdf] with the bytes of the second response. *)
Theorem visit_pdf_saved (out_dir : str) (mp : MenuPage) (result : Result)
    (saved : Z) (st : State) (pdf_resp : HttpResponse) :
  let st0 := snd (fetch_robots (url mp) st) in
  let fetched := fetch_text (url mp) st0 in
  let ctype2 := snd (fst (fst fetched)) in
  let status2 := snd (fst fetched) in
  let filename := save_label mp ++ lit ".pdf" in
  let content := fun _ : Env => FBytes (resp_content pdf_resp) in
  let st2 := snd (client_get (url mp) (snd fetched)) in
  can_fetch (fst (fetch_robots (url mp) st)) USER_AGENT (url mp) = true ->
  is_pdf ctype2 = true ->
  fst (client_get (url mp) (snd fetched)) = HttpOk pdf_resp ->
  fst (write_file out_dir filename content st2) = None ->
  let out := visit out_dir mp result saved st in
  fst out
  = (add_saved {| sf_url := Some (url mp);
                  sf_file := relpath (path_join out_dir filename);
                  sf_status := status2;
                  sf_content_type := ctype2;
                  sf_is_menu_like := true |} result, saved + 1) /\
  exists d, st_fs (snd out) !! out_dir = Some d /\
            d !! filename = Some (NFile (FBytes (resp_content pdf_resp))).
Proof.
  intros st0 fetched ctype2 status2 filename content st2
    Hallowed Hpdf Hget Hwrite. cbv zeta.
  unfold visit, bind, ret. subst st2 ctype2 status2 fetched st0.
  destruct (fetch_robots (url mp) st) as [rp st0]. cbn [fst snd] in *.
  rewrite Hallowed. cbn [negb].
  destruct (fetch_text (url mp) st0) as [[[body ctype2] status2] st1].
  cbn [fst snd] in *. rewrite Hpdf.
  destruct (client_get (url mp) st1) as [o st2]. cbn [fst snd] in *.
  subst o. fold filename. fold content.
  pose proof (write_file_spec out_dir filename content st2) as Hspec.
  destruct (write_file out_dir filename content st2) as [w st3].
  cbn [fst] in Hwrite. subst w.
  destruct (Hspec _ _ eq_refl) as (o & _ & _ & Hnone & _ & Hok).
  cbn [fst snd]. split; [reflexivity|].
  apply Hok, Hnone. reflexivity.
Qed.

End OneCandidate.

(** ** The entries of [saved_files] *)

Section SavedEntries.
Context `{PyLib} `{Outside}.

Lemma visit_outcome_holds (out_dir : str) (mp : MenuPage)
    (result : Result) (saved : Z) (st : State) :
  visit_outcome out_dir mp result saved
    (fst (visit out_dir mp result saved st)).
Proof.
  unfold visit, bind, ret.
  assert (Hsame : visit_outcome out_dir mp result saved (result, saved))
    by (left; tauto).
  assert (Htag : forall p rest, In p error_prefixes ->
    visit_outcome out_dir mp result saved
      (add_error (p ++ rest) result, saved)).
  { intros p rest Hp. left. split; [reflexivity|split; [reflexivity|]].
    right. exists (p ++ rest). split; [reflexivity|].
    exists p. split; [exact Hp|apply startswith_self_app]. }
  assert (Hin : forall p, existsb (str_eqb p) error_prefixes = true ->
                          In p error_prefixes).
  { intros p Hp. apply List.existsb_exists in Hp as (q & Hq & Heq).
    apply str_eqb_eq in Heq. subst q. exact Hq. }
  assert (Hadd : forall f, entry_of out_dir mp f ->
    visit_outcome out_dir mp result saved (add_saved f result, saved + 1))
    by (intros f Hf; right; split; [reflexivity|split; [reflexivity|]];
        exists f; split; [reflexivity|exact Hf]).
  destruct (fetch_robots (url mp) st) as [rp st0].
  destruct (negb _); [apply Htag, Hin; reflexivity|].
  destruct (fetch_text (url mp) st0) as [[[body ctype2] status2] st1].
  destruct (is_pdf ctype2).
  - destruct (client_get (url mp) st1) as [[pdf_resp|e] st2];
      [|apply Htag, Hin; reflexivity].
    destruct (write_file _ _ _ st2) as [[e|] st3]; [apply Htag, Hin; reflexivity|].
    apply Hadd. split; [reflexivity|]. split; [|discriminate].
    exists (lit ".pdf"). split; [right; left; reflexivity|reflexivity].
  - destruct body as [body|]; [|apply Htag, Hin; reflexivity].
    destruct (looks_like_error_page body status2); [apply Htag, Hin; reflexivity|].
    cbv zeta.
    assert (Hsave : forall flag,
      (flag = false ->
       guessed mp = false /\ path_implies_menu (url mp) = true /\
       host_matches_external (opt_or_empty (url_hostname (url mp)))
       = false) ->
      visit_outcome out_dir mp result saved
        (fst (let (w, st3) :=
                write_file out_dir (save_label mp ++ lit ".html")
                  (fun _ => FText (html_source body)) st1 in
              match w with
              | Some e =>
                  fun st => (add_error
                               (lit "write_failed:" ++ url mp ++ lit ":" ++ e)
                               result, saved, st)
              | None =>
                  fun st =>
                    (add_saved
                       {| sf_url := Some (url mp);
                          sf_file :=
                            relpath
                              (path_join out_dir
                                 (save_label mp ++ lit ".html"));
                          sf_status := status2;
                          sf_content_type := ctype2;
                          sf_is_menu_like := flag |} result, saved + 1, st)
              end st3))).
    { intros flag Hflag.
      destruct (write_file _ _ _ st1) as [[e|] st3]; [apply Htag, Hin; reflexivity|].
      apply Hadd. split; [reflexivity|]. split; [|exact Hflag].
      exists (lit ".html"). split; [left; reflexivity|reflexivity]. }
    destruct (is_menu_like body) eqn:Hlike;
      destruct (host_matches_external _) eqn:Hext; cbn [negb andb].
    + apply Hsave. discriminate.
    + apply Hsave. discriminate.
    + apply Hsave. discriminate.
    + destruct (guessed mp) eqn:Hg; [apply Hsame|].
      destruct (path_implies_menu (url mp)) eqn:Hpath; cbn [negb];
        [|apply Hsame].
      apply Hsave. intros _. repeat split; assumption.
Qed.

(** What the loop makes of the candidates: the entries it appends come
    from distinct candidates not seen before, and each candidate gives
    at most one entry or one error tag. *)
Lemma crawl_entries (out_dir : str) (max_pages_per_site : Z)
    (candidates : list MenuPage) (seen_urls : gset str)
    (result : Result) (saved : Z) (st : State) :
  let result' :=
    fst (fst (crawl out_dir max_pages_per_site candidates seen_urls
                result saved st)) in
  exists added tags,
    r_saved_files result' = r_saved_files result ++ added /\
    r_errors result' = r_errors result ++ tags /\
    (List.length added + List.length tags <= List.length candidates)%nat /\
    List.NoDup (List.map sf_url added) /\
    Forall (fun f => exists mp, In mp candidates /\ (url mp ∉ seen_urls) /\
                                entry_of out_dir mp f) added /\
    Forall known_tag tags.
Proof.
  cbv zeta. revert seen_urls result saved st.
  assert (Hstop : forall candidates (seen_urls : gset str) result,
    exists added tags,
      r_saved_files result = r_saved_files result ++ added /\
      r_errors result = r_errors result ++ tags /\
      (List.length added + List.length tags <= List.length candidates)%nat /\
      List.NoDup (List.map sf_url added) /\
      Forall (fun f => exists mp, In mp candidates /\ (url mp ∉ seen_urls) /\
                                  entry_of out_dir mp f) added /\
      Forall known_tag tags).
  { intros cands seen_urls result. exists [], [].
    rewrite !List.app_nil_r. repeat split; try constructor. cbn. lia. }
  induction candidates as [|mp rest IH]; intros seen_urls result saved st;
    cbn [crawl]; [apply Hstop|].
  destruct (Z.leb max_pages_per_site saved); [apply Hstop|].
  destruct (bool_decide (url mp ∈ seen_urls)) eqn:Hseen.
  { destruct (IH seen_urls result saved st)
      as (added & tags & Hf & He & Hlen & Hnd & Hall & Htags).
    exists added, tags. repeat split; try assumption.
    - cbn [List.length]. lia.
    - eapply List.Forall_impl; [|exact Hall].
      intros f (mp' & Hin & Hns & Hent). exists mp'.
      split; [right; exact Hin|tauto]. }
  apply bool_decide_eq_false in Hseen.
  unfold bind.
  pose proof (visit_outcome_holds out_dir mp result saved st) as Hv.
  destruct (visit out_dir mp result saved st) as [[result1 saved1] st1].
  cbn [fst] in Hv.
  destruct (IH (seen_urls ∪ {[url mp]}) result1 saved1 st1)
    as (added & tags & Hf & He & Hlen & Hnd & Hall & Htags).
  assert (Hall' : Forall (fun f => exists mp0, In mp0 (mp :: rest) /\
                                     (url mp0 ∉ seen_urls) /\
                                     entry_of out_dir mp0 f) added).
  { eapply List.Forall_impl; [|exact Hall].
    intros f (mp' & Hin & Hns & Hent). exists mp'.
    split; [right; exact Hin|]. split; [|exact Hent].
    intros Hs. apply Hns, elem_of_union. left. exact Hs. }
  destruct Hv as [(_ & Hf1 & He1)|(_ & He1 & f & Hf1 & Hent)].
  - destruct He1 as [He1|(tag & He1 & Hknown)].
    + exists added, tags. rewrite Hf, He, Hf1, He1.
      repeat split; try assumption. cbn [List.length]. lia.
    + exists added, (tag :: tags). rewrite Hf, He, Hf1, He1.
      rewrite <- List.app_assoc.
      repeat split; try assumption;
        [cbn [List.length]; lia|constructor; assumption].
  - exists (f :: added), tags. rewrite Hf, He, Hf1, He1.
    rewrite <- List.app_assoc.
    split; [reflexivity|]. split; [reflexivity|].
    split; [cbn [List.length]; lia|]. split.
    + cbn [List.map]. constructor; [|exact Hnd].
      intros Hin. apply List.in_map_iff in Hin as (f' & Hurl & Hin').
      pose proof (proj1 (List.Forall_forall _ _) Hall f' Hin')
        as (mp' & _ & Hns & Hent').
      destruct Hent as (Hu & _). destruct Hent' as (Hu' & _).
      apply Hns, elem_of_union. right. apply elem_of_singleton.
      congruence.
    + split; [|exact Htags]. constructor; [|exact Hall'].
      exists mp. split; [left; reflexivity|]. split; assumption.
Qed.

End SavedEntries.

Section FreshResults.
Context `{PyLib} `{Outside}.

Lemma all_candidates_length (base_url : str) (html : Html) :
  (List.length (all_candidates base_url html) <= 93)%nat.
Proof.
  unfold all_candidates. rewrite List.length_app.
  pose proof (List.firstn_le_length 12
                (sorted_by_score_desc
                   (odict_values (candidate_dict base_url html)))) as Hl.
  fold (discover_menu_links base_url html) in Hl.
  pose proof (List.filter_length_le
                (fun mp => negb (bool_decide
                   (url mp ∈ (list_to_set
                                (List.map url
                                   (discover_menu_links base_url html))
                              : gset str))))
                (build_guessed_menu_pages base_url)) as Hg.
  unfold build_guessed_menu_pages in Hg at 2.
  rewrite List.length_map in Hg.
  change (List.length COMMON_MENU_PATHS) with 81%nat in Hg. lia.
Qed.

(** X20: On a run that does not resume, for a restaurant with a
    website: no two entries of [saved_files] have the same URL; every
    entry comes from a candidate of the homepage that was fetched, has
    the URL of that candidate and a file named after its label, and is
    flagged as not menu-like only if the candidate was not guessed, is
    not on an external menu host and has a path that implies a menu;
    and saved files and error tags together number at most 94. *)
Theorem saved_entries_fresh (out_root : str) (r : Restaurant)
    (max_pages_per_site : Z) (st : State) (c : N) (w : str) :
  existing_menu_info (st_fs st) out_root r = None ->
  website r = Some (c :: w) ->
  let base_url := normalize_url (c :: w) in
  let out_dir := fst (restaurant_output_dir out_root r) in
  let st2 := snd (fetch_robots base_url (snd (ensure_dir out_dir st))) in
  let res := fst (process_restaurant out_root r max_pages_per_site st) in
  List.NoDup (List.map sf_url (r_saved_files res)) /\
  Forall
    (fun f =>
       exists html mp,
         fst (fst (fst (fetch_text base_url st2))) = Some html /\
         In mp (all_candidates base_url html) /\
         entry_of out_dir mp f)
    (r_saved_files res) /\
  (List.length (r_saved_files res) + List.length (r_errors res) <= 94)%nat.
Proof.
  intros Hex Hweb. cbv zeta.
  rewrite (process_restaurant_fresh _ _ _ _ c w Hex Hweb).
  set (out_dir := fst (restaurant_output_dir out_root r)).
  set (base_url := normalize_url (c :: w)).
  set (st2 := snd (fetch_robots base_url (snd (ensure_dir out_dir st)))).
  destruct (negb _).
  { cbn. repeat split; try constructor. lia. }
  destruct (fst (fst (fst (fetch_text base_url st2)))) as [html|].
  2: { cbn. repeat split; try constructor. lia. }
  cbv zeta. cbn [fst].
  destruct (crawl_entries out_dir max_pages_per_site
              (all_candidates base_url html) ∅ (initial_result r) 0
              (snd (fetch_text base_url st2)))
    as (added & tags & Hf & He & Hlen & Hnd & Hall & _).
  cbn [initial_result r_saved_files r_errors app] in Hf, He.
  pose proof (all_candidates_length base_url html) as Hmax.
  set (crawled := crawl _ _ _ _ _ _ _) in *.
  assert (Hfiles : forall res',
    r_saved_files res' = added ->
    List.NoDup (List.map sf_url (r_saved_files res')) /\
    Forall
      (fun f => exists html0 mp,
         Some html = Some html0 /\
         In mp (all_candidates base_url html0) /\ entry_of out_dir mp f)
      (r_saved_files res')).
  { intros res' ->. split; [exact Hnd|].
    eapply List.Forall_impl; [|exact Hall].
    intros f (mp & Hin & _ & Hent). exists html, mp. tauto. }
  destruct (fst (write_file _ _ _ (snd crawled))) as [e|].
  - destruct (Hfiles (add_error (lit "meta_write_failed:" ++ e)
                        (set_found (Z.ltb 0 (snd (fst crawled)))
                           (fst (fst crawled)))) Hf) as [H1 H2].
    split; [exact H1|]. split; [exact H2|].
    cbn [add_error set_found r_saved_files r_errors].
    rewrite Hf, He, List.length_app. cbn [List.length]. lia.
  - destruct (Hfiles (set_found (Z.ltb 0 (snd (fst crawled)))
                        (fst (fst crawled))) Hf) as [H1 H2].
    split; [exact H1|]. split; [exact H2|].
    cbn [set_found r_saved_files r_errors]. rewrite Hf, He. lia.
Qed.

(** X23: When robots.txt disallows the homepage, the run ends with the
    single tag [blocked_by_robots_home] and nothing found; the homepage
    is not requested (the only request possible is the one for
    robots.txt) and the only file written is [metadata.json]. *)
Theorem homepage_blocked (out_root : str) (r : Restaurant)
    (max_pages_per_site : Z) (st : State) (c : N) (w : str) :
  existing_menu_info (st_fs st) out_root r = None ->
  website r = Some (c :: w) ->
  let base_url := normalize_url (c :: w) in
  let out_dir := fst (restaurant_output_dir out_root r) in
  let st1 := snd (ensure_dir out_dir st) in
  can_fetch (fst (fetch_robots base_url st1)) USER_AGENT base_url = false ->
  let out := process_restaurant out_root r max_pages_per_site st in
  fst out = add_error (lit "blocked_by_robots_home") (initial_result r) /\
  exists new,
    st_trace (snd out) = new ++ st_trace st /\
    (forall u, In u (requests new) -> u = robots_url base_url) /\
    written_paths new = [path_join out_dir (lit "metadata.json")].
Proof.
  intros Hex Hweb base_url out_dir st1 Hblocked. cbv zeta.
  rewrite (process_restaurant_fresh _ _ _ _ c w Hex Hweb).
  fold base_url out_dir st1. rewrite Hblocked. cbn [negb fst snd].
  split; [reflexivity|].
  pose proof (ensure_dir_spec out_dir st) as H1.
  destruct (ensure_dir out_dir st) as [[] st1'] eqn:He1.
  destruct (H1 _ eq_refl) as (_ & _ & Ht1). subst st1. cbn [snd] in *.
  destruct (fetch_robots_trace base_url st1') as (_ & new2 & Ht2 & Hnew2).
  set (st2 := snd (fetch_robots base_url st1')) in *.
  pose proof (write_file_spec out_dir (lit "metadata.json")
                (metadata r base_url false [] [lit "blocked_by_robots_home"])
                st2) as H3.
  cbn [add_error initial_result r_found r_saved_files r_errors app].
  destruct (write_file _ _ _ st2) as [wres st3].
  destruct (H3 _ _ eq_refl) as (o & Ht3 & _). cbn [snd].
  eexists (_ :: new2 ++ [EvMkdir out_dir]).
  split; [rewrite Ht3, Ht2, Ht1; cbn [app]; rewrite <- List.app_assoc;
          reflexivity|].
  destruct Hnew2 as [-> | ->]; cbn; split; try reflexivity;
    intros u Hu; cbn in Hu; tauto || (destruct Hu as [<-|[]]; reflexivity).
Qed.

(** X24: When the homepage is allowed but gives no HTML (the
    request fails or the content type is not HTML), the run ends with
    the single tag [homepage_unavailable:<status>:<type>]; no candidate
    is requested, not even a guessed one, and the only file written is
    [metadata.json]. *)
Theorem homepage_unavailable (out_root : str) (r : Restaurant)
    (max_pages_per_site : Z) (st : State) (c : N) (w : str) :
  existing_menu_info (st_fs st) out_root r = None ->
  website r = Some (c :: w) ->
  let base_url := normalize_url (c :: w) in
  let out_dir := fst (restaurant_output_dir out_root r) in
  let st1 := snd (ensure_dir out_dir st) in
  let st2 := snd (fetch_robots base_url st1) in
  let fetched := fst (fetch_text base_url st2) in
  can_fetch (fst (fetch_robots base_url st1)) USER_AGENT base_url = true ->
  fst (fst fetched) = None ->
  let out := process_restaurant out_root r max_pages_per_site st in
  fst out
  = add_error
      (lit "homepage_unavailable:" ++ fmt_opt_Z (snd fetched) ++ lit ":"
       ++ fmt_opt_str (snd (fst fetched)))
      (initial_result r) /\
  exists new,
    st_trace (snd out) = new ++ st_trace st /\
    (forall u, In u (requests new) ->
       u = robots_url base_url \/ u = base_url) /\
    written_paths new = [path_join out_dir (lit "metadata.json")].
Proof.
  intros Hex Hweb base_url out_dir st1 st2 fetched Hallowed Hnone. cbv zeta.
  rewrite (process_restaurant_fresh _ _ _ _ c w Hex Hweb).
  fold base_url out_dir st1 st2. rewrite Hallowed. cbn [negb].
  fold fetched. rewrite Hnone. cbn [fst snd].
  split; [reflexivity|].
  pose proof (ensure_dir_spec out_dir st) as H1.
  destruct (ensure_dir out_dir st) as [[] st1'] eqn:He1.
  destruct (H1 _ eq_refl) as (_ & _ & Ht1). subst st1. cbn [snd] in *.
  destruct (fetch_robots_trace base_url st1') as (_ & new2 & Ht2 & Hnew2).
  fold st2 in Ht2.
  pose proof (fetch_text_spec base_url st2) as H3.
  destruct (fetch_text base_url st2) as [x st3].
  destruct (H3 _ _ eq_refl) as (_ & Ht3). cbn [snd].
  set (content := metadata r base_url _ _ _).
  pose proof (write_file_spec out_dir (lit "metadata.json") content st3)
    as H4.
  destruct (write_file _ _ _ st3) as [wres st4].
  destruct (H4 _ _ eq_refl) as (o & Ht4 & _). cbn [snd].
  eexists (_ :: EvGet base_url :: new2 ++ [EvMkdir out_dir]).
  split; [rewrite Ht4, Ht3, Ht2, Ht1; cbn [app]; rewrite <- List.app_assoc;
          reflexivity|].
  destruct Hnew2 as [-> | ->]; cbn; split; try reflexivity;
    intros u Hu; cbn in Hu; intuition (subst; auto).
Qed.

End FreshResults.

(** ** Resuming *)

Section Resuming.
Context `{PyLib} `{Outside}.

(** X26: A result [existing_menu_info] returns always has
    [found] and [skipped] set, the directory name [slug_unique] as its
    slug, at least one saved file, and a last error tag that says why
    it was skipped: [skipped_existing_menu] after the tags of the
    metadata, or [skipped_existing_menu_no_meta] alone, with entries
    rebuilt from file names. *)
Theorem resumed_result_shape (fs : gmap str (gmap str Node))
    (out_root : str) (r : Restaurant) (res : Result) :
  existing_menu_info fs out_root r = Some res ->
  r_found res = true /\ r_skipped res = Some true /\
  r_slug res = snd (restaurant_output_dir out_root r) /\
  r_saved_files res <> [] /\
  exists tags tag,
    r_errors res = tags ++ [tag] /\
    (tag = lit "skipped_existing_menu" \/
     tag = lit "skipped_existing_menu_no_meta" /\ tags = [] /\
     Forall reconstructed (r_saved_files res)).
Proof.
  unfold existing_menu_info.
  destruct (restaurant_output_dir out_root r) as [out_dir slug_unique].
  cbn [snd].
  destruct (fs !! out_dir) as [d|]; [|discriminate].
  destruct (result_from_meta slug_unique r d) as [res0|] eqn:Hmeta.
  - intros [= <-]. unfold result_from_meta in Hmeta.
    destruct (d !! lit "metadata.json") as [[c|]|]; try discriminate.
    destruct (json_load c) as [meta|]; [|discriminate].
    destruct (m_saved_files meta) as [saved_files|]; [|discriminate].
    destruct saved_files as [|f files]; [discriminate|].
    assert (Hres : exists l,
      res0 = {| r_uuid := default (uuid r) (m_uuid meta);
                r_slug := slug_unique;
                r_name := default (name r) (m_name meta);
                r_website := default (website r) (m_website meta);
                r_found := true;
                r_saved_files := f :: files;
                r_errors := l ++ [lit "skipped_existing_menu"];
                r_skipped := Some true |}).
    { destruct (m_errors meta) as [|l|]; try discriminate;
        injection Hmeta as <-; [exists []|exists l]; reflexivity. }
    destruct Hres as (l & ->).
    cbn [r_found r_skipped r_slug r_saved_files r_errors].
    split; [reflexivity|]. split; [reflexivity|].
    split; [reflexivity|]. split; [discriminate|].
    exists l, (lit "skipped_existing_menu").
    split; [reflexivity|left; reflexivity].
  - destruct (omap (scan_entry out_dir) (map_to_list d)) as [|f files]
      eqn:Hscan; [discriminate|].
    intros [= <-]. cbn [r_found r_skipped r_slug r_saved_files r_errors].
    split; [reflexivity|]. split; [reflexivity|].
    split; [reflexivity|]. split; [discriminate|].
    exists [], (lit "skipped_existing_menu_no_meta").
    split; [reflexivity|]. right.
    split; [reflexivity|]. split; [reflexivity|].
    rewrite <- Hscan. apply List.Forall_forall. intros f0 Hin.
    apply list_elem_of_In, list_elem_of_omap in Hin as (e & _ & He).
    exact (scan_entry_reconstructed out_dir e f0 He).
Qed.

(** X27: What a second run reads back: when a run that did not
    resume saved at least one file and has no [meta_write_failed] tag,
    any later run (with any page budget) on a file system where the
    output directory is as the first run left it returns, without any
    effect, the saved files and the uuid and name of the first result,
    its error tags followed by [skipped_existing_menu], the normalized
    website, and the directory name as slug. *)
Theorem resume_round_trip (out_root : str) (r : Restaurant)
    (max_pages_per_site max_pages_per_site' : Z) (st st' : State)
    (c : N) (w : str) :
  existing_menu_info (st_fs st) out_root r = None ->
  website r = Some (c :: w) ->
  let out_dir := fst (restaurant_output_dir out_root r) in
  let first := process_restaurant out_root r max_pages_per_site st in
  r_saved_files (fst first) <> [] ->
  Forall (fun tag => startswith tag (lit "meta_write_failed:") = false)
    (r_errors (fst first)) ->
  st_fs st' !! out_dir = st_fs (snd first) !! out_dir ->
  process_restaurant out_root r max_pages_per_site' st'
  = ({| r_uuid := uuid r;
        r_slug := snd (restaurant_output_dir out_root r);
        r_name := name r;
        r_website := Some (normalize_url (c :: w));
        r_found := true;
        r_saved_files := r_saved_files (fst first);
        r_errors := r_errors (fst first) ++ [lit "skipped_existing_menu"];
        r_skipped := Some true |}, st').
Proof.
  intros Hex Hweb out_dir first Hsaved Hclean Hdir.
  assert (Hmeta : exists d,
    st_fs (snd first) !! out_dir = Some d /\
    exists env,
      d !! lit "metadata.json"
      = Some (NFile (metadata r (normalize_url (c :: w)) true
                       (r_saved_files (fst first)) (r_errors (fst first))
                       env))).
  { subst first. revert Hsaved Hclean.
    rewrite (process_restaurant_fresh _ _ _ _ c w Hex Hweb).
    fold out_dir. set (base_url := normalize_url (c :: w)).
    destruct (negb _); [intros Hs; contradiction Hs; reflexivity|].
    destruct (fst (fst (fst (fetch_text base_url _)))) as [html|];
      [|intros Hs; contradiction Hs; reflexivity].
    cbv zeta. cbn [fst snd].
    set (crawled := crawl _ _ _ _ _ _ _).
    set (res := set_found (Z.ltb 0 (snd (fst crawled))) (fst (fst crawled))).
    set (content := metadata r base_url (r_found res) (r_saved_files res)
                      (r_errors res)).
    pose proof (write_file_spec out_dir (lit "metadata.json") content
                  (snd crawled)) as Hspec.
    destruct (write_file out_dir (lit "metadata.json") content (snd crawled))
      as [wres st5].
    destruct (Hspec _ _ eq_refl) as (o & _ & _ & Hnone & _ & Hok).
    cbn [fst snd]. destruct wres as [e|].
    { intros _ Hcl. exfalso.
      cbn [add_error r_errors] in Hcl.
      apply Forall_app in Hcl as [_ Hlast].
      apply List.Forall_inv in Hlast.
      rewrite (startswith_self_app (lit "meta_write_failed:") e) in Hlast.
      discriminate. }
    intros Hs _.
    destruct (Hok (proj1 Hnone eq_refl)) as (d & Hd & Hfile).
    exists d. split; [exact Hd|]. exists (st_env st5).
    rewrite Hfile. unfold content. do 3 f_equal.
    pose proof (crawl_spec out_dir max_pages_per_site
                  (all_candidates base_url html) ∅ (initial_result r) 0
                  (snd (fetch_text base_url
                          (snd (fetch_robots base_url
                                  (snd (ensure_dir out_dir st)))))))
      as Hc.
    fold crawled in Hc.
    destruct crawled as [[result1 saved1] st4].
    destruct Hc as (new & added & _ & _ & _ & Hfiles & Hsv & _).
    cbn [fst snd] in *. subst res.
    cbn [set_found r_found r_saved_files] in *.
    cbn [initial_result r_saved_files app] in Hfiles.
    rewrite Hfiles in Hs. apply Z.ltb_lt.
    destruct added; [contradiction Hs; reflexivity|].
    cbn [List.length] in Hsv. lia. }
  destruct Hmeta as (d & Hd & env & Hfile).
  unfold process_restaurant, existing_menu_info.
  destruct (restaurant_output_dir out_root r) as [od slug_unique] eqn:Hrod.
  cbn [fst snd] in *. subst out_dir. rewrite Hdir, Hd.
  unfold result_from_meta. rewrite Hfile.
  cbn [json_load metadata m_saved_files m_errors m_uuid m_name m_website].
  destruct (r_saved_files (fst first)) as [|f files];
    [contradiction Hsaved; reflexivity|].
  reflexivity.
Qed.

End Resuming.

(** ** Ranking *)

(** X7: The ranking of the candidates is stable: the candidates
    of any one score come out of the sort in the order they went in,
    which for [discover_menu_links] is the order of first insertion
    into the dictionary. *)
Theorem sorted_by_score_desc_stable (z : Z) (l : list MenuPage) :
  List.filter (fun mp => Z.eqb (score mp) z) (sorted_by_score_desc l)
  = List.filter (fun mp => Z.eqb (score mp) z) l.
Proof.
  assert (Hins : forall x l,
    List.filter (fun mp => Z.eqb (score mp) z) (insert_by_score x l)
    = List.filter (fun mp => Z.eqb (score mp) z) (x :: l)).
  { intros x l0. induction l0 as [|y l0 IH]; [reflexivity|].
    cbn [insert_by_score].
    destruct (Z.leb_spec (score y) (score x)) as [Hle|Hgt]; [reflexivity|].
    cbn [List.filter] in *. rewrite IH.
    destruct (Z.eqb_spec (score x) z) as [Hx|Hx];
      destruct (Z.eqb_spec (score y) z) as [Hy|Hy]; try reflexivity.
    lia. }
  induction l as [|x l IH]; [reflexivity|].
  cbn [sorted_by_score_desc List.fold_right].
  fold (sorted_by_score_desc l). rewrite Hins. cbn [List.filter].
  rewrite IH. reflexivity.
Qed.

(** ** What is requested *)

Section Requests.
Context `{PyLib} `{Outside}.

Lemma requests_within_refl (P : str -> Prop) (st : State) :
  requests_within P st st.
Proof. exists []. split; [reflexivity|constructor]. Qed.

Lemma requests_within_trans (P : str -> Prop) (st1 st2 st3 : State) :
  requests_within P st1 st2 -> requests_within P st2 st3 ->
  requests_within P st1 st3.
Proof.
  intros (n1 & Ht1 & Hp1) (n2 & Ht2 & Hp2). exists (n2 ++ n1).
  split; [rewrite Ht2, Ht1, List.app_assoc; reflexivity|].
  rewrite requests_app. apply Forall_app. split; assumption.
Qed.

Lemma requests_within_weaken (P Q : str -> Prop) (st st' : State) :
  (forall u, P u -> Q u) ->
  requests_within P st st' -> requests_within Q st st'.
Proof.
  intros HPQ (new & Ht & Hp). exists new. split; [exact Ht|].
  eapply List.Forall_impl; [exact HPQ|exact Hp].
Qed.

Lemma client_get_requests (P : str -> Prop) (u : str) (st : State) :
  P u -> requests_within P st (snd (client_get u st)).
Proof.
  intros Hu. unfold client_get.
  destruct (http_get (st_env st) u) as [o env']. cbn [snd].
  exists [EvGet u]. split; [reflexivity|]. repeat constructor. exact Hu.
Qed.

Lemma fetch_robots_requests (P : str -> Prop) (u : str) (st : State) :
  P (robots_url u) -> requests_within P st (snd (fetch_robots u st)).
Proof.
  intros Hu. destruct (fetch_robots_trace u st) as (_ & new & Ht & Hnew).
  exists new. split; [exact Ht|].
  destruct Hnew as [-> | ->]; repeat constructor. exact Hu.
Qed.

Lemma fetch_text_requests (P : str -> Prop) (u : str) (st : State) :
  P u -> requests_within P st (snd (fetch_text u st)).
Proof.
  intros Hu. pose proof (fetch_text_spec u st) as Hs.
  destruct (fetch_text u st) as [x st1].
  destruct (Hs _ _ eq_refl) as (_ & Ht). cbn [snd].
  exists [EvGet u]. split; [exact Ht|]. repeat constructor. exact Hu.
Qed.

Lemma write_file_requests (P : str -> Prop) (dir fn : str)
    (content : Env -> FileContent) (st : State) :
  requests_within P st (snd (write_file dir fn content st)).
Proof.
  pose proof (write_file_spec dir fn content st) as Hs.
  destruct (write_file dir fn content st) as [w st1].
  destruct (Hs _ _ eq_refl) as (o & Ht & _). cbn [snd].
  eexists [_]. split; [exact Ht|]. constructor.
Qed.

Lemma ensure_dir_requests (P : str -> Prop) (path : str) (st : State) :
  requests_within P st (snd (ensure_dir path st)).
Proof.
  pose proof (ensure_dir_spec path st) as Hs.
  destruct (ensure_dir path st) as [[] st1].
  destruct (Hs _ eq_refl) as (_ & _ & Ht). cbn [snd].
  exists [EvMkdir path]. split; [exact Ht|]. constructor.
Qed.

Lemma visit_requests (out_dir : str) (mp : MenuPage) (result : Result)
    (saved : Z) (st : State) :
  requests_within (candidate_request mp) st
    (snd (visit out_dir mp result saved st)).
Proof.
  unfold visit, bind, ret.
  pose proof (fetch_robots_requests (candidate_request mp) (url mp) st
                ltac:(right; reflexivity)) as Hr0.
  destruct (fetch_robots (url mp) st) as [rp st0]. cbn [snd] in Hr0.
  destruct (negb _); [exact Hr0|].
  pose proof (fetch_text_requests (candidate_request mp) (url mp) st0
                ltac:(left; reflexivity)) as Hr1.
  destruct (fetch_text (url mp) st0) as [[[body ctype2] status2] st1].
  cbn [snd] in Hr1.
  pose proof (requests_within_trans _ _ _ _ Hr0 Hr1) as Hr01.
  destruct (is_pdf ctype2).
  - pose proof (client_get_requests (candidate_request mp) (url mp) st1
                  ltac:(left; reflexivity)) as Hr2.
    destruct (client_get (url mp) st1) as [pdf st2]. cbn [snd] in Hr2.
    pose proof (requests_within_trans _ _ _ _ Hr01 Hr2) as Hr02.
    destruct pdf as [pdf_resp|e]; [|exact Hr02].
    pose proof (write_file_requests (candidate_request mp) out_dir
                  (save_label mp ++ lit ".pdf")
                  (fun _ => FBytes (resp_content pdf_resp)) st2) as Hr3.
    destruct (write_file _ _ _ st2) as [w st3].
    destruct w; eapply requests_within_trans; eassumption.
  - destruct body as [body|]; [|exact Hr01].
    destruct (looks_like_error_page body status2); [exact Hr01|].
    cbv zeta.
    assert (Hsave : forall flag,
      requests_within (candidate_request mp) st
        (snd (let (w, st3) :=
                write_file out_dir (save_label mp ++ lit ".html")
                  (fun _ => FText (html_source body)) st1 in
              match w with
              | Some e =>
                  fun st => (add_error
                               (lit "write_failed:" ++ url mp ++ lit ":" ++ e)
                               result, saved, st)
              | None =>
                  fun st =>
                    (add_saved
                       {| sf_url := Some (url mp);
                          sf_file :=
                            relpath
                              (path_join out_dir
                                 (save_label mp ++ lit ".html"));
                          sf_status := status2;
                          sf_content_type := ctype2;
                          sf_is_menu_like := flag |} result, saved + 1, st)
              end st3))).
    { intros flag.
      pose proof (write_file_requests (candidate_request mp) out_dir
                    (save_label mp ++ lit ".html")
                    (fun _ => FText (html_source body)) st1) as Hr3.
      destruct (write_file _ _ _ st1) as [w st3].
      destruct w; eapply requests_within_trans; eassumption. }
    destruct (negb (is_menu_like body) && negb (host_matches_external _)).
    + destruct (guessed mp); [exact Hr01|].
      destruct (negb (path_implies_menu (url mp))); [exact Hr01|].
      apply Hsave.
    + destruct (host_matches_external _); apply Hsave.
Qed.

Lemma crawl_requests (out_dir : str) (max_pages_per_site : Z)
    (candidates : list MenuPage) (seen_urls : gset str)
    (result : Result) (saved : Z) (st : State) :
  requests_within
    (fun u => exists mp, In mp candidates /\ candidate_request mp u) st
    (snd (crawl out_dir max_pages_per_site candidates seen_urls result
            saved st)).
Proof.
  revert seen_urls result saved st.
  induction candidates as [|mp rest IH]; intros seen_urls result saved st;
    cbn [crawl]; [apply requests_within_refl|].
  destruct (Z.leb max_pages_per_site saved); [apply requests_within_refl|].
  assert (Hrest : forall seen_urls result saved st,
    requests_within
      (fun u => exists mp0, In mp0 (mp :: rest) /\ candidate_request mp0 u)
      st (snd (crawl out_dir max_pages_per_site rest seen_urls result
                 saved st))).
  { intros s0 r0 sv0 st0. eapply requests_within_weaken; [|apply IH].
    intros u (mp0 & Hin & Hu). exists mp0. split; [right; exact Hin|exact Hu]. }
  destruct (bool_decide (url mp ∈ seen_urls)); [apply Hrest|].
  unfold bind.
  pose proof (visit_requests out_dir mp result saved st) as Hv.
  destruct (visit out_dir mp result saved st) as [[result1 saved1] st1].
  cbn [snd] in Hv.
  eapply requests_within_trans; [|apply Hrest].
  eapply requests_within_weaken; [|exact Hv].
  intros u Hu. exists mp. split; [left; reflexivity|exact Hu].
Qed.

Lemma crawl_no_budget (out_dir : str) (max_pages_per_site : Z)
    (candidates : list MenuPage) (seen_urls : gset str)
    (result : Result) (saved : Z) (st : State) :
  max_pages_per_site <= saved ->
  crawl out_dir max_pages_per_site candidates seen_urls result saved st
  = (result, saved, st).
Proof.
  intros Hle. destruct candidates as [|mp rest]; cbn [crawl];
    [reflexivity|].
  destruct (Z.leb_spec max_pages_per_site saved); [reflexivity|lia].
Qed.

(** X21: On a run that does not resume, for a restaurant with a
    website, every call of [client.get] is for the robots.txt of the
    site, for its homepage, for a candidate of the fetched homepage, or
    for the robots.txt of the host of such a candidate: the program
    asks for no other URL.  (Where the client is redirected it goes on
    within the call; the statement is about the URLs the program
    passes to it.) *)
Theorem requests_are_candidates (out_root : str) (r : Restaurant)
    (max_pages_per_site : Z) (st : State) (c : N) (w : str) :
  existing_menu_info (st_fs st) out_root r = None ->
  website r = Some (c :: w) ->
  let base_url := normalize_url (c :: w) in
  let out_dir := fst (restaurant_output_dir out_root r) in
  let st2 := snd (fetch_robots base_url (snd (ensure_dir out_dir st))) in
  requests_within
    (fun u =>
       u = robots_url base_url \/ u = base_url \/
       exists html mp,
         fst (fst (fst (fetch_text base_url st2))) = Some html /\
         In mp (all_candidates base_url html) /\
         candidate_request mp u)
    st (snd (process_restaurant out_root r max_pages_per_site st)).
Proof.
  intros Hex Hweb. cbv zeta.
  rewrite (process_restaurant_fresh _ _ _ _ c w Hex Hweb).
  set (out_dir := fst (restaurant_output_dir out_root r)).
  set (base_url := normalize_url (c :: w)).
  set (st2 := snd (fetch_robots base_url (snd (ensure_dir out_dir st)))).
  set (P := fun u => _ \/ _ \/ _).
  pose proof (ensure_dir_requests P out_dir st) as H1.
  pose proof (fetch_robots_requests P base_url (snd (ensure_dir out_dir st))
                ltac:(left; reflexivity)) as H2.
  fold st2 in H2.
  pose proof (requests_within_trans _ _ _ _ H1 H2) as H12.
  assert (Hfin : forall res st',
    requests_within P st st' ->
    requests_within P st
      (snd (write_file out_dir (lit "metadata.json")
              (metadata r base_url (r_found res) (r_saved_files res)
                 (r_errors res)) st'))).
  { intros res st' Hst'. eapply requests_within_trans; [exact Hst'|].
    apply write_file_requests. }
  destruct (negb _); [apply Hfin, H12|].
  pose proof (fetch_text_requests P base_url st2
                ltac:(right; left; reflexivity)) as H3.
  pose proof (requests_within_trans _ _ _ _ H12 H3) as H123.
  subst P.
  destruct (fst (fst (fst (fetch_text base_url st2)))) as [html|];
    [|apply Hfin, H123].
  cbv zeta. cbn [snd]. apply Hfin.
  eapply requests_within_trans; [exact H123|].
  eapply requests_within_weaken; [|apply crawl_requests].
  intros u (mp & Hin & Hu). right. right. exists html, mp. tauto.
Qed.

(** X25: With a page budget of 0 or less a run that does not resume
    visits no candidate: it reports nothing found and no saved file,
    and requests nothing but robots.txt and the homepage. *)
Theorem zero_budget (out_root : str) (r : Restaurant)
    (max_pages_per_site : Z) (st : State) (c : N) (w : str) :
  existing_menu_info (st_fs st) out_root r = None ->
  website r = Some (c :: w) ->
  max_pages_per_site <= 0 ->
  let base_url := normalize_url (c :: w) in
  let out := process_restaurant out_root r max_pages_per_site st in
  r_found (fst out) = false /\
  r_saved_files (fst out) = [] /\
  requests_within (fun u => u = robots_url base_url \/ u = base_url)
    st (snd out).
Proof.
  intros Hex Hweb Hmax. cbv zeta.
  rewrite (process_restaurant_fresh _ _ _ _ c w Hex Hweb).
  set (out_dir := fst (restaurant_output_dir out_root r)).
  set (base_url := normalize_url (c :: w)).
  set (st2 := snd (fetch_robots base_url (snd (ensure_dir out_dir st)))).
  set (P := fun u => u = robots_url base_url \/ u = base_url).
  pose proof (ensure_dir_requests P out_dir st) as H1.
  pose proof (fetch_robots_requests P base_url (snd (ensure_dir out_dir st))
                ltac:(left; reflexivity)) as H2.
  fold st2 in H2.
  pose proof (requests_within_trans _ _ _ _ H1 H2) as H12.
  assert (Hfin : forall res st',
    requests_within P st st' ->
    requests_within P st
      (snd (write_file out_dir (lit "metadata.json")
              (metadata r base_url (r_found res) (r_saved_files res)
                 (r_errors res)) st'))).
  { intros res st' Hst'. eapply requests_within_trans; [exact Hst'|].
    apply write_file_requests. }
  destruct (negb _).
  { split; [reflexivity|]. split; [reflexivity|]. apply Hfin, H12. }
  pose proof (fetch_text_requests P base_url st2
                ltac:(right; reflexivity)) as H3.
  pose proof (requests_within_trans _ _ _ _ H12 H3) as H123.
  destruct (fst (fst (fst (fetch_text base_url st2)))) as [html|].
  2: { split; [reflexivity|]. split; [reflexivity|]. apply Hfin, H123. }
  cbv zeta. rewrite crawl_no_budget by exact Hmax. cbn [fst snd].
  split; [|split; [|apply Hfin, H123]].
  - destruct (fst (write_file _ _ _ _)); reflexivity.
  - destruct (fst (write_file _ _ _ _)); reflexivity.
Qed.

(** X16: [fetch_text] returns a body only when the request
    succeeded; the body is then the text of the response, the status is
    that of the response, and the content type reported with it
    contains [text/html] or is [application/xhtml+xml], so it is never
    empty. *)
Theorem fetch_text_html_only (u : str) (st : State) (body : Html) :
  fst (fst (fst (fetch_text u st))) = Some body ->
  exists resp ctype,
    fst (client_get u st) = HttpOk resp /\
    body = resp_text resp /\
    snd (fst (fetch_text u st)) = Some (resp_status resp) /\
    snd (fst (fst (fetch_text u st))) = Some ctype /\
    (contains ctype (lit "text/html") = true \/
     ctype = lit "application/xhtml+xml").
Proof.
  unfold fetch_text, bind, ret.
  destruct (client_get u st) as [[resp|e] st1]; [|discriminate].
  set (ctype := str_lower _).
  destruct (contains ctype (lit "text/html")) eqn:Hhtml; cbn [orb].
  { intros [= <-]. exists resp, (str_or ctype (lit "text/html")).
    repeat split. left. destruct ctype; [reflexivity|exact Hhtml]. }
  destruct (str_eqb ctype (lit "application/xhtml+xml")) eqn:Hx; cbn [orb].
  { intros [= <-]. exists resp, (str_or ctype (lit "text/html")).
    repeat split. right. apply str_eqb_eq in Hx. rewrite Hx. reflexivity. }
  destruct (str_eqb ctype []) eqn:He; [|discriminate].
  intros [= <-]. exists resp, (str_or ctype (lit "text/html")).
  repeat split. left. apply str_eqb_eq in He. rewrite He. reflexivity.
Qed.

End Requests.

(** ** The further properties on the examples *)

Section FurtherExamples.
Import Demo.

(** X2 on the page saved for the guess [/menu]. *)
Lemma saved_names_resumable_witness :
  let fn := save_label (guess "https://x.com") ++ lit ".html" in
  fn <> lit "metadata.json" /\
  Forall (fun x => x <> 47%N) fn /\
  scan_entry (lit "menus/bistro--89abcdef") (fn, NFile (FText (lit "Menu")))
  = Some {| sf_url := None;
            sf_file :=
              relpath (path_join (lit "menus/bistro--89abcdef") fn);
            sf_status := None; sf_content_type := None;
            sf_is_menu_like := true |}.
Proof.
  apply (saved_names_resumable (lit "menus/bistro--89abcdef")
           (guess "https://x.com") (lit ".html") (FText (lit "Menu"))).
  left. reflexivity.
Defined.

(** X3 on a link to the menu. *)
Lemma score_link_positive_hint_witness :
  let t := str_lower (strip (lit "Our Menu")) in
  let h := str_lower (strip (lit "/menu")) in
  (exists kw, In kw POSITIVE_MENU_HINTS /\
              (contains t kw = true \/ contains h kw = true)) \/
  endswith h (lit ".pdf") = true.
Proof.
  apply (score_link_positive_hint (lit "Our Menu") (lit "/menu")).
  vm_compute. reflexivity.
Defined.

(** X14 on a fresh and a resumed run of [cafe]. *)
Lemma skipped_counted_found_witness :
  (skipped_count
     [fst (process_restaurant (lit "menus") cafe 1 (start web ∅));
      fst (process_restaurant (lit "menus") cafe 1 (start web two_pages))]
   <= found_count
        [fst (process_restaurant (lit "menus") cafe 1 (start web ∅));
         fst (process_restaurant (lit "menus") cafe 1
                (start web two_pages))])%nat.
Proof.
  apply (skipped_counted_found
           [fst (process_restaurant (lit "menus") cafe 1 (start web ∅));
            fst (process_restaurant (lit "menus") cafe 1
                   (start web two_pages))]).
  repeat constructor.
  - exists (lit "menus"), cafe, 1, (start web ∅). reflexivity.
  - exists (lit "menus"), cafe, 1, (start web two_pages). reflexivity.
Defined.

(** X16 on the homepage of [bistro]. *)
Lemma fetch_text_html_only_witness :
  exists resp ctype,
    fst (client_get (lit "https://x.com") (start web ∅)) = HttpOk resp /\
    plain "Welcome to our bistro" = resp_text resp /\
    snd (fst (fetch_text (lit "https://x.com") (start web ∅)))
    = Some (resp_status resp) /\
    snd (fst (fst (fetch_text (lit "https://x.com") (start web ∅))))
    = Some ctype /\
    (contains ctype (lit "text/html") = true \/
     ctype = lit "application/xhtml+xml").
Proof.
  apply (fetch_text_html_only (lit "https://x.com") (start web ∅)
           (plain "Welcome to our bistro")).
  vm_compute. reflexivity.
Defined.

(** X17 on the guess [/menu] of a site closed by its robots.txt. *)
Lemma visit_blocked_witness :
  let out :=
    visit (lit "menus/bistro--89abcdef") (guess "https://x.com")
      (blank bistro) 0 (start closed ∅) in
  fst out
  = (add_error (lit "blocked_by_robots:" ++ url (guess "https://x.com"))
       (blank bistro), 0) /\
  st_fs (snd out) = st_fs (start closed ∅) /\
  exists new,
    st_trace (snd out) = new ++ st_trace (start closed ∅) /\
    (new = [] \/
     new = [EvGet (robots_url (url (guess "https://x.com")))]).
Proof.
  apply (visit_blocked (lit "menus/bistro--89abcdef")
           (guess "https://x.com") (blank bistro) 0 (start closed ∅)).
  vm_compute. reflexivity.
Defined.

(** X18 on the guess [/menu] of a site that answers it with 404. *)
Lemma visit_error_page_witness :
  let out :=
    visit (lit "menus/bistro--89abcdef") (guess "https://x.com")
      (blank bistro) 0 (start mixed ∅) in
  fst out
  = (add_error
       (lit "error_page:" ++ url (guess "https://x.com") ++ lit ":"
        ++ fmt_opt_Z (Some 404))
       (blank bistro), 0) /\
  st_fs (snd out) = st_fs (start mixed ∅) /\
  exists new,
    st_trace (snd out) = new ++ st_trace (start mixed ∅) /\
    written_paths new = [].
Proof.
  apply (visit_error_page (lit "menus/bistro--89abcdef")
           (guess "https://x.com") (blank bistro) 0 (start mixed ∅)
           (plain "Nothing here") (Some (lit "text/html")) (Some 404)).
  - vm_compute. reflexivity.
  - vm_compute. reflexivity.
  - vm_compute. reflexivity.
  - vm_compute. reflexivity.
Defined.

(** X19 on the guess [/menu.pdf] of a site that serves a PDF. *)
Lemma visit_pdf_saved_witness :
  let st := start mixed empty_dir in
  let out_dir := lit "menus/bistro--89abcdef" in
  let filename := save_label pdf_guess ++ lit ".pdf" in
  let fetched :=
    fetch_text (url pdf_guess) (snd (fetch_robots (url pdf_guess) st)) in
  let out := visit out_dir pdf_guess (blank bistro) 0 st in
  fst out
  = (add_saved {| sf_url := Some (url pdf_guess);
                  sf_file := relpath (path_join out_dir filename);
                  sf_status := snd (fst fetched);
                  sf_content_type := snd (fst (fst fetched));
                  sf_is_menu_like := true |} (blank bistro), 0 + 1) /\
  exists d,
    st_fs (snd out) !! out_dir = Some d /\
    d !! filename
    = Some (NFile (FBytes (resp_content
                             (answer 200 "application/pdf" "%PDF-1.4")))).
Proof.
  apply (visit_pdf_saved (lit "menus/bistro--89abcdef") pdf_guess
           (blank bistro) 0 (start mixed empty_dir)
           (answer 200 "application/pdf" "%PDF-1.4")).
  - vm_compute. reflexivity.
  - vm_compute. reflexivity.
  - vm_compute. reflexivity.
  - vm_compute. reflexivity.
Defined.

(** X20 on the run of [cafe]. *)
Lemma saved_entries_fresh_witness :
  let base_url := normalize_url (lit "x.square.site") in
  let out_dir := fst (restaurant_output_dir (lit "menus") cafe) in
  let st2 :=
    snd (fetch_robots base_url (snd (ensure_dir out_dir (start web ∅)))) in
  let res := fst (process_restaurant (lit "menus") cafe 1 (start web ∅)) in
  List.NoDup (List.map sf_url (r_saved_files res)) /\
  Forall
    (fun f =>
       exists html mp,
         fst (fst (fst (fetch_text base_url st2))) = Some html /\
         In mp (all_candidates base_url html) /\
         entry_of out_dir mp f)
    (r_saved_files res) /\
  (List.length (r_saved_files res) + List.length (r_errors res) <= 94)%nat.
Proof.
  apply (saved_entries_fresh (lit "menus") cafe 1 (start web ∅)
           120%N (lit ".square.site")).
  - vm_compute. reflexivity.
  - reflexivity.
Defined.

(** X21 on the run of [cafe]. *)
Lemma requests_are_candidates_witness :
  let base_url := normalize_url (lit "x.square.site") in
  let out_dir := fst (restaurant_output_dir (lit "menus") cafe) in
  let st2 :=
    snd (fetch_robots base_url (snd (ensure_dir out_dir (start web ∅)))) in
  requests_within
    (fun u =>
       u = robots_url base_url \/ u = base_url \/
       exists html mp,
         fst (fst (fst (fetch_text base_url st2))) = Some html /\
         In mp (all_candidates base_url html) /\
         candidate_request mp u)
    (start web ∅)
    (snd (process_restaurant (lit "menus") cafe 1 (start web ∅))).
Proof.
  apply (requests_are_candidates (lit "menus") cafe 1 (start web ∅)
           120%N (lit ".square.site")).
  - vm_compute. reflexivity.
  - reflexivity.
Defined.

(** X23 on [bistro], whose site is closed by its robots.txt. *)
Lemma homepage_blocked_witness :
  let base_url := normalize_url (lit "https://x.com") in
  let out_dir := fst (restaurant_output_dir (lit "menus") bistro) in
  let out := process_restaurant (lit "menus") bistro 5 (start closed ∅) in
  fst out = add_error (lit "blocked_by_robots_home") (initial_result bistro)
  /\
  exists new,
    st_trace (snd out) = new ++ st_trace (start closed ∅) /\
    (forall u, In u (requests new) -> u = robots_url base_url) /\
    written_paths new = [path_join out_dir (lit "metadata.json")].
Proof.
  apply (homepage_blocked (lit "menus") bistro 5 (start closed ∅)
           104%N (lit "ttps://x.com")).
  - vm_compute. reflexivity.
  - reflexivity.
  - vm_compute. reflexivity.
Defined.

(** X24 on [bistro], with no server answering. *)
Lemma homepage_unavailable_witness :
  let base_url := normalize_url (lit "https://x.com") in
  let out_dir := fst (restaurant_output_dir (lit "menus") bistro) in
  let st2 :=
    snd (fetch_robots base_url
           (snd (ensure_dir out_dir (start offline ∅)))) in
  let fetched := fst (fetch_text base_url st2) in
  let out := process_restaurant (lit "menus") bistro 5 (start offline ∅) in
  fst out
  = add_error
      (lit "homepage_unavailable:" ++ fmt_opt_Z (snd fetched) ++ lit ":"
       ++ fmt_opt_str (snd (fst fetched)))
      (initial_result bistro) /\
  exists new,
    st_trace (snd out) = new ++ st_trace (start offline ∅) /\
    (forall u, In u (requests new) ->
       u = robots_url base_url \/ u = base_url) /\
    written_paths new = [path_join out_dir (lit "metadata.json")].
Proof.
  apply (homepage_unavailable (lit "menus") bistro 5 (start offline ∅)
           104%N (lit "ttps://x.com")).
  - vm_compute. reflexivity.
  - reflexivity.
  - vm_compute. reflexivity.
  - vm_compute. reflexivity.
Defined.

(** X25 on [cafe] with a budget of no page. *)
Lemma zero_budget_witness :
  let base_url := normalize_url (lit "x.square.site") in
  let out := process_restaurant (lit "menus") cafe 0 (start web ∅) in
  r_found (fst out) = false /\
  r_saved_files (fst out) = [] /\
  requests_within (fun u => u = robots_url base_url \/ u = base_url)
    (start web ∅) (snd out).
Proof.
  apply (zero_budget (lit "menus") cafe 0 (start web ∅)
           120%N (lit ".square.site")).
  - vm_compute. reflexivity.
  - reflexivity.
  - lia.
Defined.

(** X26 on a directory that holds two pages and no metadata. *)
Lemma resumed_result_shape_witness :
  let res :=
    fst (process_restaurant (lit "menus") cafe 1 (start web two_pages)) in
  r_found res = true /\ r_skipped res = Some true /\
  r_slug res = snd (restaurant_output_dir (lit "menus") cafe) /\
  r_saved_files res <> [] /\
  exists tags tag,
    r_errors res = tags ++ [tag] /\
    (tag = lit "skipped_existing_menu" \/
     tag = lit "skipped_existing_menu_no_meta" /\ tags = [] /\
     Forall reconstructed (r_saved_files res)).
Proof.
  apply (resumed_result_shape two_pages (lit "menus") cafe).
  vm_compute. reflexivity.
Defined.

(** X27 on [cafe]: the second run reads back what the first one
    saved. *)
Lemma resume_round_trip_witness :
  let first := process_restaurant (lit "menus") cafe 1 (start web ∅) in
  let st' := start offline (st_fs (snd first)) in
  process_restaurant (lit "menus") cafe 5 st'
  = ({| r_uuid := uuid cafe;
        r_slug := snd (restaurant_output_dir (lit "menus") cafe);
        r_name := name cafe;
        r_website := Some (normalize_url (lit "x.square.site"));
        r_found := true;
        r_saved_files := r_saved_files (fst first);
        r_errors := r_errors (fst first) ++ [lit "skipped_existing_menu"];
        r_skipped := Some true |}, st').
Proof.
  apply (resume_round_trip (lit "menus") cafe 1 5 (start web ∅)
           (start offline
              (st_fs (snd (process_restaurant (lit "menus") cafe 1
                             (start web ∅)))))
           120%N (lit ".square.site")).
  - vm_compute. reflexivity.
  - reflexivity.
  - vm_compute. discriminate.
  - vm_compute. constructor.
  - reflexivity.
Defined.

(** [load_restaurants] and the selection of [run] on two objects of
    a restaurants file: the second has no name, no uuid and a blank
    website. *)
Example load_restaurants_demo :
  load_restaurants [raw_cafe; raw_stall]
  = [ {| uuid := lit "0123456789ab"; slug := lit "cafe-bar";
         name := lit "Cafe & Bar";
         website := Some (lit "x.square.site") |};
      {| uuid := []; slug := lit "restaurant"; name := lit "restaurant";
         website := None |} ] /\
  select_restaurants (load_restaurants [raw_cafe; raw_stall]) (cli_limit 0) 0
  = [load_restaurant raw_cafe].
Proof. vm_compute. split; reflexivity. Qed.

End FurtherExamples.

(** ** Where candidates and error tags come from *)

Section Provenance.
Context `{PyLib} `{Outside}.

(** X28: [discover_menu_links] invents neither a URL nor a score: every
    candidate it returns is the one put in for a menu-like homepage
    (the base URL, label [menu], score 5), or has the URL that an
    anchor of the homepage with a non-empty href resolves to and the
    score computed for that anchor, which is above 0. *)
Theorem discover_candidates_from_anchors (base_url : str) (html : Html)
    (mp : MenuPage) :
  In mp (discover_menu_links base_url html) ->
  is_menu_like html = true /\ mp = homepage_candidate base_url \/
  exists a, In a (soup_anchors html) /\
            anchor_target base_url a = Some (url mp) /\
            anchor_points base_url a = score mp /\
            0 < score mp.
Proof.
  intros Hin. apply discover_in_dict in Hin.
  destruct (is_menu_like html) eqn:Hlike.
  - destruct (decide (url mp = base_url)) as [Heq|Hne].
    + left. split; [reflexivity|].
      unfold candidate_dict in Hin. rewrite Hlike, Heq in Hin.
      rewrite odict_get_set_eq in Hin. injection Hin as <-. reflexivity.
    + right. rewrite candidate_dict_other in Hin by (right; exact Hne).
      destruct (anchors_dict_inv base_url html) as (_ & Hent & _).
      destruct (Hent _ _ Hin) as (_ & Hpos & (a & Ha & Ht & Hp) & _).
      exists a. tauto.
  - right. rewrite candidate_dict_other in Hin by (left; exact Hlike).
    destruct (anchors_dict_inv base_url html) as (_ & Hent & _).
    destruct (Hent _ _ Hin) as (_ & Hpos & (a & Ha & Ht & Hp) & _).
    exists a. tauto.
Qed.

Lemma known_tag_intro (p rest : str) :
  List.existsb (str_eqb p) error_prefixes = true -> known_tag (p ++ rest).
Proof.
  intros Hp. apply List.existsb_exists in Hp as (q & Hq & Heq).
  apply str_eqb_eq in Heq. subst q.
  exists p. split; [exact Hq|apply startswith_self_app].
Qed.

(** X29: Every error tag in the result of a run that does not resume
    starts with one of the nine prefixes of [error_prefixes]:
    [no_website], [blocked_by_robots_home], [homepage_unavailable:],
    [blocked_by_robots:], [fetch_failed:], [error_page:],
    [write_failed:], [write_failed_pdf:] or [meta_write_failed:]. *)
Theorem error_tags_known (out_root : str) (r : Restaurant)
    (max_pages_per_site : Z) (st : State) :
  existing_menu_info (st_fs st) out_root r = None ->
  Forall known_tag
    (r_errors (fst (process_restaurant out_root r max_pages_per_site st))).
Proof.
  intros Hex.
  assert (Hone : forall p rest,
    List.existsb (str_eqb p) error_prefixes = true ->
    Forall known_tag [p ++ rest])
    by (intros p rest Hp; repeat constructor; apply known_tag_intro, Hp).
  destruct (website r) as [[|c w]|] eqn:Hweb.
  1, 3: unfold process_restaurant; rewrite Hex, Hweb;
    apply (Hone (lit "no_website") []); reflexivity.
  rewrite (process_restaurant_fresh _ _ _ _ c w Hex Hweb).
  set (out_dir := fst (restaurant_output_dir out_root r)).
  set (base_url := normalize_url (c :: w)).
  destruct (negb _).
  { apply (Hone (lit "blocked_by_robots_home") []). reflexivity. }
  destruct (fst (fst (fst (fetch_text base_url _)))) as [html|].
  2: { apply Hone. reflexivity. }
  cbv zeta. cbn [fst].
  set (st3 := snd (fetch_text base_url _)).
  destruct (crawl_entries out_dir max_pages_per_site
              (all_candidates base_url html) ∅ (initial_result r) 0 st3)
    as (added & tags & _ & He & _ & _ & _ & Htags).
  cbn [initial_result r_errors app] in He.
  set (crawled := crawl _ _ _ _ _ _ _) in *.
  destruct (fst (write_file _ _ _ (snd crawled))) as [e|];
    cbn [add_error set_found r_errors]; rewrite He; [|exact Htags].
  apply Forall_app. split; [exact Htags|].
  apply Hone. reflexivity.
Qed.

End Provenance.

Section ProvenanceExamples.
Import Demo.

(** X28 on the homepage with two links to the menu. *)
Lemma discover_candidates_from_anchors_witness :
  let mp := mk_page (lit "https://x.com/menu") (lit "our menu") 9 false in
  is_menu_like home_two_menu_links = true /\ mp = homepage_candidate site \/
  exists a, In a (soup_anchors home_two_menu_links) /\
            anchor_target site a = Some (url mp) /\
            anchor_points site a = score mp /\
            0 < score mp.
Proof.
  apply (discover_candidates_from_anchors site home_two_menu_links
           (mk_page (lit "https://x.com/menu") (lit "our menu") 9 false)).
  vm_compute. left. reflexivity.
Defined.

(** X29 on [bistro], with no server answering. *)
Lemma error_tags_known_witness :
  Forall known_tag
    (r_errors
       (fst (process_restaurant (lit "menus") bistro 5 (start offline ∅)))).
Proof.
  apply (error_tags_known (lit "menus") bistro 5 (start offline ∅)).
  vm_compute. reflexivity.
Defined.

End ProvenanceExamples.
